(** * AI job assistant: intent orchestrator, retriever and re-ranker

    A shallow embedding of the Python sources under [app/]:
    [memory.py], [intent_parser.py], [followup.py], [intent_handler.py],
    [job_retriever.py], [job_response_final.py], [response_chain.py] and
    [job_ranker.py].

    Python values are an inductive type [pyval]; dictionaries are
    insertion-ordered association lists with Python's update semantics;
    the process-wide [user_sessions] map is a [gmap]; code that can raise
    lives in the [exc] monad and [try ... except Exception] is [try_except].
    The text-completion service, the vector index, [json.loads] and
    Python's [str()] are outside the repository: they are section
    variables, so every theorem holds for each of their behaviours. *)

From Stdlib Require Import ZArith List Bool Ascii String Lia.
From Stdlib Require Import DecimalString Sorted.
From Stdlib Require Import Floats.SpecFloat.
From stdpp Require Import base option gmap strings.
Import ListNotations.

Set Warnings "-register-all,-notation-for-abbreviation".

Local Open Scope string_scope.
Local Open Scope Z_scope.

(* ===================================================================== *)
(** ** Python values *)
(* ===================================================================== *)

(** The values that [json.loads], the LangChain JSON parser and the vector
    store's metadata can hand to the program.  Floats are IEEE values in
    the Standard Library's [spec_float] representation. *)
Inductive pyval : Type :=
| PyNone
| PyBool (b : bool)
| PyInt (n : Z)
| PyFloat (f : spec_float)
| PyStr (s : string)
| PyList (l : list pyval)
| PyDict (d : list (string * pyval)).

(** A Python [dict] with string keys: an association list in insertion
    order.  A well-formed dictionary has no repeated key. *)
Notation pydict := (list (string * pyval)).

(** Python truthiness, the test performed by [if v:]. *)
Definition truthy (v : pyval) : bool :=
  match v with
  | PyNone => false
  | PyBool b => b
  | PyInt n => negb (n =? 0)
  | PyFloat (S754_zero _) => false
  | PyFloat _ => true
  | PyStr s => negb (String.eqb s "")
  | PyList l => match l with [] => false | _ => true end
  | PyDict d => match d with [] => false | _ => true end
  end.

(** [v is None]. *)
Definition is_none (v : pyval) : bool :=
  match v with PyNone => true | _ => false end.

(** [isinstance(v, list)] and [isinstance(v, dict)]. *)
Definition is_list (v : pyval) : bool :=
  match v with PyList _ => true | _ => false end.

Definition is_dict (v : pyval) : bool :=
  match v with PyDict _ => true | _ => false end.

(* ===================================================================== *)
(** ** Exceptions *)
(* ===================================================================== *)

(** A computation either returns or raises a Python [Exception]. *)
Inductive exc (A : Type) : Type :=
| Ok (a : A)
| Raise.
Arguments Ok {A} a.
Arguments Raise {A}.

Definition exc_bind {A B} (m : exc A) (k : A -> exc B) : exc B :=
  match m with
  | Ok a => k a
  | Raise => Raise
  end.

Notation "x <-! m ; k" := (exc_bind m (fun x => k))
  (at level 100, m at next level, right associativity).

(** [try: body  except Exception: handler]. *)
Definition try_except {A} (body : exc A) (handler : exc A) : exc A :=
  match body with
  | Ok a => Ok a
  | Raise => handler
  end.

(* ===================================================================== *)
(** ** Dictionaries *)
(* ===================================================================== *)

Module Dict.

Definition keys (d : pydict) : list string := map fst d.

(** [d.get(k)] as an option: [None] when the key is absent. *)
Fixpoint lookup (k : string) (d : pydict) : option pyval :=
  match d with
  | [] => None
  | (k', v) :: d' => if String.eqb k k' then Some v else lookup k d'
  end.

(** [d.get(k, default)]. *)
Definition get_default (k : string) (default : pyval) (d : pydict) : pyval :=
  match lookup k d with
  | Some v => v
  | None => default
  end.

(** [d.get(k)]: the default is [None]. *)
Definition get (k : string) (d : pydict) : pyval := get_default k PyNone d.

(** [d[k]]: raises [KeyError] when the key is absent. *)
Definition item (k : string) (d : pydict) : exc pyval :=
  match lookup k d with
  | Some v => Ok v
  | None => Raise
  end.

(** [d[k] = v]: an existing key keeps its position, a new key is
    appended. *)
Fixpoint set (k : string) (v : pyval) (d : pydict) : pydict :=
  match d with
  | [] => [(k, v)]
  | (k', v') :: d' =>
      if String.eqb k k' then (k', v) :: d' else (k', v') :: set k v d'
  end.

End Dict.

(* ===================================================================== *)
(** ** Strings *)
(* ===================================================================== *)

(** Strings are sequences of code points below 256. *)
Module Str.

(** [c.isspace()] on the code points below 256. *)
Definition isspace (c : ascii) : bool :=
  let n := nat_of_ascii c in
  (((9 <=? n) && (n <=? 13)) || ((28 <=? n) && (n <=? 32))
   || (n =? 133) || (n =? 160))%nat.

(** [c.lower()] on the code points below 256. *)
Definition lower_char (c : ascii) : ascii :=
  let n := nat_of_ascii c in
  if (((65 <=? n) && (n <=? 90))
      || ((192 <=? n) && (n <=? 222) && negb (n =? 215)))%nat
  then ascii_of_nat (n + 32) else c.

Fixpoint lower (s : string) : string :=
  match s with
  | EmptyString => EmptyString
  | String c s' => String (lower_char c) (lower s')
  end.

Fixpoint lstrip (s : string) : string :=
  match s with
  | EmptyString => EmptyString
  | String c s' => if isspace c then lstrip s' else s
  end.

(** The reversal of a string, used to strip and search from the right. *)
Fixpoint rev_onto (s acc : string) : string :=
  match s with
  | EmptyString => acc
  | String c s' => rev_onto s' (String c acc)
  end.

Definition rev (s : string) : string := rev_onto s EmptyString.

Definition rstrip (s : string) : string := rev (lstrip (rev s)).

(** [s.strip()]. *)
Definition strip (s : string) : string := rstrip (lstrip s).

(** [s.startswith(p)]. *)
Definition startswith (p s : string) : bool := String.prefix p s.

(** [s.endswith(p)]. *)
Definition endswith (p s : string) : bool := String.prefix (rev p) (rev s).

(** [s[n:]] for [n >= 0]. *)
Fixpoint drop (n : nat) (s : string) : string :=
  match n, s with
  | O, _ => s
  | S _, EmptyString => EmptyString
  | S n', String _ s' => drop n' s'
  end.

(** [s[:n]] for [n >= 0]. *)
Fixpoint take (n : nat) (s : string) : string :=
  match n, s with
  | O, _ => EmptyString
  | S _, EmptyString => EmptyString
  | S n', String c s' => String c (take n' s')
  end.

(** [s[i:j]] for [0 <= i] and [0 <= j]. *)
Definition slice (i j : nat) (s : string) : string :=
  take (j - i) (drop i s).

(** [sub in s]. *)
Fixpoint contains (sub s : string) : bool :=
  String.prefix sub s ||
  match s with
  | EmptyString => false
  | String _ s' => contains sub s'
  end.

(** [s.find(sub)]: the least index at which [sub] occurs, [-1] when it
    does not occur. *)
Fixpoint find_from (i : Z) (sub s : string) : Z :=
  if String.prefix sub s then i
  else match s with
       | EmptyString => -1
       | String _ s' => find_from (i + 1) sub s'
       end.

Definition find (sub s : string) : Z := find_from 0 sub s.

(** [s.rfind(sub)]: the greatest such index, [-1] when there is none. *)
Fixpoint rfind_from (i : Z) (sub s : string) : Z :=
  let later :=
    match s with
    | EmptyString => -1
    | String _ s' => rfind_from (i + 1) sub s'
    end in
  if 0 <=? later then later
  else if String.prefix sub s then i else -1.

Definition rfind (sub s : string) : Z := rfind_from 0 sub s.

(** [s.replace(old, new)] for a non-empty [old]: occurrences are replaced
    from the left and do not overlap.  [skip] counts the characters of
    the occurrence just replaced that are still to be passed over. *)
Fixpoint replace_skip (skip : nat) (old new s : string) : string :=
  match s with
  | EmptyString => EmptyString
  | String c s' =>
      match skip with
      | S k => replace_skip k old new s'
      | O =>
          if String.prefix old s
          then String.append new
                 (replace_skip (String.length old - 1) old new s')
          else String c (replace_skip O old new s')
      end
  end.

Definition replace (old new s : string) : string :=
  replace_skip O old new s.

(** [sep.join(parts)]. *)
Definition join (sep : string) (parts : list string) : string :=
  String.concat sep parts.

End Str.

(* ===================================================================== *)
(** ** app/memory.py: the session store *)
(* ===================================================================== *)

(** One entry of [chat_history]: [{"role": role, "message": message}].  The
    message of an assistant entry is the follow-up question, which is
    [None] when the question could not be generated. *)
Record chat_entry : Type := ChatEntry {
  chat_role : string;
  chat_message : option string
}.

(** A session: [{"intent": ..., "attempts": ..., "chat_history": ...}]. *)
Record session : Type := Session {
  intent : pydict;
  attempts : Z;
  chat_history : list chat_entry
}.

(** The module-level [user_sessions] dictionary. *)
Notation user_sessions := (gmap string session).

(** Stateful code: the store is threaded through, and a call may raise. *)
Definition M (A : Type) : Type := user_sessions -> exc (A * user_sessions).

Definition ret {A} (a : A) : M A := fun st => Ok (a, st).

Definition bind {A B} (m : M A) (k : A -> M B) : M B :=
  fun st => match m st with
            | Ok (a, st') => k a st'
            | Raise => Raise
            end.

Definition lift {A} (e : exc A) : M A :=
  fun st => match e with
            | Ok a => Ok (a, st)
            | Raise => Raise
            end.

Notation "x <- m ;; k" := (bind m (fun x => k))
  (at level 100, m at next level, right associativity).

(** The five semantic fields, in the order in which every intent literal
    of the sources lists them. *)
Definition INTENT_FIELDS : list string :=
  ["role"; "location"; "salary"; "domain"; "remote"].

(** The intent with every field bound to [None]. *)
Definition empty_intent : pydict :=
  [("role", PyNone); ("location", PyNone); ("salary", PyNone);
   ("domain", PyNone); ("remote", PyNone)].

Definition new_session : session :=
  {| intent := empty_intent; attempts := 0; chat_history := [] |}.

(** [get_session]: creates the session on first reference.  Python returns
    a reference to the stored object; here the reference is the user id,
    read back with [deref] and written with [update_ref]. *)
Definition get_session (user_id : string) : M session :=
  fun st => match st !! user_id with
            | Some s => Ok (s, st)
            | None => Ok (new_session, <[user_id := new_session]> st)
            end.

(** Reading through a session reference obtained from [get_session]. *)
Definition deref (user_id : string) : M session :=
  fun st => match st !! user_id with
            | Some s => Ok (s, st)
            | None => Raise
            end.

(** Mutating the object behind a session reference. *)
Definition update_ref (user_id : string) (f : session -> session) : M unit :=
  fun st => match st !! user_id with
            | Some s => Ok (tt, <[user_id := f s]> st)
            | None => Raise
            end.

Definition append_chat_history (user_id role : string)
    (message : option string) : M unit :=
  _ <- get_session user_id ;;
  update_ref user_id (fun s =>
    {| intent := intent s; attempts := attempts s;
       chat_history :=
         chat_history s ++ [{| chat_role := role; chat_message := message |}] |}).

(** [reset_session]: [user_sessions.pop(user_id, None)]. *)
Definition reset_session (user_id : string) : M unit :=
  fun st => Ok (tt, delete user_id st).

(* ===================================================================== *)
(** ** app/intent_parser.py *)
(* ===================================================================== *)

(** [result.get(k)] on the value returned by the chain: only a dictionary
    has a [get] method, anything else raises [AttributeError]. *)
Definition py_get (result : pyval) (k : string) : exc pyval :=
  match result with
  | PyDict d => Ok (Dict.get k d)
  | _ => Raise
  end.

Section IntentParser.

(** [chain.invoke({"user_input": user_input})] of [prompt | model |
    parser]: the parsed JSON value, or an exception of the call or of
    the output parser. *)
Variable chain_invoke : string -> exc pyval.

Definition parse_intent (user_input : string) : exc pydict :=
  try_except
    (result <-! chain_invoke user_input ;
     role <-! py_get result "role" ;
     location <-! py_get result "location" ;
     salary <-! py_get result "salary" ;
     domain <-! py_get result "domain" ;
     remote <-! py_get result "remote" ;
     Ok [("role", role); ("location", location); ("salary", salary);
         ("domain", domain); ("remote", remote)])
    (Ok empty_intent).

End IntentParser.

(* ===================================================================== *)
(** ** app/followup.py *)
(* ===================================================================== *)

Definition REQUIRED_FIELDS : gset string :=
  {[ "role"; "location"; "salary" ]}.

Definition get_missing_fields (intent : pydict) : list string :=
  map fst (List.filter (fun kv => is_none (snd kv)) intent).

Definition is_critical_missing (intent : pydict) : bool :=
  existsb (fun kv => bool_decide (fst kv ∈ REQUIRED_FIELDS))
          (List.filter (fun kv => is_none (snd kv)) intent).

Section Followup.

(** [chain.invoke({"missing_fields": ..., "current_intent": ...})] of
    [prompt | model], projected on [result.content]. *)
Variable chain_invoke : string -> pydict -> exc string.

Definition get_followup_question (intent : pydict) : exc (option string) :=
  let missing_fields := get_missing_fields intent in
  match missing_fields with
  | [] => Ok None
  | _ =>
      try_except
        (content <-! chain_invoke (Str.join ", " missing_fields) intent ;
         Ok (Some (Str.strip content)))
        (Ok None)
  end.

End Followup.

(* ===================================================================== *)
(** ** app/intent_handler.py: the orchestrator *)
(* ===================================================================== *)

Definition MAX_ATTEMPTS : Z := 3.

Definition FAILED_MESSAGE : string :=
  "I'm sorry, your request is still unclear after 3 tries. Please rephrase or try again.".

Definition REFINE_MESSAGE : string :=
  "I have found some matches, but I can refine them further with more information.".

(** The dictionary returned by [handle_user_query]; the constructor is its
    ["type"] entry. *)
Inductive response : Type :=
| RespError (message : string) (intent : pydict)
| RespFollowup (followup : option string) (intent : pydict)
| RespComplete (intent : pydict) (followup : option string)
    (message : option string) (chat_history : list chat_entry).

Definition resp_type (r : response) : string :=
  match r with
  | RespError _ _ => "error"
  | RespFollowup _ _ => "followup_required"
  | RespComplete _ _ _ _ => "intent_complete"
  end.

Definition resp_intent (r : response) : pydict :=
  match r with
  | RespError _ i => i
  | RespFollowup _ i => i
  | RespComplete i _ _ _ => i
  end.

(** The merge loop of [handle_user_query]:
    [for k, v in new_intent.items(): if v: session["intent"][k] = v]. *)
Definition merge_intent (old new_intent : pydict) : pydict :=
  fold_left (fun acc kv => if truthy (snd kv) then Dict.set (fst kv) (snd kv) acc
                           else acc)
            new_intent old.

(** Truthiness of an optional string ([None] and [""] are falsy). *)
Definition truthy_opt (o : option string) : bool :=
  match o with
  | Some s => negb (String.eqb s "")
  | None => false
  end.

(** The two completion chains the orchestrator reaches. *)
Record services : Type := Services {
  intent_chain : string -> exc pyval;
  followup_chain : string -> pydict -> exc string
}.

Definition handle_user_query (svc : services) (user_input user_id : string)
    : M response :=
  _ <- get_session user_id ;;
  _ <- append_chat_history user_id "user" (Some user_input) ;;
  new_intent <- lift (parse_intent (intent_chain svc) user_input) ;;
  _ <- update_ref user_id (fun s =>
         {| intent := merge_intent (intent s) new_intent;
            attempts := attempts s; chat_history := chat_history s |}) ;;
  session <- deref user_id ;;
  if is_critical_missing (intent session) then
    _ <- update_ref user_id (fun s =>
           {| intent := intent s; attempts := attempts s + 1;
              chat_history := chat_history s |}) ;;
    session <- deref user_id ;;
    if attempts session >=? MAX_ATTEMPTS then
      ret (RespError FAILED_MESSAGE (intent session))
    else
      followup <- lift (get_followup_question (followup_chain svc)
                          (intent session)) ;;
      _ <- append_chat_history user_id "assistant" followup ;;
      session <- deref user_id ;;
      ret (RespFollowup followup (intent session))
  else
    followup_optional <- lift (get_followup_question (followup_chain svc)
                                 (intent session)) ;;
    let message := if truthy_opt followup_optional then Some REFINE_MESSAGE
                   else None in
    ret (RespComplete (intent session) followup_optional message
           (chat_history session)).

(** One call of the conversation: what the user typed and how the
    completion service answers during that call. *)
Record turn : Type := Turn {
  utterance : string;
  turn_services : services
}.

(** Successive calls of [handle_user_query] for one user id. *)
Fixpoint run_turns (user_id : string) (ts : list turn) : M (list response) :=
  match ts with
  | [] => ret []
  | t :: ts' =>
      r <- handle_user_query (turn_services t) (utterance t) user_id ;;
      rs <- run_turns user_id ts' ;;
      ret (r :: rs)
  end.

(* ===================================================================== *)
(** ** Derived definitions used by the proofs *)
(* ===================================================================== *)

(** One iteration of the merge loop. *)
Definition merge_step (acc : pydict) (kv : string * pyval) : pydict :=
  if truthy (snd kv) then Dict.set (fst kv) (snd kv) acc else acc.

(** The value of a computation known to return. *)
Definition exc_get {A} (default : A) (e : exc A) : A :=
  match e with
  | Ok a => a
  | Raise => default
  end.

(** The intent extracted from an utterance ([parse_intent] always
    returns, see [parse_intent_total]). *)
Definition parsed_intent (chain_invoke : string -> exc pyval)
    (user_input : string) : pydict :=
  exc_get empty_intent (parse_intent chain_invoke user_input).

(** The follow-up question for an intent ([get_followup_question] always
    returns, see [get_followup_question_total]). *)
Definition followup_for (chain_invoke : string -> pydict -> exc string)
    (i : pydict) : option string :=
  exc_get None (get_followup_question chain_invoke i).

(** What one call does to the session of its user, and what it returns. *)
Definition step_session (svc : services) (user_input : string) (s0 : session)
    : response * session :=
  let hist := (chat_history s0 ++ [ChatEntry "user" (Some user_input)])%list in
  let merged :=
    merge_intent (intent s0) (parsed_intent (intent_chain svc) user_input) in
  let followup := followup_for (followup_chain svc) merged in
  if is_critical_missing merged then
    if attempts s0 + 1 >=? MAX_ATTEMPTS then
      (RespError FAILED_MESSAGE merged, Session merged (attempts s0 + 1) hist)
    else
      (RespFollowup followup merged,
       Session merged (attempts s0 + 1)
         (hist ++ [ChatEntry "assistant" followup])%list)
  else
    (RespComplete merged followup
       (if truthy_opt followup then Some REFINE_MESSAGE else None) hist,
     Session merged (attempts s0) hist).

(** The session a call starts from: the stored one, or a fresh one. *)
Definition session_of (st : user_sessions) (user_id : string) : session :=
  default new_session (st !! user_id).

(** [f] is bound to something other than [None]. *)
Definition is_known (f : string) (d : pydict) : bool :=
  negb (is_none (Dict.get f d)).

(** The three required fields are known. *)
Definition required_known (d : pydict) : bool :=
  is_known "role" d && is_known "location" d && is_known "salary" d.


(** The responses of successive calls, as a function of the session the
    first call starts from. *)
Fixpoint responses (ts : list turn) (s : session) : list response :=
  match ts with
  | [] => []
  | t :: ts' =>
      let rs := step_session (turn_services t) (utterance t) s in
      fst rs :: responses ts' (snd rs)
  end.

(** What one turn adds to the known intent: the fields extracted from
    its utterance, merged over what was known. *)
Definition merge_turn (known : pydict) (t : turn) : pydict :=
  merge_intent known
    (parsed_intent (intent_chain (turn_services t)) (utterance t)).

(** The intent known after the turns [ts] of a conversation that starts
    with nothing known. *)
Definition known_after (ts : list turn) : pydict :=
  fold_left merge_turn ts empty_intent.

(** The operations through which the rest of the program reaches the
    session store.  [update_session], the raw setter of [memory.py], is
    imported by the orchestrator but called nowhere. *)
Inductive op : Type :=
| OpGetSession (user_id : string)
| OpAppendChat (user_id role : string) (message : option string)
| OpReset (user_id : string)
| OpHandle (svc : services) (user_input user_id : string).

(** Running one operation; a call of [handle_user_query] reports its
    response, tagged with its user id. *)
Definition exec_op (o : op) : M (list (string * response)) :=
  match o with
  | OpGetSession u => _ <- get_session u ;; ret []
  | OpAppendChat u role message => _ <- append_chat_history u role message ;; ret []
  | OpReset u => _ <- reset_session u ;; ret []
  | OpHandle svc user_input u =>
      r <- handle_user_query svc user_input u ;; ret [(u, r)]
  end.

Fixpoint exec_ops (os : list op) : M (list (string * response)) :=
  match os with
  | [] => ret []
  | o :: os' =>
      out <- exec_op o ;;
      outs <- exec_ops os' ;;
      ret (out ++ outs)%list
  end.

(** [o] is [reset_session(user_id)]. *)
Definition is_reset_of (user_id : string) (o : op) : bool :=
  match o with
  | OpReset u => String.eqb u user_id
  | _ => false
  end.

(** Every stored intent has exactly the five keys. *)
Definition store_inv (st : user_sessions) : Prop :=
  forall u s, st !! u = Some s -> Dict.keys (intent s) = INTENT_FIELDS.

(** What an operation does to the session of its user. *)
Definition op_session (o : op) (s : session) : session :=
  match o with
  | OpGetSession _ => s
  | OpAppendChat _ role message =>
      {| intent := intent s; attempts := attempts s;
         chat_history := (chat_history s ++ [ChatEntry role message])%list |}
  | OpReset _ => s
  | OpHandle svc user_input _ => snd (step_session svc user_input s)
  end.

Definition op_user (o : op) : string :=
  match o with
  | OpGetSession u | OpAppendChat u _ _ | OpReset u | OpHandle _ _ u => u
  end.

Definition op_output (o : op) (s : session) : list (string * response) :=
  match o with
  | OpHandle svc user_input u => [(u, fst (step_session svc user_input s))]
  | _ => []
  end.

(** Completion services of the examples: one that always fails, one that
    extracts a role only, and one that extracts the three required
    fields. *)
Definition svc_failing : services :=
  {| intent_chain := fun _ => Raise; followup_chain := fun _ _ => Raise |}.

Definition svc_role_only : services :=
  {| intent_chain := fun _ => Ok (PyDict [("role", PyStr "data analyst")]);
     followup_chain := fun _ _ => Ok "Which location and salary?" |}.

Definition svc_required : services :=
  {| intent_chain := fun _ =>
       Ok (PyDict [("role", PyStr "data analyst"); ("location", PyStr "New York");
                   ("salary", PyStr "120000")]);
     followup_chain := fun _ _ => Ok "Any preferred domain?" |}.

(** What an operation does to the store. *)
Definition op_store (o : op) (st : user_sessions) : user_sessions :=
  match o with
  | OpReset u => delete u st
  | _ => <[op_user o := op_session o (session_of st (op_user o))]> st
  end.

(** The conversation of [user_id] has been answered "intent_complete":
    no required field is missing from its session. *)
Definition completed (user_id : string) (st : user_sessions) : Prop :=
  exists s, st !! user_id = Some s /\ is_critical_missing (intent s) = false.

(** The conversation of [user_id] has used up its attempts. *)
Definition exhausted (user_id : string) (st : user_sessions) : Prop :=
  exists s, st !! user_id = Some s /\ MAX_ATTEMPTS <= attempts s.

(* ===================================================================== *)
(** ** Values shared by the retrievers and the re-rankers *)
(* ===================================================================== *)

(** Structural equality of Python values is decidable. *)
Definition spec_float_eq_dec (x y : spec_float) : {x = y} + {x <> y}.
Proof.
  decide equality; first [apply Bool.bool_dec | apply Pos.eq_dec | apply Z.eq_dec].
Defined.

Definition pyval_eq_dec : forall a b : pyval, {a = b} + {a <> b}.
Proof.
  fix IH 1. intros a b. decide equality.
  - apply Bool.bool_dec.
  - apply Z.eq_dec.
  - apply spec_float_eq_dec.
  - apply String.string_dec.
  - apply List.list_eq_dec, IH.
  - apply List.list_eq_dec. intros [k1 v1] [k2 v2].
    destruct (String.string_dec k1 k2) as [->|Hk].
    + destruct (IH v1 v2) as [->|Hv]; [now left|right; congruence].
    + right; congruence.
Defined.

(** The line feed and the tabulation. *)
Definition LF : string := String (ascii_of_nat 10) EmptyString.
Definition TAB : string := String (ascii_of_nat 9) EmptyString.

(** [enumerate(l, i)]. *)
Fixpoint enumerate_from {A} (i : Z) (l : list A) : list (Z * A) :=
  match l with
  | [] => []
  | x :: l' => (i, x) :: enumerate_from (i + 1) l'
  end.

(** [v.strip()] and [v.lower()]: only a string has these methods. *)
Definition py_strip (v : pyval) : exc string :=
  match v with
  | PyStr s => Ok (Str.strip s)
  | _ => Raise
  end.

Definition py_lower (v : pyval) : exc string :=
  match v with
  | PyStr s => Ok (Str.lower s)
  | _ => Raise
  end.

(** [if len(jobs) > 30: jobs = jobs[:30]]. *)
Definition first_thirty (jobs : list pydict) : list pydict :=
  if (30 <? List.length jobs)%nat then firstn 30 jobs else jobs.

(** A document of the vector store, and a hit of a similarity search. *)
Record document : Type := Document {
  page_content : string;
  metadata : pydict
}.

Notation hit := (document * spec_float)%type.

(* ===================================================================== *)
(** ** app/job_retriever.py *)
(* ===================================================================== *)

Module JobRetriever.
Section Retriever.

(** [self.vectorstore.similarity_search_with_score(query, k=k)]; it
    raises when the index cannot be reached. *)
Variable similarity_search_with_score : string -> Z -> exc (list hit).

(** Python's [str()], as used by f-strings. *)
Variable py_str : pyval -> string.

(** [round(score, 4)]. *)
Variable round4 : spec_float -> spec_float.

Definition create_search_query (intent : pydict) : string :=
  let parts := [] in
  let parts := if truthy (Dict.get "role" intent)
               then (parts ++ ["Role: " +:+ py_str (Dict.get "role" intent)])%list
               else parts in
  let parts := if truthy (Dict.get "domain" intent)
               then (parts ++ ["Domain: " +:+ py_str (Dict.get "domain" intent)])%list
               else parts in
  let parts := if truthy (Dict.get "location" intent)
               then (parts ++ ["Location: " +:+ py_str (Dict.get "location" intent)])%list
               else parts in
  let parts := match Dict.get "remote" intent with
               | PyStr "yes" => (parts ++ ["Remote friendly"])%list
               | _ => parts
               end in
  let parts := if truthy (Dict.get "salary" intent)
               then (parts ++ ["Salary: " +:+ py_str (Dict.get "salary" intent)])%list
               else parts in
  Str.join " " parts.

(** The dictionary built for hit number [i] (from 0). *)
Definition format_hit (i : Z) (h : hit) : pydict :=
  let (doc, score) := h in
  [("rank", PyInt (i + 1));
   ("job_id", Dict.get "id" (metadata doc));
   ("title", Dict.get "title" (metadata doc));
   ("company", Dict.get "company" (metadata doc));
   ("location", Dict.get "location" (metadata doc));
   ("description", PyStr (page_content doc));
   ("similarity_score", PyFloat (round4 score));
   ("metadata", PyDict (metadata doc))].

Definition retrieve_jobs (intent : pydict) (top_k : Z) : exc (list pydict) :=
  let query := create_search_query intent in
  results <-! similarity_search_with_score query top_k ;
  Ok (map (fun ih => format_hit (fst ih) (snd ih)) (enumerate_from 0 results)).

(** The test of the list comprehension of [filter_by_location]. *)
Definition location_matches (target : string) (job : pydict) : exc bool :=
  loc <-! py_lower (Dict.get_default "location" (PyStr "") job) ;
  if Str.contains target loc then Ok true
  else
    loc' <-! py_lower (Dict.get_default "location" (PyStr "") job) ;
    Ok (Str.contains "remote" loc').

(** [[job for job in jobs if test(job)]]. *)
Fixpoint comprehension (test : pydict -> exc bool) (jobs : list pydict)
    : exc (list pydict) :=
  match jobs with
  | [] => Ok []
  | job :: jobs' =>
      keep <-! test job ;
      rest <-! comprehension test jobs' ;
      Ok (if keep then job :: rest else rest)
  end.

(** [target_location] is a string or [None]. *)
Definition filter_by_location (jobs : list pydict)
    (target_location : option string) : exc (list pydict) :=
  match target_location with
  | None => Ok jobs
  | Some "" => Ok jobs
  | Some t =>
      let target := Str.lower t in
      comprehension (location_matches target) jobs
  end.

End Retriever.
End JobRetriever.

(* ===================================================================== *)
(** ** app/job_response_final.py *)
(* ===================================================================== *)

(** The values that [embedding_store.py] writes as title, company and
    location: a string or [None]. *)
Definition plain_key (v : pyval) : bool :=
  match v with
  | PyStr _ | PyNone => true
  | _ => false
  end.

(** [hash(v)] is defined: a list or a dictionary is unhashable, and
    hashing it raises [TypeError]. *)
Definition py_hashable (v : pyval) : bool :=
  match v with
  | PyList _ | PyDict _ => false
  | _ => true
  end.

(** The number that a boolean, an integer or a float stands for in a
    comparison: [m * 2 ^ e], an infinity, or not a number. *)
Inductive py_number : Type :=
| Finite (m e : Z)
| Infinite (negative : bool)
| NotANumber.

Definition number_of (v : pyval) : option py_number :=
  match v with
  | PyBool b => Some (Finite (Z.b2z b) 0)
  | PyInt n => Some (Finite n 0)
  | PyFloat (S754_zero _) => Some (Finite 0 0)
  | PyFloat (S754_finite s m e) =>
      Some (Finite (if s then Z.neg m else Z.pos m) e)
  | PyFloat (S754_infinity s) => Some (Infinite s)
  | PyFloat S754_nan => Some NotANumber
  | _ => None
  end.

Definition number_eqb (x y : py_number) : bool :=
  match x, y with
  | Finite m1 e1, Finite m2 e2 =>
      let e := Z.min e1 e2 in
      m1 * 2 ^ (e1 - e) =? m2 * 2 ^ (e2 - e)
  | Infinite s1, Infinite s2 => Bool.eqb s1 s2
  | _, _ => false
  end.

(** [a == b] on hashable values, as a set compares its elements:
    [True == 1 == 1.0], [-0.0 == 0.0], a string equals the same string
    only, [None] equals [None] only.  A NaN equals no value: every NaN
    read from the index is taken to be an object of its own. *)
Definition py_eq (a b : pyval) : bool :=
  match number_of a, number_of b with
  | Some x, Some y => number_eqb x y
  | None, None =>
      match a, b with
      | PyNone, PyNone => true
      | PyStr s, PyStr t => String.eqb s t
      | _, _ => false
      end
  | _, _ => false
  end.

Module JobResponseFinal.

(** The identity key of a hit: (title, company, location). *)
Definition hit_key (h : hit) : pyval * pyval * pyval :=
  (Dict.get "title" (metadata (fst h)),
   Dict.get "company" (metadata (fst h)),
   Dict.get "location" (metadata (fst h))).

(** The identity key of a candidate. *)
Definition candidate_key (job : pydict) : pyval * pyval * pyval :=
  (Dict.get "title" job, Dict.get "company" job, Dict.get "location" job).

(** [hash(key)] is defined: every field of the tuple is hashable. *)
Definition key_hashable (key : pyval * pyval * pyval) : bool :=
  let '(title, company, location) := key in
  py_hashable title && py_hashable company && py_hashable location.

(** [a == b] on two keys: field by field. *)
Definition key_eqb (a b : pyval * pyval * pyval) : bool :=
  let '(title1, company1, location1) := a in
  let '(title2, company2, location2) := b in
  py_eq title1 title2 && py_eq company1 company2 && py_eq location1 location2.

(** [key in seen], for a hashable key. *)
Definition key_in (key : pyval * pyval * pyval)
    (seen : list (pyval * pyval * pyval)) : bool :=
  existsb (key_eqb key) seen.

Section Retriever.

Variable similarity_search_with_score : string -> Z -> exc (list hit).
Variable py_str : pyval -> string.
Variable round4 : spec_float -> spec_float.

(** [self.llm.invoke(prompt).content]. *)
Variable llm_invoke : string -> exc string.

(** [json.dumps(v, indent=2)]. *)
Variable json_dumps : pyval -> string.

(** [json.loads]: raises on text that is not JSON. *)
Variable json_loads : string -> exc pyval.

(** Reading [prompts/new_rerank_prompt.txt] and filling its [intent] and
    [jobs] placeholders. *)
Variable template_format : string -> string -> exc string.

Definition create_search_query (intent : pydict) : string :=
  let role := Dict.get_default "role" (PyStr "") intent in
  let raw_query := Dict.get_default "raw_query" (PyStr "") intent in
  Str.strip (py_str role +:+ " - " +:+ py_str raw_query).

(** The dictionary appended to [deduped] for a hit. *)
Definition candidate_of (h : hit) : pydict :=
  let (doc, score) := h in
  [("title", Dict.get "title" (metadata doc));
   ("company", Dict.get "company" (metadata doc));
   ("location", Dict.get "location" (metadata doc));
   ("short_description", PyStr (Str.take 500 (page_content doc)));
   ("similarity_score", PyFloat (round4 score))].

(** The loop of [retrieve_jobs] over the hits, with its [continue] and
    its [break].  [key in seen] hashes the key first, so a key with an
    unhashable field raises [TypeError], whatever [seen] holds. *)
Fixpoint dedup_loop (top_k : Z) (results : list hit)
    (seen : list (pyval * pyval * pyval)) (deduped : list pydict)
    : exc (list pydict) :=
  match results with
  | [] => Ok deduped
  | h :: rest =>
      let key := hit_key h in
      if negb (key_hashable key) then Raise
      else if key_in key seen then dedup_loop top_k rest seen deduped
      else
        let seen := key :: seen in
        let deduped := (deduped ++ [candidate_of h])%list in
        if Z.of_nat (List.length deduped) >=? top_k then Ok deduped
        else dedup_loop top_k rest seen deduped
  end.

(** [[{...} for job in jobs]] of [rerank_with_llm]. *)
Fixpoint compact_jobs (jobs : list pydict) : exc (list pyval) :=
  match jobs with
  | [] => Ok []
  | job :: jobs' =>
      title <-! Dict.item "title" job ;
      company <-! Dict.item "company" job ;
      location <-! Dict.item "location" job ;
      description <-! Dict.item "short_description" job ;
      score <-! Dict.item "similarity_score" job ;
      rest <-! compact_jobs jobs' ;
      Ok (PyDict [("title", title); ("company", company);
                  ("location", location); ("description", description);
                  ("score", score)] :: rest)
  end.

(** Removing the code fence around the answer. *)
Definition strip_fence (raw_output : string) : string :=
  let raw_output :=
    if Str.startswith "```json" raw_output
    then Str.strip (Str.drop 7 raw_output)
    else if Str.startswith "```" raw_output
         then Str.strip (Str.drop 3 raw_output)
         else raw_output in
  if Str.endswith "```" raw_output
  then Str.strip (Str.take (String.length raw_output - 3) raw_output)
  else raw_output.

Definition rerank_with_llm (jobs : list pydict) (intent : pydict)
    : exc pyval :=
  compact <-! compact_jobs jobs ;
  prompt <-! template_format (json_dumps (PyDict intent))
               (json_dumps (PyList compact)) ;
  content <-! llm_invoke prompt ;
  let raw_output := strip_fence (Str.strip content) in
  try_except (json_loads raw_output) (Ok (PyList [])).

Definition retrieve_jobs (intent : pydict) (top_k : Z) : exc pyval :=
  let query := create_search_query intent in
  results <-! similarity_search_with_score query (top_k * 2) ;
  deduped <-! dedup_loop top_k results [] [] ;
  rerank_with_llm deduped intent.

(** The hits that are the first with their identity key, in order: the
    reading of "deduplicates in first-seen order". *)
Fixpoint first_occurrences (seen : list (pyval * pyval * pyval))
    (results : list hit) : list hit :=
  match results with
  | [] => []
  | h :: rest =>
      if key_in (hit_key h) seen then first_occurrences seen rest
      else h :: first_occurrences (hit_key h :: seen) rest
  end.

End Retriever.
End JobResponseFinal.

(** The title, company and location of a hit are strings or [None], as
    [embedding_store.py] writes them. *)
Definition plain_triple (key : pyval * pyval * pyval) : Prop :=
  let '(title, company, location) := key in
  plain_key title = true /\ plain_key company = true
  /\ plain_key location = true.

Definition plain_hit (h : hit) : Prop :=
  plain_triple (JobResponseFinal.hit_key h).

(* ===================================================================== *)
(** ** What the location filter is specified to keep *)
(* ===================================================================== *)

(** The location of a candidate is a string (or the key is absent, which
    [filter_by_location] reads as the empty string). *)
Definition has_location_text (job : pydict) : Prop :=
  exists s, Dict.get_default "location" (PyStr "") job = PyStr s.

Definition location_text (job : pydict) : string :=
  match Dict.get_default "location" (PyStr "") job with
  | PyStr s => s
  | _ => ""
  end.

(** [t] occurs in [s] when case is ignored. *)
Definition contains_nocase (t s : string) : Prop :=
  exists pre post, Str.lower s = pre +:+ Str.lower t +:+ post.

(** The candidates the filter is said to keep. *)
Definition location_kept (target : string) (job : pydict) : bool :=
  Str.contains (Str.lower target) (Str.lower (location_text job))
  || Str.contains (Str.lower "Remote") (Str.lower (location_text job)).

(* ===================================================================== *)
(** ** Concrete services of the retrieval examples *)
(* ===================================================================== *)

(** Python's [str()] on [None], booleans, integers and strings; the
    examples format no other value. *)
Definition str_of_scalar (v : pyval) : string :=
  match v with
  | PyNone => "None"
  | PyBool true => "True"
  | PyBool false => "False"
  | PyInt n => NilEmpty.string_of_int (Z.to_int n)
  | PyStr s => s
  | _ => ""
  end.

(** The float 0.5, which [round(_, 4)] leaves as it is. *)
Definition half : spec_float := S754_finite false 4503599627370496 (-53).

Definition analyst_hit : hit :=
  ({| page_content := "data analyst. Builds dashboards.";
      metadata := [("job_id", PyInt 7); ("title", PyStr "Data Analyst");
                   ("company", PyStr "Acme"); ("location", PyStr "New York")] |},
   half).

Definition engineer_hit : hit :=
  ({| page_content := "data engineer. Builds pipelines.";
      metadata := [("job_id", PyInt 8); ("title", PyStr "Data Engineer");
                   ("company", PyStr "Acme"); ("location", PyStr "Remote")] |},
   half).

(** An index that answers a request for 30 hits with the same posting
    twice, and any other request with nothing. *)
Definition index_thirty (query : string) (k : Z) : exc (list hit) :=
  if k =? 30 then Ok [analyst_hit; analyst_hit] else Ok [].

(** An index that answers every request with three hits, the first two
    for the same posting. *)
Definition index_three (query : string) (k : Z) : exc (list hit) :=
  Ok [analyst_hit; analyst_hit; engineer_hit].

(** A completion service that answers every prompt with a JSON array of
    three numbers, and [json.loads] on that text. *)
Definition llm_three (prompt : string) : exc string := Ok "[1, 2, 3]".

Definition json_loads_three (text : string) : exc pyval :=
  if String.eqb text "[1, 2, 3]" then Ok (PyList [PyInt 1; PyInt 2; PyInt 3])
  else Raise.

(* ===================================================================== *)
(** ** app/response_chain.py *)
(* ===================================================================== *)

(** The classes of exceptions that the handlers of [rerank_jobs] tell
    apart: [json.JSONDecodeError], and every other [Exception]. *)
Inductive exn_class : Type :=
| JSONDecodeError
| OtherException.

Module ResponseChain.
Section Reranker.

(** Python's [str()], as used by f-strings. *)
Variable py_str : pyval -> string.

(** [self.model.invoke(prompt).content]. *)
Variable model_invoke : string -> exc string.

(** The class of the exception that [self.model.invoke(prompt)] raises,
    when it raises. *)
Variable invoke_exception : string -> exn_class.

(** [json.loads]: raises on text that is not JSON. *)
Variable json_loads : string -> exc pyval.

(** [self.prompt_template.format(intent=..., jobs=...)], for a template
    whose placeholders are [intent] and [jobs]. *)
Variable template_format : string -> string -> string.

Definition _create_fallback_ranking (jobs : list pydict) : list pydict :=
  map (fun ij : Z * pydict =>
         let (i, job) := ij in
         let job_copy := job in
         let job_copy := Dict.set "final_rank" (PyInt i) job_copy in
         Dict.set "selection_reason"
           (PyStr ("High similarity match (score: "
                   +:+ py_str (Dict.get_default "similarity_score"
                                 (PyStr "N/A") job)
                   +:+ ")"))
           job_copy)
      (enumerate_from 1 (firstn 10 jobs)).

(** The prompt built before the [try]. *)
Definition build_prompt (jobs : list pydict) (intent : pydict) : string :=
  let intent_str :=
    fold_left (fun acc kv =>
                 if truthy (snd kv)
                 then acc +:+ "- " +:+ fst kv +:+ ": " +:+ py_str (snd kv) +:+ LF
                 else acc)
              intent "" in
  let jobs_str :=
    fold_left (fun acc (ij : Z * pydict) =>
                 let (i, job) := ij in
                 let title := Dict.get_default "title" (PyStr "Unknown") job in
                 let company := Dict.get_default "company" (PyStr "Unknown") job in
                 let location := Dict.get_default "location" (PyStr "Unknown") job in
                 let similarity := Dict.get_default "similarity_score" (PyInt 0) job in
                 acc +:+ py_str (PyInt i) +:+ ". " +:+ py_str title +:+ " at "
                     +:+ py_str company +:+ " (" +:+ py_str location
                     +:+ ") - Similarity: " +:+ py_str similarity +:+ LF)
              (enumerate_from 1 jobs) "" in
  template_format (Str.strip intent_str) (Str.strip jobs_str).

(** The inner loop: the first original job that matches the ranked
    title and company. *)
Fixpoint find_match (ranked_title ranked_company : string)
    (jobs : list pydict) : exc (option pydict) :=
  match jobs with
  | [] => Ok None
  | original_job :: rest =>
      orig_title <-! py_strip (Dict.get_default "title" (PyStr "") original_job) ;
      orig_company <-! py_strip (Dict.get_default "company" (PyStr "") original_job) ;
      if (Str.contains (Str.lower ranked_title) (Str.lower orig_title)
          || Str.contains (Str.lower orig_title) (Str.lower ranked_title))
         && (Str.contains (Str.lower ranked_company) (Str.lower orig_company)
             || Str.contains (Str.lower orig_company) (Str.lower ranked_company))
      then Ok (Some original_job)
      else find_match ranked_title ranked_company rest
  end.

(** One iteration of the loop over [rankings[:10]]: the job to append,
    or [None] for [continue]. *)
Definition rank_one (jobs : list pydict) (i : Z) (ranked_job : pyval)
    : exc (option pydict) :=
  match ranked_job with
  | PyDict ranked =>
      ranked_title <-! py_strip (Dict.get_default "title" (PyStr "") ranked) ;
      ranked_company <-! py_strip (Dict.get_default "company" (PyStr "") ranked) ;
      let reason :=
        Dict.get_default "reason" (PyStr "Good match for your requirements")
          ranked in
      matched_job <-! find_match ranked_title ranked_company jobs ;
      match matched_job with
      | Some (entry :: entries) =>
          Ok (Some (Dict.set "selection_reason" reason
                      (Dict.set "final_rank" (PyInt i) (entry :: entries))))
      | _ =>
          Ok (Some [("final_rank", PyInt i);
                    ("job_id", PyStr ("ranked_" +:+ py_str (PyInt i)));
                    ("title", PyStr ranked_title);
                    ("company", PyStr ranked_company);
                    ("location",
                     Dict.get_default "location" (PyStr "Unknown") ranked);
                    ("similarity_score", PyFloat (S754_zero false));
                    ("selection_reason", reason)])
      end
  | _ => Ok None
  end.

Fixpoint rank_loop (jobs : list pydict) (rankings : list (Z * pyval))
    (final_jobs : list pydict) : exc (list pydict) :=
  match rankings with
  | [] => Ok final_jobs
  | (i, ranked_job) :: rest =>
      appended <-! rank_one jobs i ranked_job ;
      match appended with
      | Some job => rank_loop jobs rest (final_jobs ++ [job])%list
      | None => rank_loop jobs rest final_jobs
      end
  end.

(** The body of the [try], after the completion service has answered. *)
Definition rank_response (jobs : list pydict) (response : string)
    : exc (list pydict) :=
  let content := Str.strip response in
  if String.eqb content "" then Ok (_create_fallback_ranking jobs)
  else
    let content := Str.replace "```" "" (Str.replace "```json" "" content) in
    let start_idx := Str.find "[" content in
    let end_idx := Str.rfind "]" content + 1 in
    if (start_idx =? -1) || (end_idx =? 0)
    then Ok (_create_fallback_ranking jobs)
    else
      let json_str :=
        Str.slice (Z.to_nat start_idx) (Z.to_nat end_idx) content in
      let json_str := Str.replace TAB " " (Str.replace LF " " json_str) in
      match json_loads json_str with
      | Raise => Ok (_create_fallback_ranking jobs)
      | Ok (PyList rankings) =>
          final_jobs <-! rank_loop jobs
                           (enumerate_from 1 (firstn 10 rankings)) [] ;
          Ok (firstn 10 final_jobs)
      | Ok _ => Ok (_create_fallback_ranking jobs)
      end.

(** [rerank_jobs], with the two handlers of its [try].  Once [content]
    is bound the body raises no [json.JSONDecodeError] (the one that
    [json.loads] raises is caught inside), so what it raises reaches
    [except Exception] and gives the fallback.  When [self.model.invoke]
    itself raises, an exception of another class gives the fallback too;
    a [json.JSONDecodeError] reaches the first handler, which prints
    [content[:200]]: [content] is not bound yet, so the handler raises
    [UnboundLocalError], which leaves [rerank_jobs]. *)
Definition rerank_jobs (jobs : list pydict) (intent : pydict)
    : exc (list pydict) :=
  let jobs := first_thirty jobs in
  let prompt := build_prompt jobs intent in
  match model_invoke prompt with
  | Ok response =>
      try_except (rank_response jobs response)
                 (Ok (_create_fallback_ranking jobs))
  | Raise =>
      match invoke_exception prompt with
      | JSONDecodeError => Raise
      | OtherException => Ok (_create_fallback_ranking jobs)
      end
  end.

End Reranker.
End ResponseChain.

(* ===================================================================== *)
(** ** app/job_ranker.py *)
(* ===================================================================== *)

Module JobRanker.
Section Reranker.

Variable py_str : pyval -> string.
Variable model_invoke : string -> exc string.
Variable json_loads : string -> exc pyval.

(** The f-string of [rerank_jobs], as a function of [intent_str] and
    [jobs_text]. *)
Variable prompt_text : string -> string -> string.

(** [0 <= f - 1 < n] for a float [f]. *)
Variable float_index_in_range : spec_float -> nat -> bool.

(** The lines of [jobs_text]; [job['title']] raises on a missing key. *)
Fixpoint jobs_text (jobs : list (Z * pydict)) : exc string :=
  match jobs with
  | [] => Ok ""
  | (i, job) :: rest =>
      title <-! Dict.item "title" job ;
      company <-! Dict.item "company" job ;
      location <-! Dict.item "location" job ;
      score <-! Dict.item "similarity_score" job ;
      text <-! jobs_text rest ;
      Ok (py_str (PyInt i) +:+ ". " +:+ py_str title +:+ " at "
          +:+ py_str company +:+ " - " +:+ py_str location
          +:+ " (Score: " +:+ py_str score +:+ ")" +:+ LF +:+ text)
  end.

(** [for rank_info in rankings]: what the loop iterates over. *)
Definition py_iter (v : pyval) : exc (list pyval) :=
  match v with
  | PyList l => Ok l
  | PyDict d => Ok (map (fun kv => PyStr (fst kv)) d)
  | PyStr s => Ok (map (fun c => PyStr (String c EmptyString))
                       (list_ascii_of_string s))
  | _ => Raise
  end.

(** [v[k]] for a string [k]: only a dictionary can be indexed by it. *)
Definition py_getitem (v : pyval) (k : string) : exc pyval :=
  match v with
  | PyDict d => Dict.item k d
  | _ => Raise
  end.

(** One iteration of the loop over the rankings: the job to append, or
    [None] when the index is out of range. *)
Definition rank_one (jobs : list pydict) (rank_info : pyval)
    : exc (option pydict) :=
  job_number <-! py_getitem rank_info "job_number" ;
  let pick (job_idx : Z) : exc (option pydict) :=
    if (0 <=? job_idx) && (job_idx <? Z.of_nat (List.length jobs)) then
      match nth_error jobs (Z.to_nat job_idx) with
      | Some job =>
          rank <-! py_getitem rank_info "rank" ;
          reason <-! py_getitem rank_info "reason" ;
          Ok (Some (Dict.set "selection_reason" reason
                      (Dict.set "final_rank" rank job)))
      | None => Raise
      end
    else Ok None in
  match job_number with
  | PyInt n => pick (n - 1)
  | PyBool b => pick ((if b then 1 else 0) - 1)
  | PyFloat f =>
      if float_index_in_range f (List.length jobs) then Raise else Ok None
  | _ => Raise
  end.

Fixpoint rank_loop (jobs : list pydict) (rankings : list pyval)
    (final_jobs : list pydict) : exc (list pydict) :=
  match rankings with
  | [] => Ok final_jobs
  | rank_info :: rest =>
      appended <-! rank_one jobs rank_info ;
      match appended with
      | Some job => rank_loop jobs rest (final_jobs ++ [job])%list
      | None => rank_loop jobs rest final_jobs
      end
  end.

Definition rerank_jobs (jobs : list pydict) (intent : pydict)
    : exc (list pydict) :=
  let jobs := first_thirty jobs in
  let intent_str :=
    "Role: " +:+ py_str (Dict.get_default "role" (PyStr "N/A") intent)
    +:+ ", Location: "
    +:+ py_str (Dict.get_default "location" (PyStr "N/A") intent)
    +:+ ", Salary: "
    +:+ py_str (Dict.get_default "salary" (PyStr "N/A") intent) in
  text <-! jobs_text (enumerate_from 1 jobs) ;
  let prompt := prompt_text intent_str text in
  try_except
    (content <-! model_invoke prompt ;
     rankings <-! json_loads content ;
     items <-! py_iter rankings ;
     final_jobs <-! rank_loop jobs items [] ;
     Ok (firstn 10 final_jobs))
    (Ok (firstn 10 jobs)).

End Reranker.
End JobRanker.

(** A candidate has the four entries that the prompt of [job_ranker.py]
    reads. *)
Definition has_prompt_keys (job : pydict) : Prop :=
  In "title" (Dict.keys job) /\ In "company" (Dict.keys job)
  /\ In "location" (Dict.keys job) /\ In "similarity_score" (Dict.keys job).

(** Three candidates, and a completion service that answers the empty
    text, on which [json.loads] raises. *)
Definition three_candidates : list pydict :=
  [[("title", PyStr "Software Engineer"); ("company", PyStr "Google");
    ("location", PyStr "Mountain View, CA"); ("similarity_score", PyInt 3)];
   [("title", PyStr "Senior Software Engineer"); ("company", PyStr "Meta");
    ("location", PyStr "Menlo Park, CA"); ("similarity_score", PyInt 2)];
   [("title", PyStr "Data Scientist"); ("company", PyStr "Apple");
    ("location", PyStr "Cupertino, CA"); ("similarity_score", PyInt 1)]].

Definition llm_empty (prompt : string) : exc string := Ok "".

(** A completion service whose call raises, and a [json.loads] that
    accepts one text only. *)
Definition llm_raising (prompt : string) : exc string := Raise.

Definition json_loads_only (accepted : string) (value : pyval)
    (text : string) : exc pyval :=
  if String.eqb text accepted then Ok value else Raise.

Definition json_loads_nothing (text : string) : exc pyval := Raise.

(* ===================================================================== *)
(** ** Readings used by the further properties *)
(* ===================================================================== *)

(** The compact form that [rerank_with_llm] serialises for a hit. *)
Definition compact_of (round4 : spec_float -> spec_float) (h : hit) : pyval :=
  PyDict [("title", Dict.get "title" (metadata (fst h)));
          ("company", Dict.get "company" (metadata (fst h)));
          ("location", Dict.get "location" (metadata (fst h)));
          ("description", PyStr (Str.take 500 (page_content (fst h))));
          ("score", PyFloat (round4 (snd h)))].

(** A hit whose location is a list, which cannot be hashed. *)
Definition unhashable_hit : hit :=
  ({| page_content := "data engineer. Builds pipelines.";
      metadata := [("title", PyStr "Data Engineer"); ("company", PyStr "Acme");
                   ("location", PyList [PyStr "Remote"; PyStr "Austin"])] |},
   half).

(** [isinstance(v, str)]. *)
Definition is_str (v : pyval) : bool :=
  match v with PyStr _ => true | _ => false end.

(** The [final_rank] of a returned job, when it is an integer. *)
Definition final_rank_of (job : pydict) : option Z :=
  match Dict.lookup "final_rank" job with
  | Some (PyInt i) => Some i
  | _ => None
  end.

(** [job] is [original] but for its [final_rank] and [selection_reason]. *)
Definition annotates (original job : pydict) : Prop :=
  forall k, k <> "final_rank" -> k <> "selection_reason" ->
            Dict.lookup k job = Dict.lookup k original.

(** [job] is a placeholder of [response_chain.py]: it has a zero
    similarity score and the title and company that the model declared. *)
Definition is_placeholder (job : pydict) : Prop :=
  Dict.lookup "similarity_score" job = Some (PyFloat (S754_zero false))
  /\ (exists title, Dict.lookup "title" job = Some (PyStr title))
  /\ (exists company, Dict.lookup "company" job = Some (PyStr company)).

(** The answer passes the two tests that precede [json.loads] in
    [rerank_jobs] of [response_chain.py]: it is not empty once stripped,
    and it has a "[" and a "]" once the code fences are removed. *)
Definition answer_has_array (response : string) : bool :=
  let content := Str.strip response in
  negb (String.eqb content "")
  && (let content := Str.replace "```" "" (Str.replace "```json" "" content) in
      negb (Str.find "[" content =? -1)
      && negb (Str.rfind "]" content + 1 =? 0)).

(** The text that [rerank_jobs] of [response_chain.py] hands to
    [json.loads] for such an answer: what lies between the first "[" and
    the last "]" of the answer without its code fences, line feeds and
    tabulations replaced by spaces. *)
Definition extracted_json (response : string) : string :=
  let content := Str.strip response in
  let content := Str.replace "```" "" (Str.replace "```json" "" content) in
  let start_idx := Str.find "[" content in
  let end_idx := Str.rfind "]" content + 1 in
  Str.replace TAB " "
    (Str.replace LF " "
       (Str.slice (Z.to_nat start_idx) (Z.to_nat end_idx) content)).



(* ===================================================================== *)
(** ** scripts/CLI_job_assistant.py and scripts/CLI_retrieving.py *)
(* ===================================================================== *)

(** [a or b]. *)
Definition py_or (a b : pyval) : pyval := if truthy a then a else b.

(** [merge_intents]:
    [{k: new.get(k) or existing.get(k) for k in existing}]. *)
Definition merge_intents (existing new : pydict) : pydict :=
  map (fun kv => (fst kv,
                  py_or (Dict.get (fst kv) new) (Dict.get (fst kv) existing)))
      existing.

(* ===================================================================== *)
(** ** app/job_retriever.py: get_retrieval_summary *)
(* ===================================================================== *)

Module RetrievalSummary.

(** [top_companies[c] = top_companies.get(c, 0) + 1] on the counting
    dictionary, whose keys are company values in insertion order.  The
    companies are the strings written by [embedding_store.py], or
    [None]; on these Python's hash and [==] are structural equality. *)
Fixpoint count_company (c : pyval) (counts : list (pyval * Z))
    : list (pyval * Z) :=
  match counts with
  | [] => [(c, 0 + 1)]
  | (c', n) :: rest =>
      if pyval_eq_dec c c' then (c', n + 1) :: rest
      else (c', n) :: count_company c rest
  end.

(** A list or a dictionary cannot be a dictionary key. *)
Definition hashable (v : pyval) : bool :=
  match v with
  | PyList _ | PyDict _ => false
  | _ => true
  end.

(** The loop that counts the jobs of each company. *)
Fixpoint count_loop (jobs : list pydict) (top_companies : list (pyval * Z))
    : exc (list (pyval * Z)) :=
  match jobs with
  | [] => Ok top_companies
  | job :: rest =>
      c <-! Dict.item "company" job ;
      if hashable c then count_loop rest (count_company c top_companies)
      else Raise
  end.

(** [sorted(items, key=lambda x: x[1], reverse=True)]: by decreasing
    count, items with the same count staying in their order. *)
Fixpoint insert_desc (x : pyval * Z) (sorted : list (pyval * Z))
    : list (pyval * Z) :=
  match sorted with
  | [] => [x]
  | y :: ys => if snd x <? snd y then y :: insert_desc x ys else x :: y :: ys
  end.

Definition sorted_desc (items : list (pyval * Z)) : list (pyval * Z) :=
  fold_right insert_desc [] items.

(** [[job["similarity_score"] for job in jobs]]. *)
Fixpoint scores_of (jobs : list pydict) : exc (list pyval) :=
  match jobs with
  | [] => Ok []
  | job :: rest =>
      score <-! Dict.item "similarity_score" job ;
      scores <-! scores_of rest ;
      Ok (score :: scores)
  end.

Definition company_entry (cn : pyval * Z) : pyval :=
  PyDict [("company", fst cn); ("job_count", PyInt (snd cn))].

Section Summary.

(** [round(sum(scores) / len(scores), 4)] for a non-empty list; it raises
    when a score is not a number. *)
Variable average_score : list pyval -> exc pyval.

Definition get_retrieval_summary (jobs : list pydict) (intent : pydict)
    : exc pydict :=
  match jobs with
  | [] => Ok [("total_jobs", PyInt 0); ("avg_similarity_score", PyInt 0);
              ("top_companies", PyList [])]
  | first :: _ =>
      scores <-! scores_of jobs ;
      avg_score <-! average_score scores ;
      top_companies <-! count_loop jobs [] ;
      let sorted_companies := firstn 5 (sorted_desc top_companies) in
      highest <-! Dict.item "similarity_score" first ;
      lowest <-! Dict.item "similarity_score" (List.last jobs first) ;
      Ok [("total_jobs", PyInt (Z.of_nat (List.length jobs)));
          ("avg_similarity_score", avg_score);
          ("top_companies", PyList (map company_entry sorted_companies));
          ("score_range", PyDict [("highest", highest); ("lowest", lowest)]);
          ("search_intent", PyDict intent)]
  end.

End Summary.
End RetrievalSummary.

(** A candidate has the two entries that [get_retrieval_summary] reads,
    and its company is a string or [None]. *)
Definition summarisable (job : pydict) : Prop :=
  In "similarity_score" (Dict.keys job)
  /\ exists c, Dict.lookup "company" job = Some c /\ plain_key c = true.

(** A candidate on which [get_retrieval_summary] fails: an entry it reads
    is missing, or the company cannot be a dictionary key. *)
Definition unsummarisable (job : pydict) : Prop :=
  ~ In "similarity_score" (Dict.keys job)
  \/ ~ In "company" (Dict.keys job)
  \/ exists c, Dict.lookup "company" job = Some c
               /\ RetrievalSummary.hashable c = false.

(** The company of a candidate. *)
Definition company_of (job : pydict) : pyval := Dict.get "company" job.

(** [top_companies.get(c, 0)]. *)
Fixpoint count_for (c : pyval) (counts : list (pyval * Z)) : Z :=
  match counts with
  | [] => 0
  | (c', n) :: rest => if pyval_eq_dec c c' then n else count_for c rest
  end.

(** The counting dictionary after the whole loop. *)
Definition company_counts (jobs : list pydict) : list (pyval * Z) :=
  fold_left (fun acc job => RetrievalSummary.count_company (company_of job) acc)
            jobs [].

(** The number of candidates of a company. *)
Definition jobs_at (jobs : list pydict) (c : pyval) : Z :=
  Z.of_nat (count_occ pyval_eq_dec (map company_of jobs) c).

(** The float 2.0, and an average that knows the scores 3, 2 and 1. *)
Definition two : spec_float := S754_finite false 4503599627370496 (-51).

Definition average_two (scores : list pyval) : exc pyval :=
  if List.list_eq_dec pyval_eq_dec scores [PyInt 3; PyInt 2; PyInt 1]
  then Ok (PyFloat two) else Raise.

(* ===================================================================== *)
(** ** scripts/CLI_job_assistant.py: the command-line collection loop *)
(* ===================================================================== *)

Module CliAssistant.

Definition MAX_ATTEMPTS : Z := 3.

(** What the script prints. *)
Inductive line : Type :=
| Welcome
| Assistant (followup : option string)
| Unclear
| Parsed (intent : pydict)
| Optional (followup : option string)
| AllSet.

(** The body of [for attempt in range(MAX_ATTEMPTS)], with its [break].
    [inputs] is what is left of the standard input, one line and the
    answers of the completion service during that iteration per element;
    [input()] raises [EOFError] when nothing is left.  [session] is the
    object stored for [user_id], so the assignment to [session["intent"]]
    changes the store. *)
Fixpoint collect (user_id : string) (tries : nat) (inputs : list turn)
    (out : list line) : M (list line * list turn) :=
  match tries with
  | O => ret (out, inputs)
  | S tries' =>
      match inputs with
      | [] => lift Raise
      | t :: rest =>
          new_intent <- lift (parse_intent (intent_chain (turn_services t))
                                (utterance t)) ;;
          _ <- update_ref user_id (fun s =>
                 {| intent := merge_intents (intent s) new_intent;
                    attempts := attempts s;
                    chat_history := chat_history s |}) ;;
          session <- deref user_id ;;
          if negb (is_critical_missing (intent session)) then ret (out, rest)
          else
            followup <- lift (get_followup_question
                                (followup_chain (turn_services t))
                                (intent session)) ;;
            collect user_id tries' rest (out ++ [Assistant followup])%list
      end
  end.

(** [run_cli_assistant]; [closing] answers the call of
    [get_followup_question] made after the loop.  The result is what was
    printed and what is left of the standard input. *)
Definition run_cli_assistant (closing : services) (user_id : string)
    (inputs : list turn) : M (list line * list turn) :=
  _ <- reset_session user_id ;;
  _ <- get_session user_id ;;
  r <- collect user_id (Z.to_nat MAX_ATTEMPTS) inputs [Welcome] ;;
  session <- deref user_id ;;
  if is_critical_missing (intent session) then
    ret ((fst r ++ [Unclear])%list, snd r)
  else
    followup_optional <- lift (get_followup_question (followup_chain closing)
                                 (intent session)) ;;
    ret ((fst r ++ [Parsed (intent session);
                    if truthy_opt followup_optional
                    then Optional followup_optional else AllSet])%list,
         snd r).

End CliAssistant.

(** The collection loop as a function of the intent it starts from: what
    it prints, what it leaves of the input and the intent it ends with,
    or nothing when the input runs out. *)
Fixpoint collected (tries : nat) (inputs : list turn) (i : pydict)
    (out : list CliAssistant.line)
    : option (list CliAssistant.line * list turn * pydict) :=
  match tries with
  | O => Some (out, inputs, i)
  | S tries' =>
      match inputs with
      | [] => None
      | t :: rest =>
          let merged :=
            merge_intents i (parsed_intent (intent_chain (turn_services t))
                                           (utterance t)) in
          if negb (is_critical_missing merged) then Some (out, rest, merged)
          else collected tries' rest merged
                 (out ++ [CliAssistant.Assistant
                            (followup_for (followup_chain (turn_services t))
                                          merged)])%list
      end
  end.

(** A session with its intent replaced. *)
Definition with_intent (i : pydict) (s : session) : session :=
  {| intent := i; attempts := attempts s; chat_history := chat_history s |}.

(** Three lines typed at the prompt: the first names a role only, the
    second completes the required fields, the third is never read. *)
Definition three_lines : list turn :=
  [Turn "a data analyst job" svc_role_only;
   Turn "in New York, around 120000" svc_required;
   Turn "remote if possible" svc_failing].

(** Answers of the re-ranking service, as [json.loads] returns them: one
    selection that names a candidate, and two of which the second names
    none. *)
Definition one_selection : pyval :=
  PyList [PyDict [("title", PyStr "Data Scientist"); ("company", PyStr "Apple");
                  ("reason", PyStr "Closest to the role")]].

Definition two_selections : pyval :=
  PyList [PyDict [("title", PyStr "Data Scientist"); ("company", PyStr "Apple");
                  ("reason", PyStr "Closest to the role")];
          PyDict [("title", PyStr "Astronaut"); ("company", PyStr "Nowhere")]].
(* ===================================================================== *)
(** ** Dictionary lemmas *)
(* ===================================================================== *)

Lemma dict_set_keys k v d :
  In k (Dict.keys d) -> Dict.keys (Dict.set k v d) = Dict.keys d.
Proof.
  induction d as [|[k' v'] d IH]; simpl; [tauto|].
  intros Hin. destruct (String.eqb_spec k k') as [->|Hne]; simpl; [reflexivity|].
  f_equal. apply IH. destruct Hin as [Heq|Hin]; [congruence|exact Hin].
Qed.

Lemma dict_lookup_set_eq k v d : Dict.lookup k (Dict.set k v d) = Some v.
Proof.
  induction d as [|[k' v'] d IH]; simpl.
  - now rewrite String.eqb_refl.
  - destruct (String.eqb_spec k k') as [->|Hne]; simpl.
    + now rewrite String.eqb_refl.
    + destruct (String.eqb_spec k k'); [contradiction|exact IH].
Qed.

Lemma dict_lookup_set_ne k k' v d :
  k <> k' -> Dict.lookup k' (Dict.set k v d) = Dict.lookup k' d.
Proof.
  intros Hne. induction d as [|[k0 v0] d IH]; simpl.
  - destruct (String.eqb_spec k' k); [congruence|reflexivity].
  - destruct (String.eqb_spec k k0) as [->|Hk]; simpl.
    + destruct (String.eqb_spec k' k0); [congruence|reflexivity].
    + now rewrite IH.
Qed.

Lemma dict_lookup_None k d : Dict.lookup k d = None <-> ~ In k (Dict.keys d).
Proof.
  induction d as [|[k' v'] d IH]; simpl; [tauto|].
  destruct (String.eqb_spec k k') as [->|Hne].
  - split; [discriminate|intros H; exfalso; apply H; now left].
  - rewrite IH. split; [intros H [He|Hi]; [congruence|tauto]|tauto].
Qed.

Lemma dict_lookup_in k v d : Dict.lookup k d = Some v -> In (k, v) d.
Proof.
  induction d as [|[k' v'] d IH]; simpl; [discriminate|].
  destruct (String.eqb_spec k k') as [->|Hne].
  - intros [= ->]. now left.
  - intros H. right. now apply IH.
Qed.

Lemma dict_in_lookup k v d :
  List.NoDup (Dict.keys d) -> In (k, v) d -> Dict.lookup k d = Some v.
Proof.
  induction d as [|[k' v'] d IH]; simpl; [tauto|].
  intros Hnd [Heq|Hin].
  - injection Heq as -> ->. now rewrite String.eqb_refl.
  - inversion Hnd as [|? ? Hk Hnd']; subst.
    destruct (String.eqb_spec k k') as [->|Hne].
    + exfalso. apply Hk. change (In (fst (k', v)) (map fst d)).
      now apply in_map.
    + now apply IH.
Qed.

(* ===================================================================== *)
(** ** The merge loop *)
(* ===================================================================== *)

Lemma merge_intent_cons old kv new_intent :
  merge_intent old (kv :: new_intent) = merge_intent (merge_step old kv) new_intent.
Proof. reflexivity. Qed.

(** A key that the new intent binds to falsy values only, or does not
    bind, keeps its old value. *)
Lemma merge_intent_untouched old new_intent f :
  (forall v, In (f, v) new_intent -> truthy v = false) ->
  Dict.lookup f (merge_intent old new_intent) = Dict.lookup f old.
Proof.
  revert old. induction new_intent as [|[k v] new_intent IH]; intros old Hf.
  - reflexivity.
  - rewrite merge_intent_cons, IH by (intros v' Hin; apply Hf; now right).
    unfold merge_step; simpl. destruct (truthy v) eqn:Hv; [|reflexivity].
    apply dict_lookup_set_ne. intros ->.
    rewrite (Hf v) in Hv; [discriminate|now left].
Qed.

(** A key that the new intent binds to a truthy value takes that value. *)
Lemma merge_intent_overwritten old new_intent f v :
  List.NoDup (Dict.keys new_intent) -> In (f, v) new_intent -> truthy v = true ->
  Dict.lookup f (merge_intent old new_intent) = Some v.
Proof.
  revert old. induction new_intent as [|[k w] new_intent IH]; intros old Hnd Hin Hv.
  - destruct Hin.
  - simpl in Hnd. inversion Hnd as [|? ? Hk Hnd']; subst.
    rewrite merge_intent_cons. destruct Hin as [Heq|Hin].
    + injection Heq as -> ->. rewrite merge_intent_untouched.
      * unfold merge_step; simpl. rewrite Hv. apply dict_lookup_set_eq.
      * intros v' Hin'. exfalso. apply Hk.
        change (In (fst (f, v')) (map fst new_intent)). now apply in_map.
    + now apply IH.
Qed.

(** Whatever the merge leaves at a key is the old value or a truthy new
    one. *)
Lemma merge_intent_lookup_cases old new_intent f :
  Dict.lookup f (merge_intent old new_intent) = Dict.lookup f old \/
  exists v, In (f, v) new_intent /\ truthy v = true /\
            Dict.lookup f (merge_intent old new_intent) = Some v.
Proof.
  revert old. induction new_intent as [|[k w] new_intent IH]; intros old.
  - now left.
  - rewrite merge_intent_cons.
    destruct (IH (merge_step old (k, w))) as [Heq|(v & Hin & Hv & Heq)].
    + rewrite Heq. unfold merge_step; simpl.
      destruct (truthy w) eqn:Hw; [|now left].
      destruct (String.eqb_spec k f) as [->|Hne].
      * right. exists w. split; [now left|]. split; [exact Hw|].
        apply dict_lookup_set_eq.
      * left. now apply dict_lookup_set_ne.
    + right. exists v. split; [now right|]. now split.
Qed.

(** The merge neither adds nor removes a key when the new intent binds
    only keys of the old one. *)
Lemma merge_intent_keys old new_intent :
  incl (Dict.keys new_intent) (Dict.keys old) ->
  Dict.keys (merge_intent old new_intent) = Dict.keys old.
Proof.
  revert old. induction new_intent as [|[k w] new_intent IH]; intros old Hincl.
  - reflexivity.
  - rewrite merge_intent_cons.
    assert (Hk : Dict.keys (merge_step old (k, w)) = Dict.keys old).
    { unfold merge_step; simpl. destruct (truthy w); [|reflexivity].
      apply dict_set_keys. apply Hincl. now left. }
    rewrite IH; [exact Hk|]. rewrite Hk. intros x Hx. apply Hincl. now right.
Qed.

(* ===================================================================== *)
(** ** One call of the orchestrator as a function of the session *)
(* ===================================================================== *)

Lemma parse_intent_total chain_invoke user_input :
  parse_intent chain_invoke user_input =
  Ok (parsed_intent chain_invoke user_input).
Proof.
  unfold parsed_intent, parse_intent.
  destruct (chain_invoke user_input) as [[]|]; reflexivity.
Qed.

Lemma parsed_intent_keys chain_invoke user_input :
  Dict.keys (parsed_intent chain_invoke user_input) = INTENT_FIELDS.
Proof.
  unfold parsed_intent, parse_intent.
  destruct (chain_invoke user_input) as [[]|]; reflexivity.
Qed.

Lemma get_followup_question_total chain_invoke i :
  get_followup_question chain_invoke i = Ok (followup_for chain_invoke i).
Proof.
  unfold followup_for, get_followup_question.
  destruct (get_missing_fields i); [reflexivity|].
  destruct (chain_invoke _ _); reflexivity.
Qed.

(** Symbolic execution of the store operations on a state in which the
    user's session exists. *)
Ltac run_store H :=
  repeat (first [rewrite H | rewrite lookup_insert_eq
                | rewrite parse_intent_total
                | rewrite get_followup_question_total];
          cbn beta iota zeta delta [intent attempts chat_history fst snd]).

Lemma handle_user_query_present svc user_input user_id st s0 :
  st !! user_id = Some s0 ->
  handle_user_query svc user_input user_id st =
  Ok (fst (step_session svc user_input s0),
      <[user_id := snd (step_session svc user_input s0)]> st).
Proof.
  intros Hs.
  cbv beta delta [handle_user_query append_chat_history bind get_session
                  update_ref deref lift ret step_session].
  run_store Hs.
  destruct (is_critical_missing _) eqn:Hc; run_store Hs.
  - destruct (attempts s0 + 1 >=? MAX_ATTEMPTS) eqn:Ha; run_store Hs.
    + now rewrite !insert_insert_eq.
    + now rewrite !insert_insert_eq.
  - now rewrite !insert_insert_eq.
Qed.

Lemma bind_get_session_absent {A} user_id (k : session -> M A) st :
  st !! user_id = None ->
  bind (get_session user_id) k st =
  bind (get_session user_id) k (<[user_id := new_session]> st).
Proof.
  intros Hs. unfold bind, get_session. now rewrite Hs, lookup_insert_eq.
Qed.

Lemma handle_user_query_absent svc user_input user_id st :
  st !! user_id = None ->
  handle_user_query svc user_input user_id st =
  Ok (fst (step_session svc user_input new_session),
      <[user_id := snd (step_session svc user_input new_session)]> st).
Proof.
  intros Hs.
  transitivity (handle_user_query svc user_input user_id
                  (<[user_id := new_session]> st)).
  - unfold handle_user_query. now apply bind_get_session_absent.
  - rewrite (handle_user_query_present _ _ _ _ new_session)
      by apply lookup_insert_eq.
    now rewrite insert_insert_eq.
Qed.

(** [handle_user_query] always returns: it replaces the session of its
    user by the stepped one and touches no other session. *)
Lemma handle_user_query_run svc user_input user_id st :
  handle_user_query svc user_input user_id st =
  Ok (fst (step_session svc user_input (session_of st user_id)),
      <[user_id := snd (step_session svc user_input (session_of st user_id))]> st).
Proof.
  unfold session_of. destruct (st !! user_id) as [s0|] eqn:Hs; simpl.
  - now apply handle_user_query_present.
  - now apply handle_user_query_absent.
Qed.

(* ===================================================================== *)
(** ** Facts about one step *)
(* ===================================================================== *)

Lemma dict_set_in k v k' v' d :
  In (k, v) (Dict.set k' v' d) -> In (k, v) d \/ (k, v) = (k', v').
Proof.
  induction d as [|[k0 v0] d IH]; simpl.
  - intros [H|[]]. right. congruence.
  - destruct (String.eqb_spec k' k0) as [->|Hne]; simpl.
    + intros [H|H]; [right; congruence|left; now right].
    + intros [H|H]; [left; now left|].
      destruct (IH H) as [H'|H']; [left; now right|now right].
Qed.

(** The merge introduces no [None]: a pair of the merged intent with a
    falsy value was already a pair of the old intent. *)
Lemma merge_intent_in_falsy old new_intent k v :
  truthy v = false -> In (k, v) (merge_intent old new_intent) -> In (k, v) old.
Proof.
  intros Hv. revert old.
  induction new_intent as [|[k' w] new_intent IH]; intros old; [tauto|].
  rewrite merge_intent_cons. intros Hin. apply IH in Hin.
  unfold merge_step in Hin; simpl in Hin.
  destruct (truthy w) eqn:Hw; [|exact Hin].
  apply dict_set_in in Hin as [Hin|Heq]; [exact Hin|].
  injection Heq as -> ->. congruence.
Qed.

Lemma is_critical_missing_true d :
  is_critical_missing d = true <->
  exists k, k ∈ REQUIRED_FIELDS /\ In (k, PyNone) d.
Proof.
  unfold is_critical_missing. rewrite existsb_exists. split.
  - intros ([k v] & Hin & Hk). apply filter_In in Hin as [Hin Hv].
    simpl in *. destruct v; try discriminate.
    exists k. split; [now apply bool_decide_eq_true in Hk|exact Hin].
  - intros (k & Hk & Hin). exists (k, PyNone). split.
    + apply filter_In. now split.
    + now apply bool_decide_eq_true.
Qed.

(** Once no required field is missing, none is missing after a merge. *)
Lemma merge_intent_critical old new_intent :
  is_critical_missing (merge_intent old new_intent) = true ->
  is_critical_missing old = true.
Proof.
  rewrite !is_critical_missing_true. intros (k & Hk & Hin).
  exists k. split; [exact Hk|].
  now apply (merge_intent_in_falsy old new_intent k PyNone).
Qed.

Lemma critical_iff_required d :
  Dict.keys d = INTENT_FIELDS ->
  is_critical_missing d = negb (required_known d).
Proof.
  intros Hk.
  destruct d as [|[k1 v1] [|[k2 v2] [|[k3 v3] [|[k4 v4] [|[k5 v5] [|? ?]]]]]];
    try discriminate Hk.
  injection Hk as -> -> -> -> ->.
  unfold is_critical_missing, required_known, is_known, Dict.get,
    Dict.get_default; simpl.
  destruct (is_none v1), (is_none v2), (is_none v3), (is_none v4),
    (is_none v5); vm_compute; reflexivity.
Qed.

Section Step.

Variable svc : services.
Variable user_input : string.
Variable s : session.

Let r := fst (step_session svc user_input s).
Let s' := snd (step_session svc user_input s).

Lemma step_intent :
  intent s' = merge_intent (intent s) (parsed_intent (intent_chain svc) user_input)
  /\ resp_intent r = intent s'.
Proof.
  subst r s'. unfold step_session.
  destruct (is_critical_missing _); [destruct (_ >=? _)|]; now split.
Qed.

Lemma step_keys :
  Dict.keys (intent s) = INTENT_FIELDS -> Dict.keys (intent s') = INTENT_FIELDS.
Proof.
  intros Hk. destruct step_intent as [-> _].
  rewrite merge_intent_keys; [exact Hk|].
  rewrite parsed_intent_keys, Hk. apply incl_refl.
Qed.

Lemma step_critical_back :
  is_critical_missing (intent s') = true -> is_critical_missing (intent s) = true.
Proof.
  destruct step_intent as [-> _]. apply merge_intent_critical.
Qed.

Lemma step_attempts :
  attempts s' =
  if is_critical_missing (intent s') then attempts s + 1 else attempts s.
Proof.
  destruct step_intent as [Hi _]. rewrite Hi. subst s'. unfold step_session.
  destruct (is_critical_missing _); [destruct (_ >=? _)|]; reflexivity.
Qed.

Lemma step_complete :
  resp_type r = "intent_complete" <-> is_critical_missing (intent s') = false.
Proof.
  destruct step_intent as [Hi _]. rewrite Hi. subst r. unfold step_session.
  destruct (is_critical_missing _); [destruct (_ >=? _)|]; simpl;
    split; congruence.
Qed.

Lemma step_error :
  resp_type r = "error" <->
  is_critical_missing (intent s') = true /\ MAX_ATTEMPTS <= attempts s + 1.
Proof.
  destruct step_intent as [Hi _]. rewrite Hi. subst r. unfold step_session.
  destruct (is_critical_missing _); [destruct (Z.geb_spec (attempts s + 1) MAX_ATTEMPTS)|];
    simpl; split; try congruence; try tauto; try lia;
    try (intros [_ H]; lia); try (intros [H _]; discriminate).
Qed.

Lemma step_error_message :
  resp_type r = "error" -> r = RespError FAILED_MESSAGE (intent s').
Proof.
  destruct step_intent as [Hi _]. rewrite Hi. subst r. unfold step_session.
  destruct (is_critical_missing _); [destruct (_ >=? _)|]; simpl;
    congruence.
Qed.

Lemma step_history :
  exists extra, chat_history s' = (chat_history s ++ ChatEntry "user" (Some user_input) :: extra)%list.
Proof.
  subst s'. unfold step_session.
  destruct (is_critical_missing _); [destruct (_ >=? _)|]; simpl.
  - now exists [].
  - eexists [_]. now rewrite <- app_assoc.
  - now exists [].
Qed.

End Step.

(* ===================================================================== *)
(** ** Runs of the orchestrator *)
(* ===================================================================== *)

Lemma session_of_insert st u s : session_of (<[u := s]> st) u = s.
Proof. unfold session_of. now rewrite lookup_insert_eq. Qed.

Lemma run_turns_run user_id ts : forall st,
  exists st',
    run_turns user_id ts st = Ok (responses ts (session_of st user_id), st')
    /\ (forall u, u <> user_id -> st' !! u = st !! u).
Proof.
  induction ts as [|t ts IH]; intros st.
  - exists st. now split.
  - simpl. unfold bind at 1. rewrite handle_user_query_run.
    set (rs := step_session _ _ _).
    destruct (IH (<[user_id := snd rs]> st)) as (st' & Hrun & Hother).
    unfold bind at 1. rewrite Hrun, session_of_insert. unfold ret.
    exists st'. split; [reflexivity|].
    intros u Hu. rewrite Hother by exact Hu. now apply lookup_insert_ne.
Qed.

Lemma responses_length ts : forall s, List.length (responses ts s) = List.length ts.
Proof. induction ts as [|t ts IH]; intros s; simpl; [reflexivity|now rewrite IH]. Qed.

(** The outcome of call number [i] (from 0) of a run that starts from a
    session whose attempt counter is [k] whenever a required field is
    missing. *)
Lemma responses_spec ts : forall s k i r,
  (is_critical_missing (intent s) = true -> attempts s = k) ->
  Dict.keys (intent s) = INTENT_FIELDS ->
  nth_error (responses ts s) i = Some r ->
  Dict.keys (resp_intent r) = INTENT_FIELDS
  /\ (resp_type r = "error" <->
      is_critical_missing (resp_intent r) = true /\ MAX_ATTEMPTS <= k + Z.of_nat i + 1)
  /\ (resp_type r = "intent_complete" <-> is_critical_missing (resp_intent r) = false)
  /\ (resp_type r = "error" -> r = RespError FAILED_MESSAGE (resp_intent r)).
Proof.
  induction ts as [|t ts IH]; intros s k i r Hk Hkeys Hnth.
  - destruct i; discriminate.
  - simpl in Hnth.
    pose proof (step_intent (turn_services t) (utterance t) s) as [_ Hri].
    pose proof (step_keys (turn_services t) (utterance t) s Hkeys) as Hkeys'.
    pose proof (step_critical_back (turn_services t) (utterance t) s) as Hback.
    pose proof (step_attempts (turn_services t) (utterance t) s) as Hatt.
    destruct i as [|i]; simpl in Hnth.
    + injection Hnth as <-. split; [now rewrite Hri|]. split; [|split].
      * rewrite Hri, step_error. split; intros [Hc Ha]; (split; [exact Hc|]);
          rewrite <- (Hk (Hback Hc)) in *; simpl; lia.
      * rewrite Hri. apply step_complete.
      * intros He. rewrite Hri. now apply step_error_message.
    + destruct (IH (snd (step_session (turn_services t) (utterance t) s))
                  (k + 1) i r) as (H1 & H2 & H3 & H4); try assumption.
      * intros Hc. rewrite Hatt, Hc. rewrite (Hk (Hback Hc)). reflexivity.
      * split; [exact H1|]. split; [|now split].
        rewrite H2. replace (k + 1 + Z.of_nat i + 1) with (k + Z.of_nat (S i) + 1) by lia.
        reflexivity.
Qed.

(** A field missing after a later call was missing after every earlier
    call and at the start. *)
Lemma responses_critical_back ts : forall s i r,
  nth_error (responses ts s) i = Some r ->
  is_critical_missing (resp_intent r) = true ->
  is_critical_missing (intent s) = true.
Proof.
  induction ts as [|t ts IH]; intros s i r Hnth Hc.
  - destruct i; discriminate.
  - pose proof (step_intent (turn_services t) (utterance t) s) as [_ Hri].
    pose proof (step_critical_back (turn_services t) (utterance t) s) as Hback.
    destruct i as [|i]; simpl in Hnth.
    + injection Hnth as <-. apply Hback. now rewrite <- Hri.
    + apply Hback. now eapply (IH _ i r).
Qed.

Lemma responses_critical_mono ts : forall s i j ri rj,
  (i <= j)%nat ->
  nth_error (responses ts s) i = Some ri ->
  nth_error (responses ts s) j = Some rj ->
  is_critical_missing (resp_intent rj) = true ->
  is_critical_missing (resp_intent ri) = true.
Proof.
  induction ts as [|t ts IH]; intros s i j ri rj Hij Hi Hj Hc.
  - destruct i; discriminate.
  - pose proof (step_intent (turn_services t) (utterance t) s) as [_ Hri].
    destruct i as [|i], j as [|j]; simpl in Hi, Hj; try lia.
    + congruence.
    + injection Hi as <-. rewrite Hri.
      now eapply (responses_critical_back ts _ j rj).
    + eapply (IH _ i j ri rj); [lia|eassumption..].
Qed.

(** Call number [i] of a run from a fresh session. *)
Lemma fresh_responses_spec ts i r :
  nth_error (responses ts new_session) i = Some r ->
  (resp_type r = "error" <-> (2 <= i)%nat /\ required_known (resp_intent r) = false)
  /\ (resp_type r = "error" -> r = RespError FAILED_MESSAGE (resp_intent r))
  /\ (resp_type r = "intent_complete" <-> required_known (resp_intent r) = true).
Proof.
  intros Hnth.
  destruct (responses_spec ts new_session 0 i r) as (Hk & He & Hc & Hm);
    [reflexivity|reflexivity|exact Hnth|].
  rewrite (critical_iff_required _ Hk) in He, Hc.
  rewrite negb_true_iff in He. rewrite negb_false_iff in Hc.
  split; [|now split]. rewrite He. unfold MAX_ATTEMPTS. split; intros [H1 H2]; (split; first [assumption|lia]).
Qed.

Lemma is_known_lookup f d :
  is_known f d = true <-> exists v, Dict.lookup f d = Some v /\ is_none v = false.
Proof.
  unfold is_known, Dict.get, Dict.get_default. rewrite negb_true_iff.
  destruct (Dict.lookup f d) as [v|]; simpl.
  - split; [intros H; now exists v|intros (v' & [= <-] & H); exact H].
  - split; [discriminate|intros (v' & H & _); discriminate].
Qed.

Lemma truthy_not_none v : truthy v = true -> is_none v = false.
Proof. destruct v; simpl; congruence. Qed.

Lemma merge_intent_known old new_intent g :
  is_known g old = true -> is_known g (merge_intent old new_intent) = true.
Proof.
  rewrite !is_known_lookup. intros (v & Hv & Hn).
  destruct (merge_intent_lookup_cases old new_intent g) as [->|(w & _ & Hw & ->)].
  - now exists v.
  - exists w. split; [reflexivity|now apply truthy_not_none].
Qed.

Lemma intent_fields_nodup : List.NoDup INTENT_FIELDS.
Proof.
  unfold INTENT_FIELDS.
  repeat (apply List.NoDup_cons; [simpl; intuition discriminate|]).
  apply List.NoDup_nil.
Qed.

(** A field is known after a merge when it was known before or the new
    intent binds it to a truthy value. *)
Lemma merge_intent_known_iff old new_intent f :
  List.NoDup (Dict.keys new_intent) ->
  (is_known f (merge_intent old new_intent) = true <->
   is_known f old = true \/ truthy (Dict.get f new_intent) = true).
Proof.
  intros Hnd. split.
  - intros Hk.
    destruct (merge_intent_lookup_cases old new_intent f)
      as [Heq|(v & Hin & Hv & _)].
    + left. unfold is_known, Dict.get, Dict.get_default in *.
      now rewrite <- Heq.
    + right. unfold Dict.get, Dict.get_default.
      now rewrite (dict_in_lookup _ _ _ Hnd Hin).
  - intros [Hk|Hv]; [now apply merge_intent_known|].
    unfold Dict.get, Dict.get_default in Hv.
    destruct (Dict.lookup f new_intent) as [v|] eqn:Hl; [|discriminate].
    apply is_known_lookup. exists v. split; [|now apply truthy_not_none].
    apply merge_intent_overwritten; [exact Hnd|now apply dict_lookup_in|exact Hv].
Qed.

(** A field is known after some turns exactly when the extraction of
    one of them gave it a truthy value. *)
Lemma fold_merge_turn_known ts f : forall known,
  is_known f (fold_left merge_turn ts known) = true <->
  is_known f known = true
  \/ exists t, In t ts
               /\ truthy (Dict.get f (parsed_intent (intent_chain (turn_services t))
                                                     (utterance t))) = true.
Proof.
  induction ts as [|t ts IH]; intros known; simpl.
  - split; [now left|]. intros [H|(t & [] & _)]. exact H.
  - rewrite IH. unfold merge_turn at 1.
    rewrite merge_intent_known_iff
      by (rewrite parsed_intent_keys; apply intent_fields_nodup).
    split.
    + intros [[Hk|Hv]|(t' & Hin & Hv)].
      * now left.
      * right. exists t. split; [now left|exact Hv].
      * right. exists t'. split; [now right|exact Hv].
    + intros [Hk|(t' & [<-|Hin] & Hv)].
      * left. now left.
      * left. now right.
      * right. now exists t'.
Qed.

Lemma known_after_known ts f :
  is_known f (known_after ts) = true <->
  exists t, In t ts
            /\ truthy (Dict.get f (parsed_intent (intent_chain (turn_services t))
                                                  (utterance t))) = true.
Proof.
  unfold known_after. rewrite fold_merge_turn_known. split.
  - intros [Hk|H]; [|exact H]. revert Hk. unfold is_known, empty_intent.
    unfold Dict.get, Dict.get_default. simpl.
    repeat (destruct (String.eqb f _); [discriminate|]). discriminate.
  - intros H. now right.
Qed.

(** The intent of answer number [i] is what the turns up to it have
    merged into the intent the run started from. *)
Lemma responses_intent ts : forall s i r,
  nth_error (responses ts s) i = Some r ->
  resp_intent r = fold_left merge_turn (firstn (S i) ts) (intent s).
Proof.
  induction ts as [|t ts IH]; intros s i r Hnth.
  - destruct i; discriminate.
  - pose proof (step_intent (turn_services t) (utterance t) s) as [Hi Hri].
    destruct i as [|i]; simpl in Hnth.
    + injection Hnth as <-. rewrite Hri, Hi. reflexivity.
    + rewrite (IH _ _ _ Hnth), Hi. reflexivity.
Qed.

(** The session that a run of at least one call leaves in the store. *)
Lemma run_turns_final user_id ts : forall st,
  ts <> [] ->
  exists st' s',
    run_turns user_id ts st = Ok (responses ts (session_of st user_id), st')
    /\ st' !! user_id = Some s'
    /\ intent s' = fold_left merge_turn ts (intent (session_of st user_id)).
Proof.
  induction ts as [|t ts IH]; intros st Hne; [congruence|].
  simpl. unfold bind at 1. rewrite handle_user_query_run.
  pose proof (step_intent (turn_services t) (utterance t)
                (session_of st user_id)) as [Hi _].
  set (rs := step_session _ _ _) in *.
  destruct ts as [|t' ts'].
  - simpl. unfold ret. exists (<[user_id := snd rs]> st), (snd rs).
    split; [reflexivity|]. split; [apply lookup_insert_eq|exact Hi].
  - destruct (IH (<[user_id := snd rs]> st)) as (st' & s' & Hrun & Hs' & Hint);
      [discriminate|].
    unfold bind at 1. rewrite Hrun, session_of_insert. unfold ret.
    exists st', s'. split; [reflexivity|]. split; [exact Hs'|].
    rewrite Hint, session_of_insert, Hi. reflexivity.
Qed.

Lemma resp_type_cases r :
  resp_type r = "error" \/ resp_type r = "followup_required"
  \/ resp_type r = "intent_complete".
Proof. destruct r; simpl; auto. Qed.

(** C1. In a conversation that starts without a session, the intent of
    answer number [i] (from 0) is what the fields extracted from the
    utterances 0 to [i] leave known, merged in order over nothing; that
    answer is "error" exactly when it is the third or a later one and a
    required field (role, location, salary) is still unknown in that
    intent, "intent_complete" exactly when the three required fields are
    known in it, whatever [domain] and [remote] hold, and
    "followup_required" exactly when it is one of the first two and a
    required field is unknown.  So some call answers "error" if and only
    if there are at least three turns and a required field is still
    unknown after exactly three; the error carries the fixed message,
    which contains "3 tries"; and the first answer after which the
    required fields are known is "intent_complete".  A field is known
    after some turns exactly when the extraction of one of their
    utterances gave it a truthy value.  The session left in the store
    holds the intent known after all the turns. *)
Theorem handle_user_query_outcomes (user_id : string) (ts : list turn)
    (st : user_sessions) :
  st !! user_id = None ->
  exists rs st',
    run_turns user_id ts st = Ok (rs, st')
    /\ List.length rs = List.length ts
    /\ (forall i r, nth_error rs i = Some r ->
          let known := known_after (firstn (S i) ts) in
          resp_intent r = known
          /\ (resp_type r = "error" <->
              (2 <= i)%nat /\ required_known known = false)
          /\ (resp_type r = "error" -> r = RespError FAILED_MESSAGE known)
          /\ (resp_type r = "intent_complete" <-> required_known known = true)
          /\ (resp_type r = "followup_required" <->
              (i < 2)%nat /\ required_known known = false))
    /\ ((exists i r, nth_error rs i = Some r /\ resp_type r = "error") <->
        (3 <= List.length ts)%nat
        /\ required_known (known_after (firstn 3 ts)) = false)
    /\ (forall n f,
          is_known f (known_after (firstn n ts)) = true <->
          exists t, In t (firstn n ts)
                    /\ truthy (Dict.get f
                                 (parsed_intent (intent_chain (turn_services t))
                                                (utterance t))) = true)
    /\ (ts <> [] ->
        exists s', st' !! user_id = Some s' /\ intent s' = known_after ts)
    /\ Str.contains "3 tries" FAILED_MESSAGE = true.
Proof.
  intros Hs.
  assert (Hfresh : session_of st user_id = new_session).
  { unfold session_of. now rewrite Hs. }
  assert (Hstore : exists st',
            run_turns user_id ts st = Ok (responses ts new_session, st')
            /\ (ts <> [] ->
                exists s', st' !! user_id = Some s'
                           /\ intent s' = known_after ts)).
  { destruct ts as [|t ts'].
    - exists st. split; [reflexivity|congruence].
    - destruct (run_turns_final user_id (t :: ts') st) as (st' & s' & Hrun & Hs' & Hi);
        [discriminate|].
      rewrite Hfresh in Hrun, Hi. exists st'. split; [exact Hrun|].
      intros _. now exists s'. }
  destruct Hstore as (st' & Hrun & Hfinal).
  assert (Heach : forall i r, nth_error (responses ts new_session) i = Some r ->
            resp_intent r = known_after (firstn (S i) ts)
            /\ (resp_type r = "error" <->
                (2 <= i)%nat
                /\ required_known (known_after (firstn (S i) ts)) = false)
            /\ (resp_type r = "error" ->
                r = RespError FAILED_MESSAGE (known_after (firstn (S i) ts)))
            /\ (resp_type r = "intent_complete" <->
                required_known (known_after (firstn (S i) ts)) = true)
            /\ (resp_type r = "followup_required" <->
                (i < 2)%nat
                /\ required_known (known_after (firstn (S i) ts)) = false)).
  { intros i r Hnth.
    pose proof (responses_intent ts new_session i r Hnth) as Hint.
    change (fold_left merge_turn (firstn (S i) ts) (intent new_session))
      with (known_after (firstn (S i) ts)) in Hint.
    destruct (fresh_responses_spec ts i r Hnth) as (Herr & Hmsg & Hcomplete).
    rewrite Hint in Herr, Hmsg, Hcomplete.
    split; [exact Hint|]. split; [exact Herr|]. split; [exact Hmsg|].
    split; [exact Hcomplete|].
    destruct (required_known (known_after (firstn (S i) ts))) eqn:Hk.
    - split; [|intros [_ H]; discriminate].
      intros Hf. apply proj2 in Hcomplete. rewrite (Hcomplete eq_refl) in Hf.
      discriminate.
    - destruct (le_lt_dec 2 i) as [Hi|Hi].
      + split; [|lia]. intros Hf. apply proj2 in Herr.
        rewrite (Herr (conj Hi eq_refl)) in Hf. discriminate.
      + split; [now split|]. intros _.
        destruct (resp_type_cases r) as [He|[Hf|Hc]]; [|exact Hf|].
        * apply Herr in He. lia.
        * apply Hcomplete in Hc. discriminate. }
  exists (responses ts new_session), st'.
  split; [exact Hrun|]. split; [apply responses_length|].
  split; [exact Heach|].
  split; [|split; [intros n f; apply known_after_known
                  |split; [exact Hfinal|reflexivity]]].
  split.
  - intros (i & r & Hnth & He).
    destruct (Heach i r Hnth) as (Hint & Herr & _). apply Herr in He as [Hi Hr].
    assert (Hlen : (i < List.length ts)%nat).
    { rewrite <- (responses_length ts new_session). apply nth_error_Some.
      congruence. }
    split; [lia|].
    destruct (nth_error (responses ts new_session) 2) as [r3|] eqn:H3.
    + destruct (Heach 2%nat r3 H3) as (Hint3 & _).
      destruct (responses_spec ts new_session 0 2 r3) as (Hk3 & _);
        [reflexivity|reflexivity|exact H3|].
      destruct (responses_spec ts new_session 0 i r) as (Hk & _);
        [reflexivity|reflexivity|exact Hnth|].
      rewrite <- Hint3.
      rewrite <- negb_true_iff, <- (critical_iff_required _ Hk3).
      apply (responses_critical_mono ts new_session 2 i r3 r Hi H3 Hnth).
      rewrite (critical_iff_required _ Hk), negb_true_iff. now rewrite Hint.
    + apply nth_error_None in H3. rewrite responses_length in H3. lia.
  - intros (Hlen & Hr).
    destruct (nth_error (responses ts new_session) 2) as [r3|] eqn:H3.
    + exists 2%nat, r3. split; [exact H3|].
      destruct (Heach 2%nat r3 H3) as (_ & Herr & _). apply Herr.
      split; [lia|exact Hr].
    + apply nth_error_None in H3. rewrite responses_length in H3. lia.
Qed.

Lemma handle_user_query_outcomes_witness :
  exists rs st',
    run_turns "test_user"
      [Turn "Looking for a data analyst role" svc_role_only;
       Turn "Preferably at a fintech company" svc_failing;
       Turn "I want something remote" svc_failing] ∅ = Ok (rs, st')
    /\ List.length rs = 3%nat
    /\ (forall i r, nth_error rs i = Some r ->
          let known :=
            known_after
              (firstn (S i)
                 [Turn "Looking for a data analyst role" svc_role_only;
                  Turn "Preferably at a fintech company" svc_failing;
                  Turn "I want something remote" svc_failing]) in
          resp_intent r = known
          /\ (resp_type r = "error" <->
              (2 <= i)%nat /\ required_known known = false)
          /\ (resp_type r = "error" -> r = RespError FAILED_MESSAGE known)
          /\ (resp_type r = "intent_complete" <-> required_known known = true)
          /\ (resp_type r = "followup_required" <->
              (i < 2)%nat /\ required_known known = false))
    /\ ((exists i r, nth_error rs i = Some r /\ resp_type r = "error") <->
        (3 <= 3)%nat
        /\ required_known
             (known_after
                [Turn "Looking for a data analyst role" svc_role_only;
                 Turn "Preferably at a fintech company" svc_failing;
                 Turn "I want something remote" svc_failing]) = false)
    /\ (forall n f,
          is_known f
            (known_after
               (firstn n
                  [Turn "Looking for a data analyst role" svc_role_only;
                   Turn "Preferably at a fintech company" svc_failing;
                   Turn "I want something remote" svc_failing])) = true <->
          exists t,
            In t (firstn n
                    [Turn "Looking for a data analyst role" svc_role_only;
                     Turn "Preferably at a fintech company" svc_failing;
                     Turn "I want something remote" svc_failing])
            /\ truthy (Dict.get f
                         (parsed_intent (intent_chain (turn_services t))
                                        (utterance t))) = true)
    /\ ([Turn "Looking for a data analyst role" svc_role_only;
         Turn "Preferably at a fintech company" svc_failing;
         Turn "I want something remote" svc_failing] <> [] ->
        exists s', st' !! "test_user" = Some s'
                   /\ intent s'
                      = known_after
                          [Turn "Looking for a data analyst role" svc_role_only;
                           Turn "Preferably at a fintech company" svc_failing;
                           Turn "I want something remote" svc_failing])
    /\ Str.contains "3 tries" FAILED_MESSAGE = true.
Proof.
  apply (handle_user_query_outcomes "test_user"
           [Turn "Looking for a data analyst role" svc_role_only;
            Turn "Preferably at a fintech company" svc_failing;
            Turn "I want something remote" svc_failing] ∅).
  reflexivity.
Defined.

(* ===================================================================== *)
(** ** Merge and extraction *)
(* ===================================================================== *)

(** C2. The merge is monotonic: for a new intent (a dictionary, so without
    repeated keys) that binds field [f] to [None], the merged intent has
    the old value at [f]; and whatever the new intent and the completion
    service's answer, a field known in the session is still known after
    the merge and after a call of [handle_user_query]. *)
Theorem merge_intent_monotonic (old new_intent : pydict) (f : string) :
  List.NoDup (Dict.keys new_intent) ->
  Dict.lookup f new_intent = Some PyNone ->
  Dict.lookup f (merge_intent old new_intent) = Dict.lookup f old
  /\ (forall g, is_known g old = true ->
                is_known g (merge_intent old new_intent) = true)
  /\ (forall svc user_input user_id st g,
        exists r st',
          handle_user_query svc user_input user_id st = Ok (r, st')
          /\ (is_known g (intent (session_of st user_id)) = true ->
              is_known g (intent (session_of st' user_id)) = true)).
Proof.
  intros Hnd Hf. split; [|split].
  - apply merge_intent_untouched. intros v Hin.
    apply (dict_in_lookup _ _ _ Hnd) in Hin. rewrite Hf in Hin.
    now injection Hin as <-.
  - intros g. apply merge_intent_known.
  - intros svc user_input user_id st g. eexists _, _.
    split; [apply handle_user_query_run|].
    rewrite session_of_insert.
    destruct (step_intent svc user_input (session_of st user_id)) as [-> _].
    apply merge_intent_known.
Qed.

Lemma merge_intent_monotonic_witness :
  Dict.lookup "role"
    (merge_intent
       [("role", PyStr "data analyst"); ("location", PyNone);
        ("salary", PyNone); ("domain", PyNone); ("remote", PyNone)]
       [("role", PyNone); ("location", PyStr "New York");
        ("salary", PyNone); ("domain", PyNone); ("remote", PyNone)])
  = Some (PyStr "data analyst").
Proof.
  refine (proj1 (merge_intent_monotonic
           [("role", PyStr "data analyst"); ("location", PyNone);
            ("salary", PyNone); ("domain", PyNone); ("remote", PyNone)]
           [("role", PyNone); ("location", PyStr "New York");
            ("salary", PyNone); ("domain", PyNone); ("remote", PyNone)]
           "role" _ _)).
  - repeat constructor; simpl; intuition discriminate.
  - reflexivity.
Defined.



(** C3. Whatever the completion chain does on the input, [parse_intent]
    returns (it never raises), and what it returns binds exactly the five
    keys role, location, salary, domain and remote: to the answer's value,
    or [None] where the answer has none, when the answer is a dictionary;
    and all to [None] when the call or its output parser raised or the
    answer is not a dictionary. *)
Theorem parse_intent_total_coverage (chain_invoke : string -> exc pyval)
    (user_input : string) :
  exists d,
    parse_intent chain_invoke user_input = Ok d
    /\ Dict.keys d = INTENT_FIELDS
    /\ (forall f, In f INTENT_FIELDS -> exists v, Dict.lookup f d = Some v)
    /\ (forall result, chain_invoke user_input = Ok (PyDict result) ->
          forall f, In f INTENT_FIELDS ->
            Dict.lookup f d = Some (Dict.get f result))
    /\ (chain_invoke user_input = Raise -> d = empty_intent)
    /\ (forall v, chain_invoke user_input = Ok v -> is_dict v = false ->
          d = empty_intent).
Proof.
  unfold parse_intent.
  destruct (chain_invoke user_input) as [v|] eqn:Hc.
  - destruct v as [|b|n|x|str|l|result0]; simpl;
      (eexists; split; [reflexivity|]; split; [reflexivity|]; split;
       [intros fld Hf; simpl in Hf;
        repeat (destruct Hf as [<-|Hf]; [eexists; reflexivity|]); destruct Hf|];
       split; [intros result [= Hr]|split; [discriminate|intros w [= <-] Hd]];
       try discriminate; try reflexivity).
    subst. intros fld Hf. simpl in Hf.
    repeat (destruct Hf as [<-|Hf]; [reflexivity|]). destruct Hf.
  - simpl. exists empty_intent. split; [reflexivity|]. split; [reflexivity|].
    split; [|split; [discriminate|split; [reflexivity|discriminate]]].
    intros fld Hf. simpl in Hf.
    repeat (destruct Hf as [<-|Hf]; [eexists; reflexivity|]). destruct Hf.
Qed.

(* ===================================================================== *)
(** ** Operations on the store *)
(* ===================================================================== *)

Lemma exec_op_run o st :
  exec_op o st = Ok (op_output o (session_of st (op_user o)), op_store o st).
Proof.
  destruct o as [u|u role message|u|svc user_input u]; simpl.
  - unfold bind, get_session, ret, op_store, session_of; simpl.
    destruct (st !! u) as [s|] eqn:Hs; simpl; [|reflexivity].
    now rewrite insert_id.
  - unfold append_chat_history, bind, get_session, update_ref, ret, op_store,
      session_of; simpl.
    destruct (st !! u) as [s|] eqn:Hs; simpl.
    + now rewrite Hs.
    + now rewrite lookup_insert_eq, insert_insert_eq.
  - reflexivity.
  - unfold bind, ret. now rewrite handle_user_query_run.
Qed.

Lemma session_of_keys st u :
  store_inv st -> Dict.keys (intent (session_of st u)) = INTENT_FIELDS.
Proof.
  intros Hinv. unfold session_of. destruct (st !! u) as [s|] eqn:Hs; simpl.
  - now apply (Hinv u).
  - reflexivity.
Qed.

Lemma op_session_keys o s :
  Dict.keys (intent s) = INTENT_FIELDS ->
  Dict.keys (intent (op_session o s)) = INTENT_FIELDS.
Proof.
  destruct o; simpl; try tauto. apply step_keys.
Qed.

Lemma op_store_inv o st : store_inv st -> store_inv (op_store o st).
Proof.
  intros Hinv u s. destruct o as [u0|u0 role message|u0|svc user_input u0];
    unfold op_store; simpl.
  1,2,4: destruct (decide (u0 = u)) as [->|Hne];
    [rewrite lookup_insert_eq; intros [= <-]
    |rewrite lookup_insert_ne by exact Hne; apply Hinv].
  - now apply session_of_keys.
  - now apply session_of_keys.
  - apply step_keys. now apply session_of_keys.
  - destruct (decide (u0 = u)) as [->|Hne].
    + now rewrite lookup_delete_eq.
    + rewrite lookup_delete_ne by exact Hne. apply Hinv.
Qed.

Lemma op_output_keys o st u r :
  store_inv st -> In (u, r) (op_output o (session_of st (op_user o))) ->
  Dict.keys (resp_intent r) = INTENT_FIELDS.
Proof.
  intros Hinv. destruct o as [u0|u0 role message|u0|svc user_input u0]; simpl;
    try tauto.
  intros [[= <- <-]|[]].
  destruct (step_intent svc user_input (session_of st u0)) as [_ ->].
  apply step_keys. now apply session_of_keys.
Qed.

Lemma exec_ops_inv os : forall st,
  store_inv st ->
  exists out st',
    exec_ops os st = Ok (out, st') /\ store_inv st'
    /\ (forall u r, In (u, r) out -> Dict.keys (resp_intent r) = INTENT_FIELDS).
Proof.
  induction os as [|o os IH]; intros st Hinv.
  - exists [], st. split; [reflexivity|]. split; [exact Hinv|]. intros u r [].
  - simpl. unfold bind at 1. rewrite exec_op_run.
    destruct (IH (op_store o st) (op_store_inv o st Hinv))
      as (outs & st' & Hrun & Hinv' & Hout).
    unfold bind at 1. rewrite Hrun. unfold ret.
    eexists _, st'. split; [reflexivity|]. split; [exact Hinv'|].
    intros u r Hin. apply in_app_or in Hin as [Hin|Hin].
    + now apply (op_output_keys o st u r).
    + now apply (Hout u r).
Qed.

Lemma store_inv_empty : store_inv ∅.
Proof. intros u s Hs. now rewrite lookup_empty in Hs. Qed.

(** C5. In every store reached from the empty one by the operations on
    sessions ([get_session], [append_chat_history], [reset_session],
    [handle_user_query]), every stored intent, and every intent returned by
    [handle_user_query], has exactly the keys role, location, salary,
    domain, remote: no operation fails, removes a key or adds one.  A
    session created by [get_session] binds the five keys to [None] and has
    0 attempts and an empty chat history. *)
Theorem session_intent_keys_invariant (os : list op) :
  (exists out st,
     exec_ops os ∅ = Ok (out, st)
     /\ store_inv st
     /\ (forall u r, In (u, r) out ->
           Dict.keys (resp_intent r) = INTENT_FIELDS))
  /\ (forall u st0,
        get_session u (delete u st0)
        = Ok (new_session, <[u := new_session]> (delete u st0)))
  /\ new_session
     = {| intent := [("role", PyNone); ("location", PyNone); ("salary", PyNone);
                     ("domain", PyNone); ("remote", PyNone)];
          attempts := 0; chat_history := [] |}.
Proof.
  split; [apply exec_ops_inv, store_inv_empty|]. split; [|reflexivity].
  intros u st0. unfold get_session. now rewrite lookup_delete_eq.
Qed.

(* ===================================================================== *)
(** ** After a terminal answer *)
(* ===================================================================== *)

Lemma op_store_lookup o st u :
  is_reset_of u o = false ->
  op_store o st !! u =
  if String.eqb (op_user o) u then Some (op_session o (session_of st u))
  else st !! u.
Proof.
  intros Hr. destruct (String.eqb_spec (op_user o) u) as [<-|Hne].
  - destruct o; simpl in *;
      try (unfold op_store; simpl; now rewrite lookup_insert_eq).
    now rewrite String.eqb_refl in Hr.
  - destruct o; unfold op_store; simpl in *;
      solve [now rewrite lookup_insert_ne | now rewrite lookup_delete_ne].
Qed.

Lemma op_output_user o s u r : In (u, r) (op_output o s) -> op_user o = u.
Proof. destruct o; simpl; try tauto. now intros [[= <- _]|[]]. Qed.

Lemma completed_step o st u :
  is_reset_of u o = false -> completed u st ->
  completed u (op_store o st)
  /\ (forall r, In (u, r) (op_output o (session_of st (op_user o))) ->
        resp_type r = "intent_complete").
Proof.
  intros Hr (s & Hs & Hc). split.
  - unfold completed. rewrite (op_store_lookup o st u Hr).
    destruct (String.eqb_spec (op_user o) u) as [Hu|Hne]; [|now exists s].
    eexists. split; [reflexivity|]. unfold session_of. rewrite Hs. simpl.
    destruct o; simpl; try exact Hc.
    apply not_true_is_false. intros H. apply step_critical_back in H. congruence.
  - intros r Hin. pose proof (op_output_user _ _ _ _ Hin) as Hu.
    rewrite Hu in Hin. unfold session_of in Hin. rewrite Hs in Hin. simpl in Hin.
    destruct o; simpl in Hin; try tauto. destruct Hin as [[= _ <-]|[]].
    apply step_complete. apply not_true_is_false. intros H.
    apply step_critical_back in H. congruence.
Qed.

Lemma exhausted_step o st u :
  is_reset_of u o = false -> exhausted u st ->
  exhausted u (op_store o st)
  /\ (forall r, In (u, r) (op_output o (session_of st (op_user o))) ->
        (resp_type r = "error" /\ is_critical_missing (resp_intent r) = true)
        \/ (resp_type r = "intent_complete"
            /\ is_critical_missing (resp_intent r) = false)).
Proof.
  intros Hr (s & Hs & Ha). split.
  - unfold exhausted. rewrite (op_store_lookup o st u Hr).
    destruct (String.eqb_spec (op_user o) u) as [Hu|Hne]; [|now exists s].
    eexists. split; [reflexivity|]. unfold session_of. rewrite Hs. simpl.
    destruct o; simpl; try exact Ha.
    rewrite step_attempts. destruct (is_critical_missing _); lia.
  - intros r Hin. pose proof (op_output_user _ _ _ _ Hin) as Hu.
    rewrite Hu in Hin. unfold session_of in Hin. rewrite Hs in Hin. simpl in Hin.
    destruct o; simpl in Hin; try tauto. destruct Hin as [[= _ <-]|[]].
    destruct (step_intent svc user_input s) as [_ Hri]. rewrite Hri.
    destruct (is_critical_missing (intent (snd (step_session svc user_input s))))
      eqn:Hc.
    + left. split; [|reflexivity]. apply step_error. split; [exact Hc|lia].
    + right. split; [|reflexivity]. now apply step_complete.
Qed.

Lemma exec_ops_terminal u os : forall st,
  forallb (fun o => negb (is_reset_of u o)) os = true ->
  exists out st',
    exec_ops os st = Ok (out, st')
    /\ (completed u st ->
        forall r, In (u, r) out -> resp_type r = "intent_complete")
    /\ (exhausted u st ->
        forall r, In (u, r) out ->
          (resp_type r = "error" /\ is_critical_missing (resp_intent r) = true)
          \/ (resp_type r = "intent_complete"
              /\ is_critical_missing (resp_intent r) = false)).
Proof.
  induction os as [|o os IH]; intros st Hnr.
  - exists [], st. split; [reflexivity|]. split; intros _ r [].
  - simpl in Hnr. apply andb_true_iff in Hnr as [Ho Hnr].
    apply negb_true_iff in Ho.
    simpl. unfold bind at 1. rewrite exec_op_run.
    destruct (IH (op_store o st) Hnr) as (outs & st' & Hrun & Hc & He).
    unfold bind at 1. rewrite Hrun. unfold ret.
    eexists _, st'. split; [reflexivity|]. split.
    + intros Hcomp r Hin.
      destruct (completed_step o st u Ho Hcomp) as [Hcomp' Hout].
      apply in_app_or in Hin as [Hin|Hin]; [now apply Hout|now apply Hc].
    + intros Hex r Hin.
      destruct (exhausted_step o st u Ho Hex) as [Hex' Hout].
      apply in_app_or in Hin as [Hin|Hin]; [now apply Hout|now apply He].
Qed.

(** C4, as the code has it.  After [handle_user_query] has returned
    "intent_complete" for a user id, every later call for that user id,
    with any operations in between other than [reset_session] of that user
    id, returns "intent_complete" again.  After it has returned "error",
    every such later call returns "error" while a required field is still
    missing and "intent_complete" once none is, and never
    "followup_required".  Each later call still records the utterance in
    the chat history and merges what it extracts into the intent. *)
Theorem terminal_answers_after (svc : services) (user_input user_id : string)
    (st : user_sessions) (r : response) (st1 : user_sessions) (os : list op) :
  handle_user_query svc user_input user_id st = Ok (r, st1) ->
  forallb (fun o => negb (is_reset_of user_id o)) os = true ->
  exists out st2,
    exec_ops os st1 = Ok (out, st2)
    /\ (resp_type r = "intent_complete" ->
        forall r', In (user_id, r') out -> resp_type r' = "intent_complete")
    /\ (resp_type r = "error" ->
        forall r', In (user_id, r') out ->
          (resp_type r' = "error"
           /\ is_critical_missing (resp_intent r') = true)
          \/ (resp_type r' = "intent_complete"
              /\ is_critical_missing (resp_intent r') = false))
    /\ (forall svc' user_input',
          exists r' st1' s1 s1' extra,
            handle_user_query svc' user_input' user_id st1 = Ok (r', st1')
            /\ st1 !! user_id = Some s1 /\ st1' !! user_id = Some s1'
            /\ chat_history s1'
               = (chat_history s1
                    ++ ChatEntry "user" (Some user_input') :: extra)%list
            /\ intent s1'
               = merge_intent (intent s1)
                   (parsed_intent (intent_chain svc') user_input')).
Proof.
  intros Hcall Hnr. rewrite handle_user_query_run in Hcall.
  injection Hcall as <- <-.
  set (s0 := session_of st user_id).
  destruct (exec_ops_terminal user_id os
              (<[user_id := snd (step_session svc user_input s0)]> st) Hnr)
    as (out & st2 & Hrun & Hc & He).
  exists out, st2. split; [exact Hrun|]. split; [|split].
  - intros Hr. apply Hc. eexists. split; [apply lookup_insert_eq|].
    now apply step_complete.
  - intros Hr. apply He. eexists. split; [apply lookup_insert_eq|].
    apply step_error in Hr as [Hcrit Ha]. rewrite step_attempts, Hcrit. exact Ha.
  - intros svc' user_input'.
    destruct (step_history svc' user_input' (snd (step_session svc user_input s0)))
      as (extra & Hh).
    eexists _, _, _, _, extra. split; [apply handle_user_query_run|].
    split; [apply lookup_insert_eq|]. split; [apply lookup_insert_eq|].
    rewrite session_of_insert. split; [exact Hh|].
    apply step_intent.
Qed.

Lemma terminal_answers_after_witness :
  exists out st2,
    exec_ops [OpHandle svc_failing "Salary does not matter" "test_user";
              OpHandle svc_required "120k in New York" "test_user"]
      (<["test_user" :=
           {| intent := empty_intent; attempts := 3;
              chat_history := [ChatEntry "user" (Some "I want something remote")] |}]>
         (<["test_user" := {| intent := empty_intent; attempts := 2;
                              chat_history := [] |}]> ∅))
    = Ok (out, st2).
Proof.
  destruct (terminal_answers_after svc_failing "I want something remote"
              "test_user"
              (<["test_user" := {| intent := empty_intent; attempts := 2;
                                   chat_history := [] |}]> ∅)
              (RespError FAILED_MESSAGE empty_intent)
              (<["test_user" :=
                   {| intent := empty_intent; attempts := 3;
                      chat_history :=
                        [ChatEntry "user" (Some "I want something remote")] |}]>
                 (<["test_user" := {| intent := empty_intent; attempts := 2;
                                      chat_history := [] |}]> ∅))
              [OpHandle svc_failing "Salary does not matter" "test_user";
               OpHandle svc_required "120k in New York" "test_user"])
    as (out & st2 & Hrun & _).
  - vm_compute. reflexivity.
  - reflexivity.
  - exists out, st2. exact Hrun.
Defined.

(** C4 fails as stated: three calls that extract nothing end in "error",
    and a fourth call that supplies the required fields, with no reset in
    between, returns "intent_complete". *)
Lemma terminal_error_is_left :
  match run_turns "test_user"
          [Turn "Looking for a job" svc_failing;
           Turn "Something good" svc_failing;
           Turn "I want something remote" svc_failing;
           Turn "Data analyst in New York for 120000" svc_required] ∅
  with
  | Ok (rs, _) => map resp_type rs
  | Raise => []
  end
  = ["followup_required"; "followup_required"; "error"; "intent_complete"].
Proof. vm_compute. reflexivity. Qed.

(* ===================================================================== *)
(** ** Substrings *)
(* ===================================================================== *)

Lemma append_cons c p post : String c p +:+ post = String c (p +:+ post).
Proof. reflexivity. Qed.

Lemma append_nil post : "" +:+ post = post.
Proof. reflexivity. Qed.

Lemma prefix_spec p : forall s,
  String.prefix p s = true <-> exists post, s = p +:+ post.
Proof.
  induction p as [|c p IH]; intros s.
  - split; [intros _; now exists s|now destruct s].
  - destruct s as [|c' s]; simpl.
    + split; [discriminate|intros (post & H); discriminate].
    + destruct (Ascii.ascii_dec c c') as [->|Hne].
      * rewrite IH. split; intros (post & H); exists post;
          rewrite append_cons in *; congruence.
      * split; [discriminate|intros (post & H)].
        rewrite append_cons in H. congruence.
Qed.

Lemma contains_unfold sub s :
  Str.contains sub s =
  String.prefix sub s ||
  match s with
  | EmptyString => false
  | String _ s' => Str.contains sub s'
  end.
Proof. destruct s; reflexivity. Qed.

Lemma contains_spec sub : forall s,
  Str.contains sub s = true <-> exists pre post, s = pre +:+ sub +:+ post.
Proof.
  induction s as [|c s IH]; rewrite contains_unfold, orb_true_iff, prefix_spec.
  - split.
    + intros [(post & H)|H]; [|discriminate]. now exists "", post.
    + intros (pre & post & H). left. destruct pre; [|discriminate].
      now exists post.
  - rewrite IH. split.
    + intros [(post & H)|(pre & post & H)].
      * now exists "", post.
      * exists (String c pre), post. rewrite append_cons. now rewrite H.
    + intros (pre & post & H). destruct pre as [|c' pre].
      * left. now exists post.
      * right. exists pre, post. rewrite append_cons in H. congruence.
Qed.

(* ===================================================================== *)
(** ** The location filter *)
(* ===================================================================== *)

Lemma location_matches_kept t job :
  has_location_text job ->
  JobRetriever.location_matches (Str.lower t) job = Ok (location_kept t job).
Proof.
  intros (s & Hs). unfold JobRetriever.location_matches, location_kept,
    location_text. rewrite Hs. simpl.
  destruct (Str.contains (Str.lower t) (Str.lower s)); reflexivity.
Qed.

Lemma comprehension_filter t jobs :
  Forall has_location_text jobs ->
  JobRetriever.comprehension (JobRetriever.location_matches (Str.lower t)) jobs
  = Ok (List.filter (location_kept t) jobs).
Proof.
  induction 1 as [|job jobs Hjob _ IH]; simpl; [reflexivity|].
  rewrite (location_matches_kept t job Hjob). simpl. rewrite IH. simpl.
  destruct (location_kept t job); reflexivity.
Qed.

(** C9. On candidates whose location is a string, [filter_by_location]
    with a non-empty target returns, in their order, exactly the
    candidates whose location contains the target, or contains "Remote",
    when case is ignored; with the target absent ([None] or the empty
    string) it returns the list it was given. *)
Theorem filter_by_location_exact (jobs : list pydict) (target : string) :
  Forall has_location_text jobs ->
  JobRetriever.filter_by_location jobs (Some target)
  = Ok (if String.eqb target "" then jobs
        else List.filter (location_kept target) jobs)
  /\ (forall job,
        location_kept target job = true <->
        contains_nocase target (location_text job)
        \/ contains_nocase "Remote" (location_text job))
  /\ (forall jobs',
        JobRetriever.filter_by_location jobs' None = Ok jobs'
        /\ JobRetriever.filter_by_location jobs' (Some "") = Ok jobs').
Proof.
  intros Hjobs. split; [|split].
  - destruct target as [|c target]; [reflexivity|].
    unfold JobRetriever.filter_by_location.
    now rewrite comprehension_filter.
  - intros job. unfold location_kept, contains_nocase.
    now rewrite orb_true_iff, !contains_spec.
  - intros jobs'. now split.
Qed.

Lemma filter_by_location_exact_witness :
  JobRetriever.filter_by_location
    [[("title", PyStr "Data Analyst"); ("location", PyStr "New York, NY")];
     [("title", PyStr "Data Engineer"); ("location", PyStr "Austin, TX")];
     [("title", PyStr "Analyst"); ("location", PyStr "REMOTE (US)")]]
    (Some "new york")
  = Ok [[("title", PyStr "Data Analyst"); ("location", PyStr "New York, NY")];
        [("title", PyStr "Analyst"); ("location", PyStr "REMOTE (US)")]].
Proof.
  refine (proj1 (filter_by_location_exact
           [[("title", PyStr "Data Analyst"); ("location", PyStr "New York, NY")];
            [("title", PyStr "Data Engineer"); ("location", PyStr "Austin, TX")];
            [("title", PyStr "Analyst"); ("location", PyStr "REMOTE (US)")]]
           "new york" _)).
  repeat constructor; eexists; reflexivity.
Defined.

(* ===================================================================== *)
(** ** Deduplication of the hits *)
(* ===================================================================== *)

Module DedupFacts.

Import JobResponseFinal.

(** On strings and [None], Python's [==] is structural equality. *)
Lemma py_eq_plain a b :
  plain_key a = true -> plain_key b = true -> (py_eq a b = true <-> a = b).
Proof.
  destruct a, b; simpl; try discriminate; intros _ _; unfold py_eq; simpl;
    try (split; [reflexivity|reflexivity]); try (split; discriminate).
  rewrite String.eqb_eq. split; congruence.
Qed.

Lemma key_eqb_plain k1 k2 :
  plain_triple k1 -> plain_triple k2 -> (key_eqb k1 k2 = true <-> k1 = k2).
Proof.
  destruct k1 as [[t1 c1] l1], k2 as [[t2 c2] l2].
  intros (Ht1 & Hc1 & Hl1) (Ht2 & Hc2 & Hl2). unfold key_eqb.
  rewrite !andb_true_iff, (py_eq_plain _ _ Ht1 Ht2), (py_eq_plain _ _ Hc1 Hc2),
    (py_eq_plain _ _ Hl1 Hl2).
  split; [intros [[-> ->] ->]; reflexivity|intros [= -> -> ->]; auto].
Qed.

Lemma key_in_spec key seen :
  plain_triple key -> Forall plain_triple seen ->
  (key_in key seen = true <-> In key seen).
Proof.
  intros Hk Hseen. unfold key_in. rewrite existsb_exists. split.
  - intros (k & Hin & Heq).
    apply key_eqb_plain in Heq;
      [now subst|exact Hk|exact (proj1 (List.Forall_forall _ _) Hseen _ Hin)].
  - intros Hin. exists key. split; [exact Hin|]. now apply key_eqb_plain.
Qed.

Lemma plain_hashable key : plain_triple key -> key_hashable key = true.
Proof.
  destruct key as [[t c] l]. intros (Ht & Hc & Hl). unfold key_hashable.
  destruct t, c, l; try discriminate; reflexivity.
Qed.

Lemma candidate_key_of round4 h : candidate_key (candidate_of round4 h) = hit_key h.
Proof. destruct h as [doc score]. reflexivity. Qed.

(** On plain hits the loop raises nothing: it keeps the first
    occurrences and stops as soon as one candidate has been added and the
    limit is reached. *)
Lemma dedup_loop_spec round4 top_k results : forall seen deduped,
  Forall plain_hit results ->
  dedup_loop round4 top_k results seen deduped
  = Ok (deduped ++
        map (candidate_of round4)
          (firstn (Z.to_nat (Z.max 1 (top_k - Z.of_nat (List.length deduped))))
                  (first_occurrences seen results)))%list.
Proof.
  induction results as [|h rest IH]; intros seen deduped Hp.
  - simpl. now rewrite firstn_nil, app_nil_r.
  - inversion Hp as [|? ? Hh Hrest]; subst.
    cbn [dedup_loop first_occurrences]. cbv zeta.
    rewrite (plain_hashable _ Hh). cbn [negb].
    destruct (key_in (hit_key h) seen); [now apply IH|].
    rewrite length_app. simpl List.length.
    destruct (Z.geb_spec (Z.of_nat (List.length deduped + 1)) top_k) as [Hge|Hlt].
    + replace (Z.to_nat (Z.max 1 (top_k - Z.of_nat (List.length deduped))))
        with 1%nat by lia.
      reflexivity.
    + rewrite IH, length_app by exact Hrest. simpl.
      replace (Z.to_nat (Z.max 1 (top_k - Z.of_nat (List.length deduped))))
        with (S (Z.to_nat (Z.max 1 (top_k - Z.of_nat (List.length deduped + 1)))))
        by lia.
      simpl. now rewrite <- app_assoc.
Qed.

Lemma first_occurrences_fresh results : forall seen h,
  Forall plain_hit results -> Forall plain_triple seen ->
  In h (first_occurrences seen results) -> ~ In (hit_key h) seen.
Proof.
  induction results as [|h0 rest IH]; intros seen h Hp Hseen; simpl; [tauto|].
  inversion Hp as [|? ? Hh Hrest]; subst.
  destruct (key_in (hit_key h0) seen) eqn:Hk; [now apply IH|].
  intros [<-|Hin].
  - rewrite <- (key_in_spec _ _ Hh Hseen). congruence.
  - intros Hs. apply (IH (hit_key h0 :: seen) h Hrest); [|exact Hin|now right].
    now constructor.
Qed.

Lemma first_occurrences_nodup results : forall seen,
  Forall plain_hit results -> Forall plain_triple seen ->
  List.NoDup (map hit_key (first_occurrences seen results)).
Proof.
  induction results as [|h rest IH]; intros seen Hp Hseen; simpl; [constructor|].
  inversion Hp as [|? ? Hh Hrest]; subst.
  destruct (key_in (hit_key h) seen); [now apply IH|].
  assert (Hseen' : Forall plain_triple (hit_key h :: seen)) by now constructor.
  simpl. constructor; [|now apply IH].
  intros Hin. apply in_map_iff in Hin as (h' & Hkey & Hin).
  apply (first_occurrences_fresh _ _ _ Hrest Hseen') in Hin.
  apply Hin. left. now symmetry.
Qed.

(** A kept hit is the first of the list with its key. *)
Lemma first_occurrences_first results : forall seen h,
  Forall plain_hit results -> Forall plain_triple seen ->
  In h (first_occurrences seen results) ->
  exists l1 l2, results = (l1 ++ h :: l2)%list
                /\ ~ In (hit_key h) (map hit_key l1).
Proof.
  induction results as [|h0 rest IH]; intros seen h Hp Hseen; simpl; [tauto|].
  inversion Hp as [|? ? Hh Hrest]; subst.
  destruct (key_in (hit_key h0) seen) eqn:Hk.
  - intros Hin.
    pose proof (first_occurrences_fresh _ _ _ Hrest Hseen Hin) as Hfresh.
    destruct (IH _ _ Hrest Hseen Hin) as (l1 & l2 & -> & Hl1).
    exists (h0 :: l1), l2. split; [reflexivity|]. simpl.
    intros [Heq|Hin']; [|tauto].
    apply Hfresh. rewrite <- Heq. now apply key_in_spec.
  - assert (Hseen' : Forall plain_triple (hit_key h0 :: seen)) by now constructor.
    intros [<-|Hin].
    + exists [], rest. now split.
    + pose proof (first_occurrences_fresh _ _ _ Hrest Hseen' Hin) as Hfresh.
      destruct (IH _ _ Hrest Hseen' Hin) as (l1 & l2 & -> & Hl1).
      exists (h0 :: l1), l2. split; [reflexivity|]. simpl.
      intros [Heq|Hin']; [|tauto]. apply Hfresh. now left.
Qed.

(** Every key among the hits is the key of a kept hit. *)
Lemma first_occurrences_cover results : forall seen h,
  Forall plain_hit results -> Forall plain_triple seen ->
  In h results ->
  In (hit_key h) seen
  \/ In (hit_key h) (map hit_key (first_occurrences seen results)).
Proof.
  induction results as [|h0 rest IH]; intros seen h Hp Hseen; simpl; [tauto|].
  inversion Hp as [|? ? Hh Hrest]; subst.
  intros [<-|Hin].
  - destruct (key_in (hit_key h0) seen) eqn:Hk.
    + left. now apply key_in_spec.
    + right. now left.
  - destruct (key_in (hit_key h0) seen) eqn:Hk; [now apply IH|].
    destruct (IH (hit_key h0 :: seen) h Hrest) as [[Heq|Hs]|Hf];
      [now constructor|exact Hin| | |].
    + right. left. exact Heq.
    + now left.
    + right. now right.
Qed.

Lemma first_occurrences_sublist results : forall seen,
  sublist (first_occurrences seen results) results.
Proof.
  induction results as [|h rest IH]; intros seen; simpl; [constructor|].
  destruct (key_in (hit_key h) seen).
  - apply sublist_cons, IH.
  - apply sublist_skip, IH.
Qed.

Lemma In_firstn {A} n : forall (l : list A) x, In x (firstn n l) -> In x l.
Proof.
  induction n as [|n IH]; intros [|y l] x; simpl; try tauto.
  intros [H|H]; [now left|right; now apply IH].
Qed.

Lemma NoDup_firstn {A} n : forall l : list A,
  List.NoDup l -> List.NoDup (firstn n l).
Proof.
  induction n as [|n IH]; intros l Hnd; [constructor|].
  destruct l as [|x l]; [constructor|]. simpl.
  inversion Hnd as [|? ? Hx Hl]; subst. constructor; [|now apply IH].
  intros Hin. apply Hx. now apply (In_firstn n).
Qed.

End DedupFacts.

Lemma compact_jobs_of_hits round4 (hits : list hit) :
  JobResponseFinal.compact_jobs (map (JobResponseFinal.candidate_of round4) hits)
  = Ok (map (compact_of round4) hits).
Proof.
  induction hits as [|[doc score] hits IH]; [reflexivity|].
  cbn [map JobResponseFinal.compact_jobs]. unfold JobResponseFinal.candidate_of at 1.
  simpl. rewrite IH. reflexivity.
Qed.

(** [rerank_with_llm] on candidates built from hits. *)
Lemma rerank_with_llm_of_hits
    (round4 : spec_float -> spec_float) (llm_invoke : string -> exc string)
    (json_dumps : pyval -> string) (json_loads : string -> exc pyval)
    (template_format : string -> string -> exc string)
    (intent : pydict) (kept : list hit) :
  JobResponseFinal.rerank_with_llm llm_invoke json_dumps json_loads
    template_format (map (JobResponseFinal.candidate_of round4) kept) intent
  = match template_format (json_dumps (PyDict intent))
            (json_dumps (PyList (map (compact_of round4) kept))) with
    | Raise => Raise
    | Ok prompt =>
        match llm_invoke prompt with
        | Raise => Raise
        | Ok content =>
            match json_loads (JobResponseFinal.strip_fence (Str.strip content)) with
            | Ok parsed => Ok parsed
            | Raise => Ok (PyList [])
            end
        end
    end.
Proof.
  unfold JobResponseFinal.rerank_with_llm.
  rewrite compact_jobs_of_hits. simpl.
  destruct (template_format _ _) as [prompt|]; simpl; [|reflexivity].
  destruct (llm_invoke prompt) as [content|]; simpl; [|reflexivity].
  destruct (json_loads _); reflexivity.
Qed.

(** C6, as the code has it.  [retrieve_jobs] of [job_response_final.py]
    asks the index for [2 * top_k] hits.  On hits whose title, company
    and location are strings or [None], the candidates it builds are
    those of the hits that are the first with their (title, company,
    location) key, in the order of the hits, cut after [top_k] of them
    (after one when [top_k < 1]): no two share a key, there are at most
    [top_k] of them when [top_k >= 1], each comes from a hit and none is
    invented.  It does not return these candidates: it puts them in the
    prompt of the completion service and returns the parsed answer, the
    empty list when the answer is not JSON, and it raises when the
    template or the service does.  [retrieve_jobs] of [job_retriever.py]
    asks for [top_k] hits and returns one candidate per hit, in order,
    duplicates included. *)
Theorem retrieve_jobs_candidates
    (similarity_search_with_score : string -> Z -> exc (list hit))
    (py_str : pyval -> string) (round4 : spec_float -> spec_float)
    (llm_invoke : string -> exc string) (json_dumps : pyval -> string)
    (json_loads : string -> exc pyval)
    (template_format : string -> string -> exc string)
    (intent : pydict) (top_k : Z) (hits : list hit) :
  similarity_search_with_score
    (JobResponseFinal.create_search_query py_str intent) (top_k * 2) = Ok hits ->
  Forall plain_hit hits ->
  let kept := firstn (Z.to_nat (Z.max 1 top_k))
                (JobResponseFinal.first_occurrences [] hits) in
  let deduped := map (JobResponseFinal.candidate_of round4) kept in
  JobResponseFinal.dedup_loop round4 top_k hits [] [] = Ok deduped
  /\ JobResponseFinal.retrieve_jobs similarity_search_with_score py_str round4
       llm_invoke json_dumps json_loads template_format intent top_k
     = match template_format (json_dumps (PyDict intent))
               (json_dumps (PyList (map (compact_of round4) kept))) with
       | Raise => Raise
       | Ok prompt =>
           match llm_invoke prompt with
           | Raise => Raise
           | Ok content =>
               match json_loads
                       (JobResponseFinal.strip_fence (Str.strip content)) with
               | Ok parsed => Ok parsed
               | Raise => Ok (PyList [])
               end
           end
       end
  /\ List.NoDup (map JobResponseFinal.candidate_key deduped)
  /\ (1 <= top_k -> Z.of_nat (List.length deduped) <= top_k)
  /\ List.length deduped
     = Nat.min (Z.to_nat (Z.max 1 top_k))
         (List.length (JobResponseFinal.first_occurrences [] hits))
  /\ sublist kept hits
  /\ (forall h, In h kept ->
        exists l1 l2, hits = (l1 ++ h :: l2)%list
                      /\ ~ In (JobResponseFinal.hit_key h)
                           (map JobResponseFinal.hit_key l1))
  /\ (forall h, In h hits ->
        In (JobResponseFinal.hit_key h)
           (map JobResponseFinal.hit_key
              (JobResponseFinal.first_occurrences [] hits)))
  /\ (forall (index : string -> Z -> exc (list hit)) hits',
        index (JobRetriever.create_search_query py_str intent) top_k = Ok hits' ->
        exists out,
          JobRetriever.retrieve_jobs index py_str round4 intent top_k = Ok out
          /\ map JobResponseFinal.candidate_key out
             = map JobResponseFinal.hit_key hits').
Proof.
  intros Hsearch Hplain kept deduped.
  assert (Hloop : JobResponseFinal.dedup_loop round4 top_k hits [] []
                  = Ok deduped).
  { rewrite DedupFacts.dedup_loop_spec by exact Hplain. simpl.
    now rewrite Z.sub_0_r. }
  split; [exact Hloop|].
  split; [|split; [|split; [|split; [|split; [|split; [|split]]]]]].
  - unfold JobResponseFinal.retrieve_jobs. rewrite Hsearch. simpl.
    rewrite Hloop. simpl. apply rerank_with_llm_of_hits.
  - subst deduped. rewrite map_map.
    rewrite (map_ext _ JobResponseFinal.hit_key) by apply (DedupFacts.candidate_key_of round4).
    subst kept. rewrite <- firstn_map. apply DedupFacts.NoDup_firstn.
    apply DedupFacts.first_occurrences_nodup; [exact Hplain|constructor].
  - intros Hk. subst deduped kept. rewrite length_map.
    pose proof (firstn_le_length (Z.to_nat (Z.max 1 top_k))
                  (JobResponseFinal.first_occurrences [] hits)).
    lia.
  - subst deduped kept. rewrite length_map. apply length_firstn.
  - subst kept. etransitivity; [apply sublist_take|].
    apply DedupFacts.first_occurrences_sublist.
  - intros h Hin. subst kept. apply DedupFacts.In_firstn in Hin.
    apply (DedupFacts.first_occurrences_first hits [] h Hplain); [constructor|].
    exact Hin.
  - intros h Hin.
    destruct (DedupFacts.first_occurrences_cover hits [] h Hplain) as [[]|Hc];
      [constructor|exact Hin|exact Hc].
  - intros index hits' Hindex. unfold JobRetriever.retrieve_jobs.
    rewrite Hindex. simpl. eexists. split; [reflexivity|].
    rewrite map_map. generalize 0. clear.
    induction hits' as [|[doc score] hits' IH]; intros i; simpl; [reflexivity|].
    now rewrite IH.
Qed.

Lemma retrieve_jobs_candidates_witness :
  index_three (JobResponseFinal.create_search_query str_of_scalar
                 [("role", PyStr "data analyst")]) (2 * 2)
  = Ok [analyst_hit; analyst_hit; engineer_hit]
  /\ Forall plain_hit [analyst_hit; analyst_hit; engineer_hit]
  /\ JobResponseFinal.dedup_loop (fun x => x) 2
       [analyst_hit; analyst_hit; engineer_hit] [] []
     = Ok (map (JobResponseFinal.candidate_of (fun x => x))
             [analyst_hit; engineer_hit]).
Proof.
  assert (Hplain : Forall plain_hit [analyst_hit; analyst_hit; engineer_hit]).
  { repeat (apply List.Forall_cons; [repeat split|]). apply List.Forall_nil. }
  split; [reflexivity|]. split; [exact Hplain|].
  exact (proj1 (retrieve_jobs_candidates index_three str_of_scalar (fun x => x)
                  llm_three (fun _ => "") json_loads_three
                  (fun _ _ => Ok "rank these")
                  [("role", PyStr "data analyst")] 2
                  [analyst_hit; analyst_hit; engineer_hit] eq_refl Hplain)).
Defined.

(** C6 fails as stated.  With a limit of 30, [retrieve_jobs] of
    [job_retriever.py] asks the index for 30 hits, not 60, and returns two
    candidates with the same (title, company, location); with a limit of
    1, [retrieve_jobs] of [job_response_final.py] returns the three-element
    answer of the completion service. *)
Lemma retrieve_jobs_not_deduplicated :
  (exists out,
     JobRetriever.retrieve_jobs index_thirty str_of_scalar (fun x => x)
       [("role", PyStr "data analyst")] 30 = Ok out
     /\ map JobResponseFinal.candidate_key out
        = [(PyStr "Data Analyst", PyStr "Acme", PyStr "New York");
           (PyStr "Data Analyst", PyStr "Acme", PyStr "New York")])
  /\ JobResponseFinal.retrieve_jobs index_three str_of_scalar (fun x => x)
       llm_three (fun _ => "") json_loads_three (fun _ _ => Ok "rank these")
       [("role", PyStr "data analyst")] 1
     = Ok (PyList [PyInt 1; PyInt 2; PyInt 3]).
Proof.
  split.
  - eexists. split; vm_compute; reflexivity.
  - vm_compute. reflexivity.
Qed.

(* ===================================================================== *)
(** ** The re-rankers *)
(* ===================================================================== *)

Lemma enumerate_from_length {A} (l : list A) : forall i,
  List.length (enumerate_from i l) = List.length l.
Proof. induction l as [|x l IH]; intros i; simpl; [reflexivity|now rewrite IH]. Qed.

Lemma enumerate_from_nth {A} (l : list A) : forall i n,
  nth_error (enumerate_from i l) n
  = option_map (fun x => (i + Z.of_nat n, x)) (nth_error l n).
Proof.
  induction l as [|x l IH]; intros i [|n]; simpl; try reflexivity.
  - now rewrite Z.add_0_r.
  - rewrite IH. destruct (nth_error l n); simpl; [|reflexivity].
    do 2 f_equal. lia.
Qed.


Lemma nth_error_firstn_lt {A} n : forall (l : list A) i,
  (i < n)%nat -> nth_error (firstn n l) i = nth_error l i.
Proof.
  induction n as [|n IH]; intros l i Hi; [lia|].
  destruct l as [|x l]; [reflexivity|]. destruct i as [|i]; [reflexivity|].
  simpl. apply IH. lia.
Qed.

Lemma Forall_firstn_keep {A} (P : A -> Prop) n : forall l,
  Forall P l -> Forall P (firstn n l).
Proof.
  induction n as [|n IH]; intros l Hl; [constructor|].
  destruct Hl as [|x l Hx Hl]; [constructor|].
  simpl. constructor; [exact Hx|now apply IH].
Qed.

Lemma dict_item_ok k d : In k (Dict.keys d) -> exists v, Dict.item k d = Ok v.
Proof.
  intros Hin. unfold Dict.item. destruct (Dict.lookup k d) as [v|] eqn:Hl.
  - now exists v.
  - apply dict_lookup_None in Hl. contradiction.
Qed.

Module ResponseChainFacts.
Section Facts.

Import ResponseChain.

Variable py_str : pyval -> string.
Variable model_invoke : string -> exc string.
Variable json_loads : string -> exc pyval.
Variable template_format : string -> string -> string.

Lemma fallback_length jobs :
  (List.length (_create_fallback_ranking py_str jobs) <= 10)%nat.
Proof.
  unfold _create_fallback_ranking.
  rewrite length_map, enumerate_from_length. apply firstn_le_length.
Qed.


(** Whatever the answer, the body of the [try] yields at most ten jobs
    when it does not raise. *)
Lemma rank_response_bounded jobs response :
  match rank_response py_str json_loads jobs response with
  | Ok out => (List.length out <= 10)%nat
  | Raise => True
  end.
Proof.
  unfold rank_response.
  destruct (String.eqb (Str.strip response) ""); [apply fallback_length|].
  destruct (_ || _); [apply fallback_length|].
  destruct (json_loads _) as [[| | | | |rankings|]|]; try apply fallback_length.
  destruct (rank_loop _ _ _ _) as [final_jobs|]; simpl; [|exact I].
  apply firstn_le_length.
Qed.

(** The body of the [try] on an answer that has an array. *)
Lemma rank_response_array jobs response :
  answer_has_array response = true ->
  rank_response py_str json_loads jobs response
  = match json_loads (extracted_json response) with
    | Raise => Ok (_create_fallback_ranking py_str jobs)
    | Ok (PyList rankings) =>
        final_jobs <-! rank_loop py_str jobs
                         (enumerate_from 1 (firstn 10 rankings)) [] ;
        Ok (firstn 10 final_jobs)
    | Ok _ => Ok (_create_fallback_ranking py_str jobs)
    end.
Proof.
  intros Ha. unfold rank_response, extracted_json.
  unfold answer_has_array in Ha.
  apply andb_true_iff in Ha as [Ha1 Ha2]. apply andb_true_iff in Ha2 as [Ha2 Ha3].
  apply negb_true_iff in Ha1, Ha2, Ha3. rewrite Ha1. cbv zeta.
  rewrite Ha2, Ha3. reflexivity.
Qed.

(** The body of the [try] on an answer without an array. *)
Lemma rank_response_no_array jobs response :
  answer_has_array response = false ->
  rank_response py_str json_loads jobs response
  = Ok (_create_fallback_ranking py_str jobs).
Proof.
  intros Ha. unfold rank_response. unfold answer_has_array in Ha.
  destruct (String.eqb (Str.strip response) ""); [reflexivity|].
  cbv zeta. simpl in Ha.
  destruct (Str.find "[" _ =? -1); [reflexivity|].
  destruct (Str.rfind "]" _ + 1 =? 0); [reflexivity|discriminate].
Qed.

(** Without a list from [json.loads] on the extracted text, the body
    answers with the fallback ranking. *)
Lemma rank_response_no_list jobs response :
  json_loads (extracted_json response) = Raise
  \/ (exists v, json_loads (extracted_json response) = Ok v
                /\ is_list v = false) ->
  rank_response py_str json_loads jobs response
  = Ok (_create_fallback_ranking py_str jobs).
Proof.
  intros Hj. destruct (answer_has_array response) eqn:Ha.
  - rewrite (rank_response_array _ _ Ha).
    destruct Hj as [->|(v & -> & Hv)]; [reflexivity|].
    destruct v; try reflexivity. discriminate.
  - now apply rank_response_no_array.
Qed.

End Facts.
End ResponseChainFacts.

Module JobRankerFacts.
Section Facts.

Import JobRanker.

Variable py_str : pyval -> string.

Lemma jobs_text_ok (jobs : list (Z * pydict)) :
  Forall has_prompt_keys (map snd jobs) ->
  exists text, jobs_text py_str jobs = Ok text.
Proof.
  induction jobs as [|[i job] jobs IH]; simpl; intros Hk.
  - now exists "".
  - inversion Hk as [|? ? (Ht & Hc & Hl & Hs) Hrest]; subst.
    destruct (dict_item_ok _ _ Ht) as (t & ->).
    destruct (dict_item_ok _ _ Hc) as (c & ->).
    destruct (dict_item_ok _ _ Hl) as (l & ->).
    destruct (dict_item_ok _ _ Hs) as (s & ->).
    destruct (IH Hrest) as (text & ->). simpl. eauto.
Qed.

End Facts.
End JobRankerFacts.

Lemma enumerate_from_snd {A} (l : list A) : forall i,
  map snd (enumerate_from i l) = l.
Proof. induction l as [|x l IH]; intros i; simpl; [reflexivity|now rewrite IH]. Qed.

Lemma first_thirty_keys jobs :
  Forall has_prompt_keys jobs -> Forall has_prompt_keys (first_thirty jobs).
Proof.
  intros H. unfold first_thirty. destruct (30 <? List.length jobs)%nat;
    [now apply Forall_firstn_keep|exact H].
Qed.

(** C7 fails on the code.  When [self.model.invoke] raises a
    [json.JSONDecodeError], the handler that [rerank_jobs] of
    [response_chain.py] has for that class reads [content] before it is
    bound: the call raises instead of returning the fallback ranking,
    which it returns for an exception of any other class. *)
Theorem rerank_jobs_decode_error_escapes
    (py_str : pyval -> string) (model_invoke : string -> exc string)
    (invoke_exception : string -> exn_class)
    (json_loads : string -> exc pyval)
    (template_format : string -> string -> string)
    (jobs : list pydict) (intent : pydict) :
  model_invoke (ResponseChain.build_prompt py_str template_format
                  (first_thirty jobs) intent) = Raise ->
  match invoke_exception (ResponseChain.build_prompt py_str template_format
                            (first_thirty jobs) intent) with
  | JSONDecodeError =>
      ResponseChain.rerank_jobs py_str model_invoke invoke_exception
        json_loads template_format jobs intent = Raise
  | OtherException =>
      ResponseChain.rerank_jobs py_str model_invoke invoke_exception
        json_loads template_format jobs intent
      = Ok (ResponseChain._create_fallback_ranking py_str (first_thirty jobs))
  end.
Proof.
  intros Hm. unfold ResponseChain.rerank_jobs. cbv zeta. rewrite Hm.
  destruct (invoke_exception _); reflexivity.
Qed.

Lemma rerank_jobs_decode_error_escapes_witness :
  ResponseChain.rerank_jobs str_of_scalar llm_raising
    (fun _ => JSONDecodeError) json_loads_nothing
    (fun intent_str jobs_str => jobs_str) three_candidates
    [("role", PyStr "Software Engineer")] = Raise.
Proof.
  apply (rerank_jobs_decode_error_escapes str_of_scalar llm_raising
           (fun _ => JSONDecodeError) json_loads_nothing
           (fun intent_str jobs_str => jobs_str) three_candidates
           [("role", PyStr "Software Engineer")]).
  reflexivity.
Defined.





(* ===================================================================== *)
(** ** Further properties of the session store and the orchestrator *)
(* ===================================================================== *)

Lemma op_store_other o st u :
  op_user o <> u -> op_store o st !! u = st !! u.
Proof.
  intros Hne. rewrite op_store_lookup.
  - destruct (String.eqb_spec (op_user o) u); [contradiction|reflexivity].
  - destruct o; simpl in *; try reflexivity.
    destruct (String.eqb_spec user_id u); [contradiction|reflexivity].
Qed.

(** X1. Sessions are isolated: operations performed for other user ids
    ([get_session], [append_chat_history], [reset_session],
    [handle_user_query]) never fail, leave the session of [u] (or its
    absence) exactly as it was, and report no response for [u]. *)
Theorem sessions_are_isolated (os : list op) (u : string) (st : user_sessions) :
  forallb (fun o => negb (String.eqb (op_user o) u)) os = true ->
  exists out st',
    exec_ops os st = Ok (out, st')
    /\ st' !! u = st !! u
    /\ (forall r, ~ In (u, r) out).
Proof.
  revert st. induction os as [|o os IH]; intros st Hos.
  - exists [], st. split; [reflexivity|]. split; [reflexivity|]. intros r [].
  - simpl in Hos. apply andb_true_iff in Hos as [Ho Hos].
    apply negb_true_iff in Ho.
    assert (Hne : op_user o <> u)
      by (destruct (String.eqb_spec (op_user o) u); congruence).
    simpl. unfold bind at 1. rewrite exec_op_run.
    destruct (IH (op_store o st) Hos) as (outs & st' & Hrun & Hu & Hout).
    unfold bind at 1. rewrite Hrun. unfold ret.
    eexists _, st'. split; [reflexivity|]. split.
    + rewrite Hu. now apply op_store_other.
    + intros r Hin. apply in_app_or in Hin as [Hin|Hin].
      * apply op_output_user in Hin. contradiction.
      * now apply (Hout r).
Qed.

Lemma sessions_are_isolated_witness :
  exists out st',
    exec_ops [OpHandle svc_required "Data analyst in New York" "alice";
              OpReset "bob"; OpAppendChat "bob" "user" (Some "hello")]
      (<["carol" := new_session]> ∅) = Ok (out, st')
    /\ st' !! "carol" = (<["carol" := new_session]> ∅ : user_sessions) !! "carol"
    /\ (forall r, ~ In ("carol", r) out).
Proof.
  apply (sessions_are_isolated
           [OpHandle svc_required "Data analyst in New York" "alice";
            OpReset "bob"; OpAppendChat "bob" "user" (Some "hello")]
           "carol" (<["carol" := new_session]> ∅)).
  reflexivity.
Defined.

(** X2. [reset_session] starts the conversation afresh: whatever the
    store held, the calls of [handle_user_query] that follow a reset of
    the user id return what they return in a process that has just
    started; and resetting an unknown user id changes nothing. *)
Theorem reset_session_starts_afresh (user_id : string) (ts : list turn)
    (st : user_sessions) :
  (exists rs st1 st2,
     bind (reset_session user_id) (fun _ => run_turns user_id ts) st
     = Ok (rs, st1)
     /\ run_turns user_id ts ∅ = Ok (rs, st2))
  /\ (forall st0, st0 !! user_id = None ->
        reset_session user_id st0 = Ok (tt, st0)).
Proof.
  split.
  - unfold bind, reset_session.
    destruct (run_turns_run user_id ts (delete user_id st)) as (st1 & H1 & _).
    destruct (run_turns_run user_id ts ∅) as (st2 & H2 & _).
    exists (responses ts new_session), st1, st2.
    unfold session_of in H1, H2.
    rewrite lookup_delete_eq in H1. rewrite lookup_empty in H2.
    now split.
  - intros st0 H0. unfold reset_session. now rewrite delete_id.
Qed.

(** X3. [append_chat_history] never fails: for an unknown user id it
    creates the session (all-None intent, 0 attempts) holding just the
    appended message; for a known one it adds the message at the end of
    the history and keeps the intent and the attempt counter; no other
    session changes. *)
Theorem append_chat_history_creates (user_id role : string)
    (message : option string) (st : user_sessions) :
  exists st',
    append_chat_history user_id role message st = Ok (tt, st')
    /\ (st !! user_id = None ->
        st' !! user_id
        = Some {| intent := empty_intent; attempts := 0;
                  chat_history := [ChatEntry role message] |})
    /\ (forall s, st !! user_id = Some s ->
          st' !! user_id
          = Some {| intent := intent s; attempts := attempts s;
                    chat_history :=
                      (chat_history s ++ [ChatEntry role message])%list |})
    /\ (forall u, u <> user_id -> st' !! u = st !! u).
Proof.
  pose proof (exec_op_run (OpAppendChat user_id role message) st) as Hrun.
  simpl in Hrun. unfold bind, ret in Hrun.
  destruct (append_chat_history user_id role message st) as [[[] st'']|] eqn:Ha;
    [|discriminate].
  injection Hrun as ->. exists (op_store (OpAppendChat user_id role message) st).
  split; [reflexivity|]. unfold op_store, session_of; simpl.
  split; [|split].
  - intros ->. now rewrite lookup_insert_eq.
  - intros s ->. now rewrite lookup_insert_eq.
  - intros u Hu. now rewrite lookup_insert_ne.
Qed.

(** X4. Every call of [handle_user_query] records the utterance in the
    chat history; a "followup_required" answer records the follow-up
    after it, as one assistant entry (whose message is [None] when no
    question could be generated), and the other two answers record
    nothing more.  The intent in the response is the stored one, and the
    history in an "intent_complete" response is the stored history. *)
Theorem handle_user_query_history (svc : services)
    (user_input user_id : string) (st : user_sessions) :
  exists r st' s',
    handle_user_query svc user_input user_id st = Ok (r, st')
    /\ st' !! user_id = Some s'
    /\ chat_history s'
       = (chat_history (session_of st user_id)
            ++ ChatEntry "user" (Some user_input)
               :: match r with
                  | RespFollowup followup _ => [ChatEntry "assistant" followup]
                  | _ => []
                  end)%list
    /\ resp_intent r = intent s'
    /\ (forall i f m h, r = RespComplete i f m h -> h = chat_history s').
Proof.
  eexists _, _, _. split; [apply handle_user_query_run|].
  split; [apply lookup_insert_eq|].
  unfold step_session.
  destruct (is_critical_missing _); [destruct (_ >=? _)|]; simpl.
  - split; [reflexivity|]. split; [reflexivity|]. discriminate.
  - rewrite <- app_assoc. split; [reflexivity|]. split; [reflexivity|].
    discriminate.
  - split; [reflexivity|]. split; [reflexivity|]. now intros i f m h [= _ _ _ <-].
Qed.

(** X5. The attempt counter grows by exactly one in a call that leaves a
    required field missing (answers "followup_required" and "error") and
    is unchanged by a call that answers "intent_complete"; it is below 3
    after a "followup_required" answer and at least 3 after an "error". *)
Theorem handle_user_query_attempts (svc : services)
    (user_input user_id : string) (st : user_sessions) :
  exists r st' s',
    handle_user_query svc user_input user_id st = Ok (r, st')
    /\ st' !! user_id = Some s'
    /\ attempts s'
       = attempts (session_of st user_id)
         + (if String.eqb (resp_type r) "intent_complete" then 0 else 1)
    /\ (resp_type r = "followup_required" -> attempts s' < MAX_ATTEMPTS)
    /\ (resp_type r = "error" -> MAX_ATTEMPTS <= attempts s').
Proof.
  eexists _, _, _. split; [apply handle_user_query_run|].
  split; [apply lookup_insert_eq|].
  unfold step_session.
  destruct (is_critical_missing _);
    [destruct (Z.geb_spec (attempts (session_of st user_id) + 1) MAX_ATTEMPTS)|];
    simpl; (split; [lia|]); split; intros Hr; try discriminate Hr; lia.
Qed.

Lemma get_missing_fields_in f i :
  In f (get_missing_fields i) <-> In (f, PyNone) i.
Proof.
  unfold get_missing_fields. rewrite in_map_iff. split.
  - intros ([k v] & <- & Hin). apply filter_In in Hin as [Hin Hv].
    simpl in *. destruct v; try discriminate. exact Hin.
  - intros Hin. exists (f, PyNone). split; [reflexivity|].
    apply filter_In. now split.
Qed.

(** X6. [get_followup_question] never raises.  With no field bound to
    [None] it answers [None] without consulting the completion service;
    otherwise it asks the service once, with the missing fields in the
    intent's order joined by ", ", and answers the stripped content, or
    [None] when the service fails.  When a required field is missing the
    list of missing fields contains it, and that list holds exactly the
    keys bound to [None]. *)
Theorem get_followup_question_behaviour
    (chain_invoke : string -> pydict -> exc string) (i : pydict) :
  ((forall k, ~ In (k, PyNone) i) ->
   get_followup_question chain_invoke i = Ok None)
  /\ ((exists k, In (k, PyNone) i) ->
      get_followup_question chain_invoke i
      = match chain_invoke (Str.join ", " (get_missing_fields i)) i with
        | Ok content => Ok (Some (Str.strip content))
        | Raise => Ok None
        end)
  /\ (is_critical_missing i = true ->
      exists f, In f (get_missing_fields i) /\ f ∈ REQUIRED_FIELDS)
  /\ (forall f, In f (get_missing_fields i) <-> In (f, PyNone) i).
Proof.
  split; [|split; [|split]].
  - intros Hnone. unfold get_followup_question.
    destruct (get_missing_fields i) as [|f fs] eqn:Hm; [reflexivity|].
    exfalso. apply (Hnone f). apply get_missing_fields_in. rewrite Hm. now left.
  - intros (k & Hk). unfold get_followup_question.
    destruct (get_missing_fields i) as [|f fs] eqn:Hm.
    + apply get_missing_fields_in in Hk. rewrite Hm in Hk. destruct Hk.
    + destruct (chain_invoke _ _); reflexivity.
  - intros Hc. apply is_critical_missing_true in Hc as (k & Hk & Hin).
    exists k. split; [now apply get_missing_fields_in|exact Hk].
  - intros f. apply get_missing_fields_in.
Qed.

Lemma dict_set_same k v d : Dict.lookup k d = Some v -> Dict.set k v d = d.
Proof.
  induction d as [|[k' v'] d IH]; simpl; [discriminate|].
  destruct (String.eqb_spec k k') as [->|Hne].
  - now intros [= ->].
  - intros H. now rewrite IH.
Qed.

Lemma merge_intent_fixed d new_intent :
  (forall k v, In (k, v) new_intent -> truthy v = true ->
               Dict.lookup k d = Some v) ->
  merge_intent d new_intent = d.
Proof.
  induction new_intent as [|[k v] new_intent IH]; intros H; [reflexivity|].
  rewrite merge_intent_cons. unfold merge_step; simpl.
  destruct (truthy v) eqn:Hv.
  - rewrite dict_set_same by (apply H; [now left|exact Hv]).
    apply IH. intros k' v' Hin. apply H. now right.
  - apply IH. intros k' v' Hin. apply H. now right.
Qed.

(** X7. Merging is idempotent: merging the same extracted intent (a
    dictionary) a second time changes nothing, so a repeated utterance
    that extracts the same values leaves the session intent as it is. *)
Theorem merge_intent_idempotent (old new_intent : pydict) :
  List.NoDup (Dict.keys new_intent) ->
  merge_intent (merge_intent old new_intent) new_intent
  = merge_intent old new_intent.
Proof.
  intros Hnd. apply merge_intent_fixed. intros k v Hin Hv.
  now apply merge_intent_overwritten.
Qed.

Lemma merge_intent_idempotent_witness :
  merge_intent
    (merge_intent empty_intent
       [("role", PyStr "data analyst"); ("location", PyNone);
        ("salary", PyStr ""); ("domain", PyNone); ("remote", PyStr "yes")])
    [("role", PyStr "data analyst"); ("location", PyNone);
     ("salary", PyStr ""); ("domain", PyNone); ("remote", PyStr "yes")]
  = merge_intent empty_intent
      [("role", PyStr "data analyst"); ("location", PyNone);
       ("salary", PyStr ""); ("domain", PyNone); ("remote", PyStr "yes")].
Proof.
  apply (merge_intent_idempotent empty_intent
           [("role", PyStr "data analyst"); ("location", PyNone);
            ("salary", PyStr ""); ("domain", PyNone); ("remote", PyStr "yes")]).
  repeat constructor; simpl; intuition discriminate.
Defined.

(* ===================================================================== *)
(** ** Further properties of the retrievers *)
(* ===================================================================== *)

Lemma enumerate_map_nth {A B} (f : Z -> A -> B) (l : list A) : forall s i,
  nth_error (map (fun ih => f (fst ih) (snd ih)) (enumerate_from s l)) i
  = option_map (f (s + Z.of_nat i)) (nth_error l i).
Proof.
  intros s i. rewrite nth_error_map, enumerate_from_nth.
  now destruct (nth_error l i).
Qed.

(** X8. [retrieve_jobs] of [job_retriever.py] raises exactly when the
    index does; otherwise it returns one candidate per hit, in the order
    of the hits, numbered from 1 in its [rank] entry, with the page
    content as description and the rounded score.  Its [job_id] is read
    from the metadata key [id], so it is [None] for a document whose
    metadata has no such key. *)
Theorem job_retriever_retrieve_jobs_ranks
    (index : string -> Z -> exc (list hit)) (py_str : pyval -> string)
    (round4 : spec_float -> spec_float) (intent : pydict) (top_k : Z) :
  match index (JobRetriever.create_search_query py_str intent) top_k with
  | Raise => JobRetriever.retrieve_jobs index py_str round4 intent top_k = Raise
  | Ok hits =>
      exists out,
        JobRetriever.retrieve_jobs index py_str round4 intent top_k = Ok out
        /\ List.length out = List.length hits
        /\ forall i doc score, nth_error hits i = Some (doc, score) ->
             exists job,
               nth_error out i = Some job
               /\ Dict.lookup "rank" job = Some (PyInt (Z.of_nat i + 1))
               /\ Dict.lookup "description" job = Some (PyStr (page_content doc))
               /\ Dict.lookup "similarity_score" job
                  = Some (PyFloat (round4 score))
               /\ Dict.lookup "metadata" job = Some (PyDict (metadata doc))
               /\ Dict.lookup "job_id" job = Some (Dict.get "id" (metadata doc))
               /\ (Dict.lookup "id" (metadata doc) = None ->
                   Dict.lookup "job_id" job = Some PyNone)
  end.
Proof.
  unfold JobRetriever.retrieve_jobs.
  destruct (index _ top_k) as [hits|]; simpl; [|reflexivity].
  eexists. split; [reflexivity|]. split.
  - now rewrite length_map, enumerate_from_length.
  - intros i doc score Hnth. eexists. split.
    + rewrite (enumerate_map_nth (JobRetriever.format_hit round4)), Hnth.
      reflexivity.
    + simpl. repeat split; try reflexivity.
      intros Hid. unfold Dict.get, Dict.get_default. now rewrite Hid.
Qed.

Lemma location_matches_raises t job :
  ~ has_location_text job -> JobRetriever.location_matches t job = Raise.
Proof.
  intros Hno. unfold JobRetriever.location_matches.
  destruct (Dict.get_default "location" (PyStr "") job) eqn:Hl;
    try reflexivity.
  exfalso. apply Hno. eexists. exact Hl.
Qed.

Lemma has_location_text_dec job :
  has_location_text job \/ ~ has_location_text job.
Proof.
  unfold has_location_text.
  destruct (Dict.get_default "location" (PyStr "") job);
    try (right; intros (x & Hx); discriminate).
  left. eexists. reflexivity.
Qed.

Lemma comprehension_raises t jobs :
  JobRetriever.comprehension (JobRetriever.location_matches (Str.lower t)) jobs
  = Raise
  <-> exists job, In job jobs /\ ~ has_location_text job.
Proof.
  induction jobs as [|job jobs IH]; simpl.
  - split; [discriminate|intros (job & [] & _)].
  - destruct (has_location_text_dec job) as [Hyes|Hno].
    + rewrite (location_matches_kept t job Hyes). simpl.
      destruct (JobRetriever.comprehension _ jobs) as [rest|] eqn:Hc; simpl.
      * split; [discriminate|]. intros (bad & [<-|Hin] & Hbad);
          [contradiction|].
        destruct IH as [_ IH2]. discriminate IH2. now exists bad.
      * split; [|reflexivity]. intros _.
        destruct IH as [IH1 _]. destruct (IH1 eq_refl) as (bad & Hin & Hbad).
        exists bad. split; [now right|exact Hbad].
    + rewrite (location_matches_raises _ job Hno). simpl.
      split; [|reflexivity]. intros _. exists job. split; [now left|exact Hno].
Qed.

(** X9. With a non-empty target, [filter_by_location] raises exactly when
    some candidate binds [location] to something that is not a string
    ([None], a number, ...): one such candidate anywhere in the list makes
    the whole call fail. *)
Theorem filter_by_location_raises (jobs : list pydict) (target : string) :
  target <> "" ->
  (JobRetriever.filter_by_location jobs (Some target) = Raise
   <-> exists job, In job jobs /\ ~ has_location_text job).
Proof.
  intros Ht. destruct target as [|c target]; [contradiction|].
  unfold JobRetriever.filter_by_location. apply comprehension_raises.
Qed.

Lemma filter_by_location_raises_witness :
  JobRetriever.filter_by_location
    [[("title", PyStr "Data Analyst"); ("location", PyStr "Remote")];
     [("title", PyStr "Data Engineer"); ("location", PyNone)]]
    (Some "New York") = Raise.
Proof.
  apply (proj2 (filter_by_location_raises
                  [[("title", PyStr "Data Analyst"); ("location", PyStr "Remote")];
                   [("title", PyStr "Data Engineer"); ("location", PyNone)]]
                  "New York" ltac:(discriminate))).
  exists [("title", PyStr "Data Engineer"); ("location", PyNone)].
  split; [right; now left|]. intros (s & Hs). discriminate.
Defined.

Lemma filter_sublist {A} (p : A -> bool) (l : list A) : sublist (List.filter p l) l.
Proof.
  induction l as [|x l IH]; simpl; [constructor|].
  destruct (p x); [now apply sublist_skip|now apply sublist_cons].
Qed.

Lemma filter_filter_same {A} (p : A -> bool) (l : list A) :
  List.filter p (List.filter p l) = List.filter p l.
Proof.
  induction l as [|x l IH]; simpl; [reflexivity|].
  destruct (p x) eqn:Hp; simpl; [rewrite Hp; now f_equal|exact IH].
Qed.

(** X10. On candidates whose location is a string, filtering by a
    non-empty target keeps the candidates in their order without adding
    any, keeps every candidate whose location mentions "remote" in any
    case whatever the target is, and filtering the result again with the
    same target returns it unchanged. *)
Theorem filter_by_location_stable (jobs : list pydict) (target : string) :
  Forall has_location_text jobs ->
  target <> "" ->
  exists out,
    JobRetriever.filter_by_location jobs (Some target) = Ok out
    /\ sublist out jobs
    /\ JobRetriever.filter_by_location out (Some target) = Ok out
    /\ (forall job, In job jobs ->
          contains_nocase "remote" (location_text job) -> In job out).
Proof.
  intros Hjobs Ht. destruct target as [|c target]; [contradiction|].
  unfold JobRetriever.filter_by_location.
  exists (List.filter (location_kept (String c target)) jobs).
  split; [now apply comprehension_filter|].
  split; [apply filter_sublist|]. split.
  - rewrite comprehension_filter.
    + now rewrite filter_filter_same.
    + apply List.Forall_forall. intros job Hin. apply filter_In in Hin as [Hin _].
      now apply (proj1 (List.Forall_forall _ _) Hjobs).
  - intros job Hin Hrem. apply filter_In. split; [exact Hin|].
    unfold location_kept. apply orb_true_iff. right.
    apply contains_spec. exact Hrem.
Qed.

Lemma filter_by_location_stable_witness :
  exists out,
    JobRetriever.filter_by_location
      [[("title", PyStr "Data Analyst"); ("location", PyStr "Boston, MA")];
       [("title", PyStr "Analyst"); ("location", PyStr "Fully Remote")]]
      (Some "New York") = Ok out
    /\ sublist out
         [[("title", PyStr "Data Analyst"); ("location", PyStr "Boston, MA")];
          [("title", PyStr "Analyst"); ("location", PyStr "Fully Remote")]]
    /\ JobRetriever.filter_by_location out (Some "New York") = Ok out
    /\ (forall job,
          In job
            [[("title", PyStr "Data Analyst"); ("location", PyStr "Boston, MA")];
             [("title", PyStr "Analyst"); ("location", PyStr "Fully Remote")]] ->
          contains_nocase "remote" (location_text job) -> In job out).
Proof.
  apply (filter_by_location_stable
           [[("title", PyStr "Data Analyst"); ("location", PyStr "Boston, MA")];
            [("title", PyStr "Analyst"); ("location", PyStr "Fully Remote")]]
           "New York").
  - repeat (apply List.Forall_cons; [eexists; reflexivity|]). apply List.Forall_nil.
  - discriminate.
Defined.

(** While the limit is not reached, the loop goes through a prefix of
    plain hits and carries on with what comes after. *)
Lemma dedup_loop_prefix round4 top_k l1 : forall rest seen deduped,
  Forall plain_hit l1 ->
  (Z.of_nat (List.length deduped
             + List.length (JobResponseFinal.first_occurrences seen l1)) < top_k
   \/ JobResponseFinal.first_occurrences seen l1 = []) ->
  JobResponseFinal.dedup_loop round4 top_k (l1 ++ rest) seen deduped
  = JobResponseFinal.dedup_loop round4 top_k rest
      (rev (map JobResponseFinal.hit_key
              (JobResponseFinal.first_occurrences seen l1)) ++ seen)%list
      (deduped ++ map (JobResponseFinal.candidate_of round4)
                    (JobResponseFinal.first_occurrences seen l1))%list.
Proof.
  induction l1 as [|h l1 IH]; intros rest seen deduped Hp Hroom.
  - simpl. now rewrite app_nil_r.
  - inversion Hp as [|? ? Hh Hrest]; subst.
    cbn [app JobResponseFinal.dedup_loop JobResponseFinal.first_occurrences]
      in *.
    cbv zeta.
    rewrite (DedupFacts.plain_hashable (JobResponseFinal.hit_key h) Hh).
    cbn [negb].
    destruct (JobResponseFinal.key_in (JobResponseFinal.hit_key h) seen);
      [now apply IH|].
    destruct Hroom as [Hroom|Hnil]; [|discriminate]. cbn [List.length] in Hroom.
    rewrite length_app. cbn [List.length].
    destruct (Z.geb_spec (Z.of_nat (List.length deduped + 1)) top_k); [lia|].
    rewrite IH; [|exact Hrest|left; rewrite length_app; cbn [List.length]; lia].
    cbn [map rev]. now rewrite <- !app_assoc.
Qed.

(** X11. [retrieve_jobs] of [job_response_final.py] raises when the
    index raises.  On hits whose title, company and location are strings
    or [None] it raises when the prompt template or the completion
    service raises, and for no other reason: building the compact job
    list from its own candidates never fails, and an answer that
    [json.loads] rejects gives the empty list; otherwise it returns
    whatever value [json.loads] produced from the de-fenced answer, list
    or not.  A hit whose key has an unhashable field (a list or a
    dictionary), met before the limit is reached, makes the call raise
    before the service is consulted. *)
Theorem job_response_final_retrieve_jobs_outcome
    (index : string -> Z -> exc (list hit)) (py_str : pyval -> string)
    (round4 : spec_float -> spec_float) (llm_invoke : string -> exc string)
    (json_dumps : pyval -> string) (json_loads : string -> exc pyval)
    (template_format : string -> string -> exc string)
    (intent : pydict) (top_k : Z) :
  let outcome :=
    JobResponseFinal.retrieve_jobs index py_str round4 llm_invoke json_dumps
      json_loads template_format intent top_k in
  match index (JobResponseFinal.create_search_query py_str intent) (top_k * 2) with
  | Raise => outcome = Raise
  | Ok hits =>
      (Forall plain_hit hits ->
       let kept := firstn (Z.to_nat (Z.max 1 top_k))
                     (JobResponseFinal.first_occurrences [] hits) in
       outcome
       = match template_format (json_dumps (PyDict intent))
                 (json_dumps (PyList (map (compact_of round4) kept))) with
         | Raise => Raise
         | Ok prompt =>
             match llm_invoke prompt with
             | Raise => Raise
             | Ok content =>
                 match json_loads
                         (JobResponseFinal.strip_fence (Str.strip content)) with
                 | Ok parsed => Ok parsed
                 | Raise => Ok (PyList [])
                 end
             end
         end)
      /\ (forall l1 h l2,
            hits = (l1 ++ h :: l2)%list ->
            Forall plain_hit l1 ->
            JobResponseFinal.key_hashable (JobResponseFinal.hit_key h) = false ->
            l1 = []
            \/ Z.of_nat (List.length
                           (JobResponseFinal.first_occurrences [] l1)) < top_k ->
            outcome = Raise)
  end.
Proof.
  cbv zeta. unfold JobResponseFinal.retrieve_jobs.
  destruct (index _ _) as [hits|]; [|reflexivity]. cbn [exc_bind]. split.
  - intros Hplain.
    rewrite DedupFacts.dedup_loop_spec by exact Hplain. simpl.
    rewrite Z.sub_0_r. apply rerank_with_llm_of_hits.
  - intros l1 h l2 -> Hplain Hbad Hroom.
    rewrite (dedup_loop_prefix round4 top_k l1 (h :: l2) [] [] Hplain).
    + cbn [JobResponseFinal.dedup_loop]. cbv zeta. rewrite Hbad. reflexivity.
    + destruct Hroom as [->|Hroom]; [now right|left; simpl; lia].
Qed.

Lemma job_response_final_retrieve_jobs_outcome_witness :
  Forall plain_hit [analyst_hit; analyst_hit; engineer_hit]
  /\ JobResponseFinal.retrieve_jobs index_three str_of_scalar (fun x => x)
       llm_three (fun _ => "") json_loads_three (fun _ _ => Ok "rank these")
       [("role", PyStr "data analyst")] 2
     = Ok (PyList [PyInt 1; PyInt 2; PyInt 3])
  /\ JobResponseFinal.key_hashable
       (JobResponseFinal.hit_key (unhashable_hit)) = false
  /\ JobResponseFinal.retrieve_jobs (fun _ _ => Ok [analyst_hit; unhashable_hit])
       str_of_scalar (fun x => x) llm_three (fun _ => "") json_loads_three
       (fun _ _ => Ok "rank these") [("role", PyStr "data analyst")] 2
     = Raise.
Proof.
  assert (Hplain : Forall plain_hit [analyst_hit; analyst_hit; engineer_hit]).
  { repeat (apply List.Forall_cons; [repeat split|]). apply List.Forall_nil. }
  split; [exact Hplain|]. split; [|split; [reflexivity|]].
  - pose proof (job_response_final_retrieve_jobs_outcome index_three
                  str_of_scalar (fun x => x) llm_three (fun _ => "")
                  json_loads_three (fun _ _ => Ok "rank these")
                  [("role", PyStr "data analyst")] 2) as H.
    cbv zeta in H. change (index_three _ _)
      with (@Ok (list hit) [analyst_hit; analyst_hit; engineer_hit]) in H.
    cbv beta iota in H. destruct H as [H _]. rewrite (H Hplain). reflexivity.
  - pose proof (job_response_final_retrieve_jobs_outcome
                  (fun _ _ => Ok [analyst_hit; unhashable_hit])
                  str_of_scalar (fun x => x) llm_three (fun _ => "")
                  json_loads_three (fun _ _ => Ok "rank these")
                  [("role", PyStr "data analyst")] 2) as H.
    cbv beta zeta iota in H. destruct H as [_ H].
    apply (H [analyst_hit] unhashable_hit []); [reflexivity| |reflexivity|].
    + apply List.Forall_cons; [repeat split|apply List.Forall_nil].
    + right. simpl. lia.
Defined.

(** X12. The candidate loop of [retrieve_jobs] tests the limit only after
    appending: with a limit of 1 or less (0 and negative limits included)
    it keeps exactly the first hit when the key of that hit is hashable,
    and raises when it is not; with no hit it keeps nothing. *)
Theorem dedup_loop_small_limit (round4 : spec_float -> spec_float)
    (top_k : Z) (h : hit) (rest : list hit) :
  top_k <= 1 ->
  (JobResponseFinal.key_hashable (JobResponseFinal.hit_key h) = true ->
   JobResponseFinal.dedup_loop round4 top_k (h :: rest) [] []
   = Ok [JobResponseFinal.candidate_of round4 h])
  /\ (JobResponseFinal.key_hashable (JobResponseFinal.hit_key h) = false ->
      JobResponseFinal.dedup_loop round4 top_k (h :: rest) [] [] = Raise)
  /\ JobResponseFinal.dedup_loop round4 top_k [] [] [] = Ok [].
Proof.
  intros Hk. split; [|split; [|reflexivity]]; intros Hh;
    cbn [JobResponseFinal.dedup_loop]; cbv zeta; rewrite Hh; [|reflexivity].
  cbn [negb JobResponseFinal.key_in existsb app List.length].
  destruct (Z.geb_spec (Z.of_nat 1) top_k); [reflexivity|lia].
Qed.

Lemma dedup_loop_small_limit_witness :
  JobResponseFinal.dedup_loop (fun x => x) 0 [analyst_hit; engineer_hit] [] []
  = Ok [JobResponseFinal.candidate_of (fun x => x) analyst_hit]
  /\ JobResponseFinal.dedup_loop (fun x => x) 0 [unhashable_hit; engineer_hit]
       [] [] = Raise.
Proof.
  split.
  - apply (dedup_loop_small_limit (fun x => x) 0 analyst_hit [engineer_hit]);
      [lia|reflexivity].
  - apply (dedup_loop_small_limit (fun x => x) 0 unhashable_hit [engineer_hit]);
      [lia|reflexivity].
Defined.

Lemma take_length n : forall s, (String.length (Str.take n s) <= n)%nat.
Proof.
  induction n as [|n IH]; intros [|c s]; simpl; try lia.
  specialize (IH s). lia.
Qed.

Lemma take_prefix n : forall s, exists rest, s = Str.take n s +:+ rest.
Proof.
  induction n as [|n IH]; intros s.
  - exists s. now destruct s.
  - destruct s as [|c s]; [now exists ""|].
    destruct (IH s) as (rest & Hr). exists rest. simpl.
    rewrite append_cons. now rewrite <- Hr.
Qed.

Lemma take_all n : forall s, (String.length s <= n)%nat -> Str.take n s = s.
Proof.
  induction n as [|n IH]; intros [|c s] Hl; simpl in *; try reflexivity; try lia.
  rewrite IH by lia. reflexivity.
Qed.

(** X13. A candidate built by [retrieve_jobs] of [job_response_final.py]
    has exactly the entries title, company, location, short_description
    and similarity_score; its identity key is that of the hit; its short
    description is the beginning of the page content, at most 500
    characters long, and the whole content when that is no longer. *)
Theorem candidate_of_shape (round4 : spec_float -> spec_float) (h : hit) :
  Dict.keys (JobResponseFinal.candidate_of round4 h)
  = ["title"; "company"; "location"; "short_description"; "similarity_score"]
  /\ JobResponseFinal.candidate_key (JobResponseFinal.candidate_of round4 h)
     = JobResponseFinal.hit_key h
  /\ exists excerpt rest,
       Dict.lookup "short_description" (JobResponseFinal.candidate_of round4 h)
       = Some (PyStr excerpt)
       /\ (String.length excerpt <= 500)%nat
       /\ page_content (fst h) = excerpt +:+ rest
       /\ ((String.length (page_content (fst h)) <= 500)%nat ->
           excerpt = page_content (fst h)).
Proof.
  destruct h as [doc score]. split; [reflexivity|]. split; [reflexivity|].
  destruct (take_prefix 500 (page_content doc)) as (rest & Hrest).
  exists (Str.take 500 (page_content doc)), rest.
  split; [reflexivity|]. split; [apply take_length|].
  split; [exact Hrest|]. apply take_all.
Qed.

(* ===================================================================== *)
(** ** Further properties of the re-ranker of response_chain.py *)
(* ===================================================================== *)

Module RankFacts.
Section Facts.

Import ResponseChain.

Variable py_str : pyval -> string.
Variable model_invoke : string -> exc string.
Variable invoke_exception : string -> exn_class.
Variable json_loads : string -> exc pyval.
Variable template_format : string -> string -> string.

Lemma find_match_in t c jobs m :
  find_match t c jobs = Ok (Some m) -> In m jobs.
Proof.
  induction jobs as [|job jobs IH]; simpl; [discriminate|].
  destruct (py_strip _) as [ot|]; simpl; [|discriminate].
  destruct (py_strip _) as [oc|]; simpl; [|discriminate].
  destruct (_ && _).
  - intros [= <-]. now left.
  - intros H. right. now apply IH.
Qed.

Lemma annotated_rank reason i m :
  final_rank_of
    (Dict.set "selection_reason" reason (Dict.set "final_rank" (PyInt i) m))
  = Some i
  /\ annotates m
       (Dict.set "selection_reason" reason (Dict.set "final_rank" (PyInt i) m)).
Proof.
  split.
  - unfold final_rank_of. rewrite dict_lookup_set_ne by discriminate.
    now rewrite dict_lookup_set_eq.
  - intros k Hk1 Hk2. rewrite dict_lookup_set_ne by congruence.
    now rewrite dict_lookup_set_ne by congruence.
Qed.

(** What one iteration appends. *)
Lemma rank_one_some jobs i e job :
  rank_one py_str jobs i e = Ok (Some job) ->
  is_dict e = true
  /\ final_rank_of job = Some i
  /\ ((exists original, In original jobs /\ annotates original job)
      \/ is_placeholder job).
Proof.
  unfold rank_one. destruct e as [| | | | | |ranked]; try discriminate.
  destruct (py_strip _) as [rt|]; simpl; [|discriminate].
  destruct (py_strip _) as [rc|]; simpl; [|discriminate].
  destruct (find_match rt rc jobs) as [[[|entry entries]|]|] eqn:Hm;
    cbv beta iota delta [exc_bind];
    try discriminate; intros [= <-]; (split; [reflexivity|]).
  - split; [reflexivity|]. right. repeat split; eexists; reflexivity.
  - destruct (annotated_rank
                (Dict.get_default "reason"
                   (PyStr "Good match for your requirements") ranked)
                i (entry :: entries)) as [Hrank Hann].
    split.
    + exact Hrank.
    + left. exists (entry :: entries). split; [now apply (find_match_in rt rc)|].
      exact Hann.
  - split; [reflexivity|]. right. repeat split; eexists; reflexivity.
Qed.

Lemma rank_one_none jobs i e :
  rank_one py_str jobs i e = Ok None <-> is_dict e = false.
Proof.
  unfold rank_one. destruct e as [| | | | | |ranked]; simpl;
    try (split; [reflexivity|reflexivity]).
  split; [|discriminate].
  destruct (py_strip _) as [rt|]; simpl; [|discriminate].
  destruct (py_strip _) as [rc|]; simpl; [|discriminate].
  destruct (find_match rt rc jobs) as [[[|entry entries]|]|]; simpl; discriminate.
Qed.

(** The loop appends one job per dictionary among the entries, in their
    order. *)
Lemma rank_loop_added jobs entries : forall acc out,
  rank_loop py_str jobs entries acc = Ok out ->
  exists added,
    out = (acc ++ added)%list
    /\ Forall2 (fun e job => rank_one py_str jobs (fst e) (snd e) = Ok (Some job))
         (List.filter (fun e => is_dict (snd e)) entries) added.
Proof.
  induction entries as [|[i e] entries IH]; intros acc out; simpl.
  - intros [= <-]. exists []. split; [now rewrite app_nil_r|constructor].
  - destruct (rank_one py_str jobs i e) as [[job|]|] eqn:Hone; simpl;
      [| |discriminate].
    + intros Hloop. destruct (IH _ _ Hloop) as (added & -> & Hadded).
      exists (job :: added). split; [now rewrite <- app_assoc|].
      destruct (rank_one_some _ _ _ _ Hone) as (-> & _). now constructor.
    + intros Hloop. destruct (IH _ _ Hloop) as (added & -> & Hadded).
      exists added. split; [reflexivity|].
      apply rank_one_none in Hone. now rewrite Hone.
Qed.

Lemma rank_loop_raises jobs entries : forall acc i e,
  In (i, e) entries -> rank_one py_str jobs i e = Raise ->
  rank_loop py_str jobs entries acc = Raise.
Proof.
  induction entries as [|[i0 e0] entries IH]; intros acc i e Hin Hr; [destruct Hin|].
  simpl. destruct Hin as [[= -> ->]|Hin].
  - now rewrite Hr.
  - destruct (rank_one py_str jobs i0 e0) as [[job|]|]; simpl;
      [now apply (IH _ i e)|now apply (IH _ i e)|reflexivity].
Qed.

(** The outcomes of the body of the [try]. *)
Lemma rank_response_cases jobs response out :
  rank_response py_str json_loads jobs response = Ok out ->
  out = _create_fallback_ranking py_str jobs
  \/ exists rankings final_jobs,
       rank_loop py_str jobs (enumerate_from 1 (firstn 10 rankings)) []
       = Ok final_jobs
       /\ out = firstn 10 final_jobs.
Proof.
  unfold rank_response.
  destruct (String.eqb _ ""); [intros [= <-]; now left|].
  destruct (_ || _); [intros [= <-]; now left|].
  destruct (json_loads _) as [[| | | | |rankings|]|];
    try (intros [= <-]; now left).
  destruct (rank_loop _ _ _ _) as [final_jobs|] eqn:Hloop; simpl; [|discriminate].
  intros [= <-]. right. now exists rankings, final_jobs.
Qed.

(** [rerank_jobs] raises in one case only. *)
Lemma rerank_jobs_raises jobs intent :
  rerank_jobs py_str model_invoke invoke_exception json_loads template_format
    jobs intent = Raise
  <-> model_invoke (build_prompt py_str template_format (first_thirty jobs)
                      intent) = Raise
      /\ invoke_exception (build_prompt py_str template_format
                             (first_thirty jobs) intent) = JSONDecodeError.
Proof.
  unfold rerank_jobs. cbv zeta.
  destruct (model_invoke _) as [response|].
  - destruct (rank_response py_str json_loads (first_thirty jobs) response);
      simpl; split; [discriminate|intros [H _]; discriminate
                    |discriminate|intros [H _]; discriminate].
  - destruct (invoke_exception _); split; try discriminate; try tauto.
    intros [_ H]. discriminate.
Qed.

Lemma rerank_jobs_cases jobs intent out :
  rerank_jobs py_str model_invoke invoke_exception json_loads template_format
    jobs intent = Ok out ->
  out = _create_fallback_ranking py_str (first_thirty jobs)
  \/ exists rankings final_jobs,
       rank_loop py_str (first_thirty jobs)
         (enumerate_from 1 (firstn 10 rankings)) [] = Ok final_jobs
       /\ out = firstn 10 final_jobs.
Proof.
  unfold rerank_jobs. cbv zeta.
  destruct (model_invoke _) as [response|].
  - destruct (rank_response py_str json_loads (first_thirty jobs) response)
      as [out'|] eqn:Hr; simpl.
    + intros [= <-]. now apply (rank_response_cases _ response).
    + intros [= <-]. now left.
  - destruct (invoke_exception _); [discriminate|]. intros [= <-]. now left.
Qed.

End Facts.
End RankFacts.

Lemma enumerate_from_bounds {A} (l : list A) : forall s i x,
  In (i, x) (enumerate_from s l) -> s <= i < s + Z.of_nat (List.length l).
Proof.
  induction l as [|y l IH]; intros s i x; simpl; [tauto|].
  intros [[= <- _]|Hin]; [lia|]. apply IH in Hin. lia.
Qed.

Lemma enumerate_from_sorted {A} (l : list A) : forall s,
  StronglySorted Z.lt (map fst (enumerate_from s l)).
Proof.
  induction l as [|y l IH]; intros s; simpl; constructor; [apply IH|].
  apply List.Forall_forall. intros i Hin.
  apply in_map_iff in Hin as ([i' x] & <- & Hin). simpl.
  apply enumerate_from_bounds in Hin. lia.
Qed.

Lemma StronglySorted_filter_map {A} (f : A -> Z) (p : A -> bool) (l : list A) :
  StronglySorted Z.lt (map f l) -> StronglySorted Z.lt (map f (List.filter p l)).
Proof.
  induction l as [|x l IH]; simpl; intros Hs; [constructor|].
  inversion Hs as [|? ? Hrest Hall]; subst.
  destruct (p x); simpl; [|now apply IH].
  constructor; [now apply IH|].
  apply List.Forall_forall. intros i Hin.
  apply in_map_iff in Hin as (y & <- & Hin). apply filter_In in Hin as [Hin _].
  apply (proj1 (List.Forall_forall _ _) Hall). now apply in_map.
Qed.

Lemma StronglySorted_firstn n : forall l : list Z,
  StronglySorted Z.lt l -> StronglySorted Z.lt (firstn n l).
Proof.
  induction n as [|n IH]; intros l Hs; [constructor|].
  destruct l as [|x l]; [constructor|]. simpl.
  inversion Hs as [|? ? Hrest Hall]; subst. constructor; [now apply IH|].
  apply List.Forall_forall. intros i Hin. apply DedupFacts.In_firstn in Hin.
  now apply (proj1 (List.Forall_forall _ _) Hall).
Qed.

Lemma fallback_ranks py_str jobs :
  map final_rank_of (ResponseChain._create_fallback_ranking py_str jobs)
  = map Some (map fst (enumerate_from 1 (firstn 10 jobs))).
Proof.
  unfold ResponseChain._create_fallback_ranking. rewrite !map_map.
  apply map_ext. intros [i job]. unfold final_rank_of. simpl.
  rewrite dict_lookup_set_ne by discriminate. now rewrite dict_lookup_set_eq.
Qed.

(** X14. Every job that [rerank_jobs] of [response_chain.py] returns has
    an integer [final_rank] between 1 and 10, the final ranks grow
    strictly along the returned list, and the list has at most ten jobs,
    whether it comes from the model's answer or from the fallback. *)
Theorem rerank_jobs_final_ranks
    (py_str : pyval -> string) (model_invoke : string -> exc string)
    (invoke_exception : string -> exn_class)
    (json_loads : string -> exc pyval)
    (template_format : string -> string -> string)
    (jobs : list pydict) (intent : pydict) (out : list pydict) :
  ResponseChain.rerank_jobs py_str model_invoke invoke_exception json_loads
    template_format jobs intent = Ok out ->
  exists ranks,
    map final_rank_of out = map Some ranks
    /\ StronglySorted Z.lt ranks
    /\ Forall (fun i => 1 <= i <= 10) ranks
    /\ (List.length out <= 10)%nat.
Proof.
  intros Hrun.
  destruct (RankFacts.rerank_jobs_cases py_str model_invoke invoke_exception
              json_loads template_format jobs intent out Hrun)
    as [->|(rankings & final_jobs & Hloop & ->)].
  - eexists. split; [apply fallback_ranks|].
    split; [apply enumerate_from_sorted|]. split.
    + apply List.Forall_forall. intros i Hin.
      apply in_map_iff in Hin as ([i' x] & <- & Hin). simpl.
      apply enumerate_from_bounds in Hin.
      pose proof (firstn_le_length 10 (first_thirty jobs)). lia.
    + apply ResponseChainFacts.fallback_length.
  - apply RankFacts.rank_loop_added in Hloop as (added & -> & Hadded).
    simpl.
    set (entries := List.filter (fun e : Z * pyval => is_dict (snd e))
                      (enumerate_from 1 (firstn 10 rankings))) in *.
    exists (firstn 10 (map fst entries)).
    assert (Hranks : map final_rank_of added = map Some (map fst entries)).
    { clear Hrun. induction Hadded as [|e job es js He _ IH]; [reflexivity|].
      simpl. apply RankFacts.rank_one_some in He as (_ & -> & _).
      now rewrite IH. }
    split; [now rewrite <- !firstn_map, Hranks|].
    split; [|split].
    + apply StronglySorted_firstn. subst entries.
      apply StronglySorted_filter_map, enumerate_from_sorted.
    + apply List.Forall_forall. intros i Hin. apply DedupFacts.In_firstn in Hin.
      apply in_map_iff in Hin as ([i' x] & <- & Hin). simpl.
      subst entries. apply filter_In in Hin as [Hin _].
      apply enumerate_from_bounds in Hin.
      pose proof (firstn_le_length 10 rankings). lia.
    + apply firstn_le_length.
Qed.

Lemma rerank_jobs_final_ranks_witness :
  exists out,
    ResponseChain.rerank_jobs str_of_scalar (fun _ => Ok "[x]")
      (fun _ => OtherException) (json_loads_only "[x]" one_selection)
      (fun intent_str jobs_str => jobs_str) three_candidates
      [("role", PyStr "Data Scientist")] = Ok out
    /\ exists ranks,
         map final_rank_of out = map Some ranks
         /\ StronglySorted Z.lt ranks
         /\ Forall (fun i => 1 <= i <= 10) ranks
         /\ (List.length out <= 10)%nat.
Proof.
  eexists. split; [vm_compute; reflexivity|].
  apply (rerank_jobs_final_ranks str_of_scalar (fun _ => Ok "[x]")
           (fun _ => OtherException) (json_loads_only "[x]" one_selection)
           (fun intent_str jobs_str => jobs_str) three_candidates
           [("role", PyStr "Data Scientist")]).
  vm_compute. reflexivity.
Defined.

Lemma fallback_provenance py_str jobs job :
  In job (ResponseChain._create_fallback_ranking py_str jobs) ->
  exists original, In original jobs /\ annotates original job.
Proof.
  unfold ResponseChain._create_fallback_ranking. intros Hin.
  apply in_map_iff in Hin as ([i original] & <- & Hin).
  exists original. split.
  - apply (DedupFacts.In_firstn 10).
    rewrite <- (enumerate_from_snd (firstn 10 jobs) 1).
    change original with (snd (i, original)). now apply in_map.
  - intros k Hk1 Hk2. rewrite dict_lookup_set_ne by congruence.
    now rewrite dict_lookup_set_ne by congruence.
Qed.

(** X15. Every job that [rerank_jobs] of [response_chain.py] returns is
    either one of the first 30 input candidates, with all its entries
    kept but [final_rank] and [selection_reason], or a placeholder with a
    zero similarity score: the model's answer cannot alter a candidate's
    title, company, location or score. *)
Theorem rerank_jobs_provenance
    (py_str : pyval -> string) (model_invoke : string -> exc string)
    (invoke_exception : string -> exn_class)
    (json_loads : string -> exc pyval)
    (template_format : string -> string -> string)
    (jobs : list pydict) (intent : pydict) (out : list pydict) :
  ResponseChain.rerank_jobs py_str model_invoke invoke_exception json_loads
    template_format jobs intent = Ok out ->
  Forall (fun job =>
            (exists original,
               In original (firstn 30 jobs) /\ annotates original job)
            \/ is_placeholder job) out.
Proof.
  intros Hrun.
  assert (Hthirty : forall x, In x (first_thirty jobs) -> In x (firstn 30 jobs)).
  { unfold first_thirty. destruct (Nat.ltb_spec 30 (List.length jobs)); [tauto|].
    now rewrite firstn_all2 by lia. }
  destruct (RankFacts.rerank_jobs_cases py_str model_invoke invoke_exception
              json_loads template_format jobs intent out Hrun)
    as [->|(rankings & final_jobs & Hloop & ->)];
    apply List.Forall_forall; intros job Hin.
  - left. apply fallback_provenance in Hin as (original & Ho & Ha).
    exists original. split; [now apply Hthirty|exact Ha].
  - apply DedupFacts.In_firstn in Hin.
    apply RankFacts.rank_loop_added in Hloop as (added & -> & Hadded).
    simpl in Hin. clear Hrun.
    induction Hadded as [|e job' es js He _ IH]; [destruct Hin|].
    destruct Hin as [->|Hin]; [|now apply IH].
    apply RankFacts.rank_one_some in He as (_ & _ & [(original & Ho & Ha)|Hp]);
      [left|now right].
    exists original. split; [now apply Hthirty|exact Ha].
Qed.

Lemma rerank_jobs_provenance_witness :
  exists out,
    ResponseChain.rerank_jobs str_of_scalar (fun _ => Ok "[x]")
      (fun _ => OtherException) (json_loads_only "[x]" two_selections)
      (fun intent_str jobs_str => jobs_str) three_candidates
      [("role", PyStr "Data Scientist")] = Ok out
    /\ List.length out = 2%nat
    /\ Forall (fun job =>
                 (exists original,
                    In original (firstn 30 three_candidates)
                    /\ annotates original job)
                 \/ is_placeholder job) out.
Proof.
  eexists. split; [vm_compute; reflexivity|]. split; [reflexivity|].
  apply (rerank_jobs_provenance str_of_scalar (fun _ => Ok "[x]")
           (fun _ => OtherException) (json_loads_only "[x]" two_selections)
           (fun intent_str jobs_str => jobs_str) three_candidates
           [("role", PyStr "Data Scientist")]).
  vm_compute. reflexivity.
Defined.

Lemma first_thirty_idem jobs : first_thirty (firstn 30 jobs) = first_thirty jobs.
Proof.
  unfold first_thirty. rewrite length_firstn.
  destruct (Nat.ltb_spec 30 (List.length jobs)) as [Hlt|Hge].
  - replace (Nat.min 30 (List.length jobs)) with 30%nat by lia.
    reflexivity.
  - assert (Hj : firstn 30 jobs = jobs) by (apply firstn_all2; lia).
    rewrite !Hj.
    destruct (Nat.ltb_spec 30 (Nat.min 30 (List.length jobs))); [lia|reflexivity].
Qed.

(** X16. Both re-rankers look at the first 30 candidates only: candidates
    beyond the 30th are not put in the prompt, cannot be selected and are
    not part of the fallback, so re-ranking a list and re-ranking its
    first 30 elements give the same outcome. *)
Theorem rerank_jobs_first_thirty
    (py_str : pyval -> string) (model_invoke : string -> exc string)
    (invoke_exception : string -> exn_class)
    (json_loads : string -> exc pyval)
    (template_format prompt_text : string -> string -> string)
    (float_index_in_range : spec_float -> nat -> bool)
    (jobs : list pydict) (intent : pydict) :
  ResponseChain.rerank_jobs py_str model_invoke invoke_exception json_loads
    template_format jobs intent
  = ResponseChain.rerank_jobs py_str model_invoke invoke_exception json_loads
      template_format (firstn 30 jobs) intent
  /\ JobRanker.rerank_jobs py_str model_invoke json_loads prompt_text
       float_index_in_range jobs intent
     = JobRanker.rerank_jobs py_str model_invoke json_loads prompt_text
         float_index_in_range (firstn 30 jobs) intent.
Proof.
  unfold ResponseChain.rerank_jobs, JobRanker.rerank_jobs.
  rewrite first_thirty_idem. now split.
Qed.

(** X17. One malformed selection spoils the whole answer: when the
    completion service answers, the answer has an array and [json.loads]
    yields, from the text extracted from it, a list in which one of the
    first ten entries is a dictionary whose title, or whose company, is
    not a string (a JSON null or number), [rerank_jobs] of
    [response_chain.py] discards the selections already made and returns
    the fallback ranking. *)
Theorem rerank_jobs_malformed_entry
    (py_str : pyval -> string) (model_invoke : string -> exc string)
    (invoke_exception : string -> exn_class)
    (json_loads : string -> exc pyval)
    (template_format : string -> string -> string)
    (jobs : list pydict) (intent : pydict) (response : string)
    (rankings : list pyval) (n : nat) (ranked : pydict) (field : string)
    (v : pyval) :
  model_invoke (ResponseChain.build_prompt py_str template_format
                  (first_thirty jobs) intent) = Ok response ->
  answer_has_array response = true ->
  json_loads (extracted_json response) = Ok (PyList rankings) ->
  nth_error rankings n = Some (PyDict ranked) ->
  (n < 10)%nat ->
  field = "title" \/ field = "company" ->
  Dict.lookup field ranked = Some v ->
  is_str v = false ->
  ResponseChain.rerank_jobs py_str model_invoke invoke_exception json_loads
    template_format jobs intent
  = Ok (ResponseChain._create_fallback_ranking py_str (first_thirty jobs)).
Proof.
  intros Hm Ha Hj Hnth Hn Hfield Hv Hstr.
  assert (Hone : ResponseChain.rank_one py_str (first_thirty jobs)
                   (1 + Z.of_nat n) (PyDict ranked) = Raise).
  { unfold ResponseChain.rank_one.
    destruct Hfield as [-> | ->].
    - unfold Dict.get_default at 1. rewrite Hv. destruct v; try reflexivity.
      discriminate.
    - destruct (py_strip (Dict.get_default "title" (PyStr "") ranked));
        [|reflexivity].
      simpl. unfold Dict.get_default at 1. rewrite Hv.
      destruct v; try reflexivity. discriminate. }
  assert (Hloop : ResponseChain.rank_loop py_str (first_thirty jobs)
                    (enumerate_from 1 (firstn 10 rankings)) [] = Raise).
  { apply (RankFacts.rank_loop_raises py_str _ _ _ (1 + Z.of_nat n)
             (PyDict ranked)); [|exact Hone].
    apply (nth_error_In _ n).
    rewrite enumerate_from_nth, nth_error_firstn_lt, Hnth by exact Hn.
    reflexivity. }
  unfold ResponseChain.rerank_jobs. cbv zeta. rewrite Hm.
  rewrite (ResponseChainFacts.rank_response_array _ _ _ _ Ha), Hj, Hloop.
  reflexivity.
Qed.

Lemma rerank_jobs_malformed_entry_witness :
  answer_has_array "[x]" = true
  /\ json_loads_only "[x]" (PyList [PyDict [("title", PyStr "Data Scientist");
                                            ("company", PyStr "Apple")];
                                    PyDict [("title", PyNone)]])
       (extracted_json "[x]")
     = Ok (PyList [PyDict [("title", PyStr "Data Scientist");
                           ("company", PyStr "Apple")];
                   PyDict [("title", PyNone)]])
  /\ ResponseChain.rerank_jobs str_of_scalar (fun _ => Ok "[x]")
       (fun _ => OtherException)
       (json_loads_only "[x]"
          (PyList [PyDict [("title", PyStr "Data Scientist");
                           ("company", PyStr "Apple")];
                   PyDict [("title", PyNone)]]))
       (fun intent_str jobs_str => jobs_str) three_candidates
       [("role", PyStr "Software Engineer")]
     = Ok (ResponseChain._create_fallback_ranking str_of_scalar
             (first_thirty three_candidates)).
Proof.
  split; [vm_compute; reflexivity|]. split; [vm_compute; reflexivity|].
  apply (rerank_jobs_malformed_entry str_of_scalar (fun _ => Ok "[x]")
           (fun _ => OtherException)
           (json_loads_only "[x]"
              (PyList [PyDict [("title", PyStr "Data Scientist");
                               ("company", PyStr "Apple")];
                       PyDict [("title", PyNone)]]))
           (fun intent_str jobs_str => jobs_str) three_candidates
           [("role", PyStr "Software Engineer")] "[x]"
           [PyDict [("title", PyStr "Data Scientist"); ("company", PyStr "Apple")];
            PyDict [("title", PyNone)]]
           1 [("title", PyNone)] "title" PyNone).
  - reflexivity.
  - vm_compute. reflexivity.
  - vm_compute. reflexivity.
  - reflexivity.
  - lia.
  - now left.
  - reflexivity.
  - reflexivity.
Defined.

Lemma rank_loop_no_dict py_str jobs entries : forall acc,
  Forall (fun e : Z * pyval => is_dict (snd e) = false) entries ->
  ResponseChain.rank_loop py_str jobs entries acc = Ok acc.
Proof.
  induction entries as [|[i e] entries IH]; intros acc Hall; [reflexivity|].
  inversion Hall as [|? ? He Hrest]; subst. simpl in He. simpl.
  rewrite (proj2 (RankFacts.rank_one_none py_str jobs i e) He). simpl.
  now apply IH.
Qed.

(** X18. An answer whose array holds no dictionary among its first ten
    entries (the empty array, or an array of strings as the other prompt
    asks for) is not treated as a failure: when [json.loads] yields such
    a list from the text extracted from the answer, [rerank_jobs] of
    [response_chain.py] returns the empty list, not the fallback
    ranking. *)
Theorem rerank_jobs_no_selection
    (py_str : pyval -> string) (model_invoke : string -> exc string)
    (invoke_exception : string -> exn_class)
    (json_loads : string -> exc pyval)
    (template_format : string -> string -> string)
    (jobs : list pydict) (intent : pydict)
    (response : string) (rankings : list pyval) :
  model_invoke (ResponseChain.build_prompt py_str template_format
                  (first_thirty jobs) intent) = Ok response ->
  answer_has_array response = true ->
  json_loads (extracted_json response) = Ok (PyList rankings) ->
  Forall (fun e => is_dict e = false) (firstn 10 rankings) ->
  ResponseChain.rerank_jobs py_str model_invoke invoke_exception json_loads
    template_format jobs intent = Ok [].
Proof.
  intros Hm Ha Hj Hnd. unfold ResponseChain.rerank_jobs. cbv zeta. rewrite Hm.
  rewrite (ResponseChainFacts.rank_response_array _ _ _ _ Ha), Hj.
  rewrite rank_loop_no_dict; [reflexivity|].
  apply List.Forall_forall. intros [i e] Hin. simpl.
  apply (proj1 (List.Forall_forall _ _) Hnd).
  rewrite <- (enumerate_from_snd (firstn 10 rankings) 1).
  change e with (snd (i, e)). now apply in_map.
Qed.

Lemma rerank_jobs_no_selection_witness :
  answer_has_array "Here you are: [1, 2]" = true
  /\ ResponseChain.rerank_jobs str_of_scalar
       (fun _ => Ok "Here you are: [1, 2]")
       (fun _ => OtherException)
       (json_loads_only "[1, 2]" (PyList [PyInt 1; PyInt 2]))
       (fun intent_str jobs_str => jobs_str)
       three_candidates [("role", PyStr "Software Engineer")] = Ok [].
Proof.
  split; [vm_compute; reflexivity|].
  apply (rerank_jobs_no_selection str_of_scalar
           (fun _ => Ok "Here you are: [1, 2]")
           (fun _ => OtherException)
           (json_loads_only "[1, 2]" (PyList [PyInt 1; PyInt 2]))
           (fun intent_str jobs_str => jobs_str)
           three_candidates [("role", PyStr "Software Engineer")]
           "Here you are: [1, 2]" [PyInt 1; PyInt 2]).
  - reflexivity.
  - vm_compute. reflexivity.
  - vm_compute. reflexivity.
  - repeat constructor.
Defined.

(** X27. When the re-rankers return.  [rerank_jobs] of
    [response_chain.py] raises in one case only: [self.model.invoke]
    raised a [json.JSONDecodeError].  In every other case it returns at
    most ten jobs, and these are the fallback ranking when the service
    raised another exception, when its answer is empty or has no array,
    and when [json.loads] rejects the extracted text or yields something
    that is not a list.  [rerank_jobs] of [job_ranker.py] returns at most
    ten jobs, whatever the service and [json.loads] do, on candidates
    that carry the four entries its prompt reads. *)
Theorem rerank_jobs_returns
    (py_str : pyval -> string) (model_invoke : string -> exc string)
    (invoke_exception : string -> exn_class)
    (json_loads : string -> exc pyval)
    (template_format prompt_text : string -> string -> string)
    (float_index_in_range : spec_float -> nat -> bool)
    (jobs : list pydict) (intent : pydict) :
  let prompt := ResponseChain.build_prompt py_str template_format
                  (first_thirty jobs) intent in
  let fallback := ResponseChain._create_fallback_ranking py_str
                    (first_thirty jobs) in
  let outcome := ResponseChain.rerank_jobs py_str model_invoke
                   invoke_exception json_loads template_format jobs intent in
  (outcome = Raise <->
   model_invoke prompt = Raise /\ invoke_exception prompt = JSONDecodeError)
  /\ (forall out, outcome = Ok out ->
        (List.length out <= 10)%nat
        /\ (model_invoke prompt = Raise -> out = fallback)
        /\ (forall response, model_invoke prompt = Ok response ->
              Str.strip response = ""
              \/ answer_has_array response = false
              \/ json_loads (extracted_json response) = Raise
              \/ (exists v, json_loads (extracted_json response) = Ok v
                            /\ is_list v = false) ->
              out = fallback))
  /\ (Forall has_prompt_keys jobs ->
      exists out,
        JobRanker.rerank_jobs py_str model_invoke json_loads prompt_text
          float_index_in_range jobs intent = Ok out
        /\ (List.length out <= 10)%nat).
Proof.
  cbv zeta. split; [apply RankFacts.rerank_jobs_raises|]. split.
  - intros out Hrun. split; [|split].
    + destruct (RankFacts.rerank_jobs_cases py_str model_invoke
                  invoke_exception json_loads template_format jobs intent out
                  Hrun) as [->|(rankings & final_jobs & _ & ->)].
      * apply ResponseChainFacts.fallback_length.
      * apply firstn_le_length.
    + intros Hm. unfold ResponseChain.rerank_jobs in Hrun. cbv zeta in Hrun.
      rewrite Hm in Hrun. destruct (invoke_exception _); [discriminate|].
      now injection Hrun as <-.
    + intros response Hm Hcase.
      unfold ResponseChain.rerank_jobs in Hrun. cbv zeta in Hrun.
      rewrite Hm in Hrun.
      assert (Hbody : ResponseChain.rank_response py_str json_loads
                        (first_thirty jobs) response
                      = Ok (ResponseChain._create_fallback_ranking py_str
                              (first_thirty jobs))).
      { destruct Hcase as [Hs|[Ha|Hj]].
        - apply ResponseChainFacts.rank_response_no_array.
          unfold answer_has_array. now rewrite Hs.
        - now apply ResponseChainFacts.rank_response_no_array.
        - now apply ResponseChainFacts.rank_response_no_list. }
      rewrite Hbody in Hrun. now injection Hrun as <-.
  - intros Hk. unfold JobRanker.rerank_jobs.
    destruct (JobRankerFacts.jobs_text_ok py_str
                (enumerate_from 1 (first_thirty jobs))) as (text & ->).
    { rewrite enumerate_from_snd. now apply first_thirty_keys. }
    simpl.
    destruct (model_invoke _) as [content|]; simpl;
      [|eexists; split; [reflexivity|apply firstn_le_length]].
    destruct (json_loads content) as [rankings|]; simpl;
      [|eexists; split; [reflexivity|apply firstn_le_length]].
    destruct (JobRanker.py_iter rankings) as [items|]; simpl;
      [|eexists; split; [reflexivity|apply firstn_le_length]].
    destruct (JobRanker.rank_loop _ _ _ _) as [final_jobs|]; simpl;
      eexists; (split; [reflexivity|apply firstn_le_length]).
Qed.

Lemma rerank_jobs_returns_witness :
  Forall has_prompt_keys three_candidates
  /\ exists out,
       JobRanker.rerank_jobs str_of_scalar llm_empty json_loads_nothing
         (fun intent_str text => text) (fun _ _ => false)
         three_candidates [("role", PyStr "Software Engineer")] = Ok out
       /\ (List.length out <= 10)%nat.
Proof.
  assert (Hk : Forall has_prompt_keys three_candidates).
  { unfold three_candidates.
    repeat (apply List.Forall_cons; [unfold has_prompt_keys; simpl; auto 10|]).
    apply List.Forall_nil. }
  split; [exact Hk|].
  pose proof (rerank_jobs_returns str_of_scalar llm_empty
                (fun _ => OtherException) json_loads_nothing
                (fun intent_str jobs_str => jobs_str)
                (fun intent_str text => text) (fun _ _ => false)
                three_candidates [("role", PyStr "Software Engineer")]) as H.
  cbv zeta in H. destruct H as (_ & _ & H). exact (H Hk).
Defined.

(* ===================================================================== *)
(** ** Further properties of the re-ranker of job_ranker.py *)
(* ===================================================================== *)

Module IndexFacts.
Section Facts.

Import JobRanker.

Variable py_str : pyval -> string.
Variable model_invoke : string -> exc string.
Variable json_loads : string -> exc pyval.
Variable prompt_text : string -> string -> string.
Variable float_index_in_range : spec_float -> nat -> bool.






End Facts.
End IndexFacts.







(* ===================================================================== *)
(** ** The merge of the command-line front ends *)
(* ===================================================================== *)

Lemma dict_lookup_map_values (f : string -> pyval) (d : pydict) k :
  Dict.lookup k (map (fun kv => (fst kv, f (fst kv))) d)
  = match Dict.lookup k d with
    | Some _ => Some (f k)
    | None => None
    end.
Proof.
  induction d as [|[k' v'] d IH]; simpl; [reflexivity|].
  destruct (String.eqb_spec k k') as [->|Hne]; [reflexivity|exact IH].
Qed.

(** Two dictionaries with the same keys in the same order and the same
    value at every key are equal. *)
Lemma dict_ext (d1 : pydict) : forall d2 : pydict,
  Dict.keys d1 = Dict.keys d2 ->
  List.NoDup (Dict.keys d1) ->
  (forall k, Dict.lookup k d1 = Dict.lookup k d2) ->
  d1 = d2.
Proof.
  induction d1 as [|[k1 v1] d1 IH]; intros [|[k2 v2] d2] Hk Hnd Hl;
    try discriminate; [reflexivity|].
  simpl in Hk. injection Hk as Hk1 Hk. subst k2.
  inversion Hnd as [|? ? Hfresh Hnd']; subst.
  pose proof (Hl k1) as H1. simpl in H1. rewrite String.eqb_refl in H1.
  injection H1 as <-. f_equal. apply IH; [exact Hk|exact Hnd'|].
  intros k. pose proof (Hl k) as Hlk. simpl in Hlk.
  destruct (String.eqb_spec k k1) as [Heq|Hne]; [|exact Hlk].
  rewrite Heq. transitivity (@None pyval).
  - now apply dict_lookup_None.
  - symmetry. apply dict_lookup_None. unfold Dict.keys in *. now rewrite <- Hk.
Qed.

Lemma merge_intent_lookup old new_intent k :
  List.NoDup (Dict.keys new_intent) ->
  Dict.lookup k (merge_intent old new_intent)
  = match Dict.lookup k new_intent with
    | Some v => if truthy v then Some v else Dict.lookup k old
    | None => Dict.lookup k old
    end.
Proof.
  intros Hnd. destruct (Dict.lookup k new_intent) as [v|] eqn:Hk.
  - destruct (truthy v) eqn:Hv.
    + apply merge_intent_overwritten; [exact Hnd|now apply dict_lookup_in|exact Hv].
    + apply merge_intent_untouched. intros w Hin.
      apply (dict_in_lookup _ _ _ Hnd) in Hin. congruence.
  - apply merge_intent_untouched. intros w Hin.
    apply (dict_in_lookup _ _ _ Hnd) in Hin. congruence.
Qed.

Lemma merge_intents_keys existing new_intent :
  Dict.keys (merge_intents existing new_intent) = Dict.keys existing.
Proof. unfold merge_intents, Dict.keys. rewrite map_map. reflexivity. Qed.

Lemma merge_intents_eq existing new_intent :
  List.NoDup (Dict.keys existing) ->
  List.NoDup (Dict.keys new_intent) ->
  incl (Dict.keys new_intent) (Dict.keys existing) ->
  merge_intents existing new_intent = merge_intent existing new_intent.
Proof.
  intros Hnd Hnew Hincl.
  apply dict_ext.
  - rewrite merge_intents_keys. symmetry. now apply merge_intent_keys.
  - now rewrite merge_intents_keys.
  - intros k. rewrite (merge_intent_lookup _ _ _ Hnew).
    unfold merge_intents.
    rewrite (dict_lookup_map_values
               (fun k => py_or (Dict.get k new_intent) (Dict.get k existing))).
    unfold py_or, Dict.get, Dict.get_default.
    destruct (Dict.lookup k existing) as [old|] eqn:Hold.
    + destruct (Dict.lookup k new_intent) as [v|]; [|reflexivity].
      destruct (truthy v); reflexivity.
    + destruct (Dict.lookup k new_intent) as [v|] eqn:Hk; [|reflexivity].
      exfalso. apply dict_lookup_None in Hold. apply Hold, Hincl.
      apply dict_lookup_in in Hk.
      change k with (fst (k, v)). now apply in_map.
Qed.

(** X22. [merge_intents] of the command-line scripts keeps exactly the
    keys of the existing intent, in their order, whatever the new intent
    holds; and on dictionaries where the new intent binds only keys of
    the existing one, as the intents of the session and of
    [parse_intent] do, it computes the same intent as the merge loop of
    [handle_user_query]. *)
Theorem merge_intents_agrees (existing new_intent : pydict) :
  Dict.keys (merge_intents existing new_intent) = Dict.keys existing
  /\ (List.NoDup (Dict.keys existing) ->
      List.NoDup (Dict.keys new_intent) ->
      incl (Dict.keys new_intent) (Dict.keys existing) ->
      merge_intents existing new_intent = merge_intent existing new_intent).
Proof.
  split; [apply merge_intents_keys|apply merge_intents_eq].
Qed.

Lemma merge_intents_agrees_witness :
  List.NoDup (Dict.keys empty_intent)
  /\ List.NoDup (Dict.keys [("salary", PyStr "120000"); ("role", PyStr "")])
  /\ incl (Dict.keys [("salary", PyStr "120000"); ("role", PyStr "")])
          (Dict.keys empty_intent)
  /\ merge_intents empty_intent [("salary", PyStr "120000"); ("role", PyStr "")]
     = merge_intent empty_intent [("salary", PyStr "120000"); ("role", PyStr "")].
Proof.
  assert (H1 : List.NoDup (Dict.keys empty_intent)).
  { repeat (apply List.NoDup_cons; [simpl; intuition discriminate|]).
    apply List.NoDup_nil. }
  assert (H2 : List.NoDup
                 (Dict.keys [("salary", PyStr "120000"); ("role", PyStr "")])).
  { repeat (apply List.NoDup_cons; [simpl; intuition discriminate|]).
    apply List.NoDup_nil. }
  assert (H3 : incl (Dict.keys [("salary", PyStr "120000"); ("role", PyStr "")])
                    (Dict.keys empty_intent)).
  { intros k [<-|[<-|[]]]; simpl; auto 10. }
  split; [exact H1|]. split; [exact H2|]. split; [exact H3|].
  exact (proj2 (merge_intents_agrees empty_intent
                  [("salary", PyStr "120000"); ("role", PyStr "")]) H1 H2 H3).
Defined.

(* ===================================================================== *)
(** ** The retrieval summary *)
(* ===================================================================== *)

Module SummaryFacts.

Import RetrievalSummary.

Lemma count_company_for c c' counts :
  count_for c (count_company c' counts)
  = count_for c counts + (if pyval_eq_dec c c' then 1 else 0).
Proof.
  induction counts as [|[c0 n] counts IH]; simpl.
  - destruct (pyval_eq_dec c c'); reflexivity.
  - destruct (pyval_eq_dec c' c0) as [->|Hne]; simpl.
    + destruct (pyval_eq_dec c c0); lia.
    + destruct (pyval_eq_dec c c0) as [->|Hc].
      * destruct (pyval_eq_dec c0 c'); [congruence|lia].
      * exact IH.
Qed.

Lemma count_company_keys_in c counts x :
  In x (map fst (count_company c counts)) <-> x = c \/ In x (map fst counts).
Proof.
  induction counts as [|[c0 n] counts IH]; simpl.
  - split; [intros [H|[]]; now left|intros [H|[]]; now left].
  - destruct (pyval_eq_dec c c0) as [->|Hne]; simpl.
    + split; [tauto|]. intros [->|H]; [now left|exact H].
    + rewrite IH. split; [tauto|]. intros [->|[H|H]]; tauto.
Qed.

Lemma count_company_nodup c counts :
  List.NoDup (map fst counts) -> List.NoDup (map fst (count_company c counts)).
Proof.
  induction counts as [|[c0 n] counts IH]; simpl; intros Hnd.
  - repeat constructor. intros [].
  - inversion Hnd as [|? ? Hfresh Hnd']; subst.
    destruct (pyval_eq_dec c c0) as [->|Hne]; simpl.
    + now constructor.
    + constructor; [|now apply IH].
      rewrite count_company_keys_in. intros [Heq|Hin]; [congruence|contradiction].
Qed.

Lemma count_company_positive c counts :
  Forall (fun cn => 1 <= snd cn) counts ->
  Forall (fun cn => 1 <= snd cn) (count_company c counts).
Proof.
  induction 1 as [|[c0 n] counts Hn Hrest IH]; simpl.
  - repeat constructor. simpl. lia.
  - destruct (pyval_eq_dec c c0); constructor; simpl in *; try lia; assumption.
Qed.

Lemma count_for_in c n counts :
  List.NoDup (map fst counts) -> In (c, n) counts -> count_for c counts = n.
Proof.
  induction counts as [|[c0 n0] counts IH]; simpl; [tauto|].
  intros Hnd Hin. inversion Hnd as [|? ? Hfresh Hnd']; subst.
  destruct Hin as [[= -> ->]|Hin].
  - destruct (pyval_eq_dec c c); [reflexivity|congruence].
  - destruct (pyval_eq_dec c c0) as [->|Hne]; [|now apply IH].
    exfalso. apply Hfresh. change c0 with (fst (c0, n)). now apply in_map.
Qed.

(** The counting dictionary built from [acc] by the jobs. *)
Lemma fold_counts jobs : forall acc,
  let counts := fold_left (fun acc job => count_company (company_of job) acc)
                          jobs acc in
  (List.NoDup (map fst acc) -> List.NoDup (map fst counts))
  /\ (Forall (fun cn => 1 <= snd cn) acc -> Forall (fun cn => 1 <= snd cn) counts)
  /\ (forall c, count_for c counts
                = count_for c acc
                  + Z.of_nat (count_occ pyval_eq_dec (map company_of jobs) c))
  /\ (forall x, In x (map fst counts)
                <-> In x (map fst acc) \/ In x (map company_of jobs)).
Proof.
  induction jobs as [|job jobs IH]; intros acc; simpl.
  - split; [tauto|]. split; [tauto|]. split; [intros c; lia|]. intros x. tauto.
  - destruct (IH (count_company (company_of job) acc)) as (H1 & H2 & H3 & H4).
    split; [|split; [|split]].
    + intros Hnd. now apply H1, count_company_nodup.
    + intros Hp. now apply H2, count_company_positive.
    + intros c. rewrite H3, count_company_for.
      destruct (pyval_eq_dec c (company_of job)) as [Heq|Hne];
        destruct (pyval_eq_dec (company_of job) c) as [Heq'|Hne'];
        try congruence; lia.
    + intros x. rewrite H4, count_company_keys_in. intuition auto.
Qed.

Lemma count_loop_ok jobs : forall acc,
  Forall summarisable jobs ->
  count_loop jobs acc
  = Ok (fold_left (fun acc job => count_company (company_of job) acc) jobs acc).
Proof.
  induction jobs as [|job jobs IH]; intros acc Hs; simpl; [reflexivity|].
  inversion Hs as [|? ? (_ & c & Hc & Hh) Hrest]; subst.
  unfold Dict.item. rewrite Hc. simpl.
  assert (Hh' : hashable c = true) by (now destruct c). rewrite Hh'.
  unfold company_of, Dict.get, Dict.get_default. rewrite Hc. now apply IH.
Qed.

Lemma scores_of_ok jobs :
  Forall summarisable jobs ->
  scores_of jobs = Ok (map (Dict.get "similarity_score") jobs).
Proof.
  induction 1 as [|job jobs (Hk & _) _ IH]; simpl; [reflexivity|].
  destruct (dict_item_ok _ _ Hk) as (v & Hv). rewrite Hv. simpl. rewrite IH.
  simpl. unfold Dict.item in Hv. unfold Dict.get, Dict.get_default.
  destruct (Dict.lookup "similarity_score" job); [|discriminate].
  now injection Hv as ->.
Qed.

Lemma insert_desc_perm x l : Permutation (insert_desc x l) (x :: l).
Proof.
  induction l as [|y l IH]; simpl; [reflexivity|].
  destruct (snd x <? snd y); [|reflexivity].
  rewrite IH. apply perm_swap.
Qed.

Lemma sorted_desc_perm l : Permutation (sorted_desc l) l.
Proof.
  induction l as [|x l IH]; simpl; [reflexivity|].
  rewrite insert_desc_perm. now constructor.
Qed.

Lemma insert_desc_sorted x l :
  StronglySorted (fun a b : pyval * Z => snd b <= snd a) l ->
  StronglySorted (fun a b : pyval * Z => snd b <= snd a) (insert_desc x l).
Proof.
  induction 1 as [|y l Hs IH Hall]; simpl; [repeat constructor|].
  destruct (Z.ltb_spec (snd x) (snd y)).
  - constructor; [exact IH|].
    apply List.Forall_forall. intros z Hz.
    apply (Permutation_in _ (insert_desc_perm x l)) in Hz as [<-|Hz]; [lia|].
    now apply (proj1 (List.Forall_forall _ _) Hall).
  - constructor; [now constructor|]. constructor; [lia|].
    apply List.Forall_forall. intros z Hz.
    pose proof (proj1 (List.Forall_forall _ _) Hall z Hz). simpl in *. lia.
Qed.

Lemma sorted_desc_sorted l :
  StronglySorted (fun a b : pyval * Z => snd b <= snd a) (sorted_desc l).
Proof.
  induction l as [|x l IH]; simpl; [constructor|now apply insert_desc_sorted].
Qed.

Lemma sorted_firstn {A} (R : A -> A -> Prop) n : forall l,
  StronglySorted R l -> StronglySorted R (firstn n l).
Proof.
  induction n as [|n IH]; intros l Hs; [constructor|].
  destruct Hs as [|x l Hs Hall]; [constructor|]. simpl.
  constructor; [now apply IH|].
  apply List.Forall_forall. intros y Hy. apply DedupFacts.In_firstn in Hy.
  now apply (proj1 (List.Forall_forall _ _) Hall).
Qed.

(** In a sorted list, what comes after the first [n] elements is below
    each of them. *)
Lemma sorted_firstn_skipn {A} (R : A -> A -> Prop) n : forall l a b,
  StronglySorted R l -> In a (firstn n l) -> In b (skipn n l) -> R a b.
Proof.
  induction n as [|n IH]; intros l a b Hs Ha Hb; [destruct Ha|].
  destruct Hs as [|x l Hs Hall]; [destruct Ha|]. simpl in Ha, Hb.
  destruct Ha as [<-|Ha].
  - apply (proj1 (List.Forall_forall _ _) Hall).
    rewrite <- (firstn_skipn n l). apply in_or_app. now right.
  - now apply (IH l).
Qed.

Lemma dict_item_get k d : In k (Dict.keys d) -> Dict.item k d = Ok (Dict.get k d).
Proof.
  intros Hin. destruct (dict_item_ok _ _ Hin) as (v & Hv). rewrite Hv.
  unfold Dict.item in Hv. unfold Dict.get, Dict.get_default.
  destruct (Dict.lookup k d); [|discriminate]. now injection Hv as ->.
Qed.

Lemma last_in {A} (l : list A) (d : A) : l <> [] -> In (List.last l d) l.
Proof.
  induction l as [|x l IH]; [congruence|]. intros _.
  destruct l as [|y l]; [now left|]. right. apply IH. discriminate.
Qed.

(** The summary of a non-empty list of candidates that can be summarised. *)
Lemma summary_ok average_score first rest intent avg :
  Forall summarisable (first :: rest) ->
  average_score (map (Dict.get "similarity_score") (first :: rest)) = Ok avg ->
  get_retrieval_summary average_score (first :: rest) intent
  = Ok [("total_jobs", PyInt (Z.of_nat (List.length (first :: rest))));
        ("avg_similarity_score", avg);
        ("top_companies",
         PyList (map company_entry
                     (firstn 5 (sorted_desc (company_counts (first :: rest))))));
        ("score_range",
         PyDict [("highest", Dict.get "similarity_score" first);
                 ("lowest", Dict.get "similarity_score"
                                     (List.last (first :: rest) first))]);
        ("search_intent", PyDict intent)].
Proof.
  intros Hs Havg. unfold get_retrieval_summary.
  rewrite (scores_of_ok _ Hs). unfold exc_bind at 1. rewrite Havg.
  unfold exc_bind at 1. rewrite (count_loop_ok _ [] Hs). unfold exc_bind at 1.
  assert (Hf : In "similarity_score" (Dict.keys first)).
  { inversion Hs as [|? ? (Hk & _) _]. exact Hk. }
  assert (Hl : In "similarity_score"
                  (Dict.keys (List.last (first :: rest) first))).
  { assert (Hin : In (List.last (first :: rest) first) (first :: rest))
      by (apply last_in; discriminate).
    apply (proj1 (List.Forall_forall _ _) Hs) in Hin. exact (proj1 Hin). }
  rewrite (dict_item_get _ _ Hf). unfold exc_bind at 1.
  rewrite (dict_item_get _ _ Hl). reflexivity.
Qed.

Lemma scores_of_raises jobs job :
  In job jobs -> ~ In "similarity_score" (Dict.keys job) ->
  scores_of jobs = Raise.
Proof.
  induction jobs as [|j jobs IH]; [intros []|]. intros [->|Hin] Hno; simpl.
  - unfold Dict.item. apply dict_lookup_None in Hno. now rewrite Hno.
  - rewrite (IH Hin Hno). now destruct (Dict.item "similarity_score" j).
Qed.

Lemma count_loop_raises jobs job : forall acc,
  In job jobs ->
  (~ In "company" (Dict.keys job)
   \/ exists c, Dict.lookup "company" job = Some c /\ hashable c = false) ->
  count_loop jobs acc = Raise.
Proof.
  induction jobs as [|j jobs IH]; intros acc; [intros []|].
  intros [->|Hin] Hbad; simpl.
  - unfold Dict.item. destruct Hbad as [Hno|(c & Hc & Hh)].
    + apply dict_lookup_None in Hno. now rewrite Hno.
    + rewrite Hc. simpl. now rewrite Hh.
  - destruct (Dict.item "company" j) as [c|]; [|reflexivity]. simpl.
    destruct (hashable c); [|reflexivity]. now apply IH.
Qed.

End SummaryFacts.

(** X23 ([JobRetriever.get_retrieval_summary]).  For an empty list of
    candidates the summary has three entries only: totals of zero and no
    companies, without a score range or the intent.  For candidates
    [first :: rest] that all have a similarity score and a string or
    [None] as company, and whose scores average to [avg], the summary has
    five entries: the number of candidates, [avg], the top companies, the
    first candidate's score as the highest and the last candidate's score
    as the lowest (whatever the scores in between), and the intent
    unchanged.  A candidate without a score or a company, or with a list
    or dictionary as company, makes the call raise, and so does a failing
    average. *)
Theorem get_retrieval_summary_outcome
    (average_score : list pyval -> exc pyval) (jobs : list pydict)
    (intent : pydict) :
  let summary :=
    RetrievalSummary.get_retrieval_summary average_score jobs intent in
  let scores := map (Dict.get "similarity_score") jobs in
  (jobs = [] ->
   summary = Ok [("total_jobs", PyInt 0); ("avg_similarity_score", PyInt 0);
                 ("top_companies", PyList [])])
  /\ (forall first rest avg,
        jobs = first :: rest -> Forall summarisable jobs ->
        average_score scores = Ok avg ->
        exists top_companies,
          summary
          = Ok [("total_jobs", PyInt (Z.of_nat (List.length jobs)));
                ("avg_similarity_score", avg);
                ("top_companies", PyList top_companies);
                ("score_range",
                 PyDict [("highest", Dict.get "similarity_score" first);
                         ("lowest", Dict.get "similarity_score"
                                             (List.last rest first))]);
                ("search_intent", PyDict intent)])
  /\ (forall job, In job jobs -> unsummarisable job -> summary = Raise)
  /\ (jobs <> [] -> Forall summarisable jobs ->
      average_score scores = Raise -> summary = Raise).
Proof.
  cbv zeta. split; [|split; [|split]].
  - now intros ->.
  - intros first rest avg -> Hs Havg. eexists.
    rewrite (SummaryFacts.summary_ok _ _ _ _ _ Hs Havg).
    replace (List.last (first :: rest) first) with (List.last rest first);
      [reflexivity|].
    now destruct rest.
  - intros job Hin Hbad. destruct jobs as [|first rest]; [destruct Hin|].
    unfold RetrievalSummary.get_retrieval_summary.
    destruct Hbad as [Hno|Hbad].
    + now rewrite (SummaryFacts.scores_of_raises _ _ Hin Hno).
    + rewrite (SummaryFacts.count_loop_raises _ _ [] Hin Hbad).
      destruct (RetrievalSummary.scores_of (first :: rest)) as [scores|];
        [|reflexivity].
      simpl. now destruct (average_score scores).
  - intros Hne Hs Havg. destruct jobs as [|first rest]; [congruence|].
    unfold RetrievalSummary.get_retrieval_summary.
    rewrite (SummaryFacts.scores_of_ok _ Hs). unfold exc_bind at 1.
    now rewrite Havg.
Qed.

Lemma get_retrieval_summary_outcome_witness :
  Forall summarisable three_candidates
  /\ average_two (map (Dict.get "similarity_score") three_candidates)
     = Ok (PyFloat two)
  /\ (exists top_companies,
        RetrievalSummary.get_retrieval_summary average_two three_candidates
          [("role", PyStr "engineer")]
        = Ok [("total_jobs", PyInt 3);
              ("avg_similarity_score", PyFloat two);
              ("top_companies", PyList top_companies);
              ("score_range",
               PyDict [("highest", PyInt 3); ("lowest", PyInt 1)]);
              ("search_intent", PyDict [("role", PyStr "engineer")])])
  /\ unsummarisable [("title", PyStr "Data Scientist")]
  /\ RetrievalSummary.get_retrieval_summary average_two
       (three_candidates ++ [[("title", PyStr "Data Scientist")]])%list
       [("role", PyStr "engineer")]
     = Raise.
Proof.
  assert (Hs : Forall summarisable three_candidates).
  { repeat (apply List.Forall_cons;
            [split; [simpl; auto 10|eexists; split; reflexivity]|]).
    apply List.Forall_nil. }
  assert (Havg : average_two (map (Dict.get "similarity_score") three_candidates)
                 = Ok (PyFloat two)) by reflexivity.
  assert (Hbad : unsummarisable [("title", PyStr "Data Scientist")]).
  { left. simpl. intuition discriminate. }
  split; [exact Hs|]. split; [exact Havg|]. split; [|split; [exact Hbad|]].
  - pose proof (get_retrieval_summary_outcome average_two three_candidates
                  [("role", PyStr "engineer")]) as H.
    cbv zeta in H. destruct H as (_ & H & _).
    exact (H _ _ (PyFloat two) eq_refl Hs Havg).
  - pose proof (get_retrieval_summary_outcome average_two
                  (three_candidates ++ [[("title", PyStr "Data Scientist")]])%list
                  [("role", PyStr "engineer")]) as H.
    cbv zeta in H. destruct H as (_ & _ & H & _).
    apply (H [("title", PyStr "Data Scientist")]); [|exact Hbad].
    apply in_or_app. right. now left.
Defined.

(** X24 ([JobRetriever.get_retrieval_summary], the [top_companies]
    entry).  For a non-empty list of candidates that can be summarised,
    the entry lists at most five companies, each once, by decreasing
    number of candidates; the [job_count] of a listed company is the
    number of candidates of that company, at least one; a company that
    is not listed has no more candidates than any listed one; and
    either every candidate's company is listed or exactly five are. *)
Theorem get_retrieval_summary_top_companies
    (average_score : list pyval -> exc pyval) (jobs : list pydict)
    (intent : pydict) (avg : pyval) :
  jobs <> [] -> Forall summarisable jobs ->
  average_score (map (Dict.get "similarity_score") jobs) = Ok avg ->
  exists summary top,
    RetrievalSummary.get_retrieval_summary average_score jobs intent
    = Ok summary
    /\ Dict.lookup "top_companies" summary
       = Some (PyList (map RetrievalSummary.company_entry top))
    /\ (List.length top <= 5)%nat
    /\ List.NoDup (map fst top)
    /\ StronglySorted (fun a b : pyval * Z => snd b <= snd a) top
    /\ (forall c n, In (c, n) top -> n = jobs_at jobs c /\ 1 <= n)
    /\ (forall job, In job jobs ->
          In (company_of job) (map fst top)
          \/ forall c n, In (c, n) top -> jobs_at jobs (company_of job) <= n)
    /\ ((forall job, In job jobs -> In (company_of job) (map fst top))
        \/ List.length top = 5%nat).
Proof.
  intros Hne Hs Havg. destruct jobs as [|first rest]; [congruence|].
  set (jobs := first :: rest) in *.
  set (counts := company_counts jobs).
  set (sorted := RetrievalSummary.sorted_desc counts).
  destruct (SummaryFacts.fold_counts jobs []) as (Hnd & Hpos & Hfor & Hkeys).
  fold (company_counts jobs) in Hnd, Hpos, Hfor, Hkeys. fold counts in Hnd, Hpos, Hfor, Hkeys.
  specialize (Hnd (List.NoDup_nil _)). specialize (Hpos (List.Forall_nil _)).
  pose proof (SummaryFacts.sorted_desc_perm counts) as Hperm. fold sorted in Hperm.
  pose proof (SummaryFacts.sorted_desc_sorted counts) as Hsorted.
  fold sorted in Hsorted.
  assert (Hcount : forall c n, In (c, n) sorted -> n = jobs_at jobs c /\ 1 <= n).
  { intros c n Hin. apply (Permutation_in _ Hperm) in Hin. split.
    - rewrite <- (SummaryFacts.count_for_in _ _ _ Hnd Hin), Hfor. reflexivity.
    - exact (proj1 (List.Forall_forall _ _) Hpos _ Hin). }
  assert (Hlisted : forall job, In job jobs ->
            exists n, In (company_of job, n) sorted).
  { intros job Hin.
    assert (Hk : In (company_of job) (map fst counts)).
    { apply Hkeys. right. now apply in_map. }
    apply in_map_iff in Hk as ([c n] & Hc & Hcn). simpl in Hc. subst c.
    exists n. now apply (Permutation_in _ (Permutation_sym Hperm)). }
  exists [("total_jobs", PyInt (Z.of_nat (List.length jobs)));
          ("avg_similarity_score", avg);
          ("top_companies",
           PyList (map RetrievalSummary.company_entry (firstn 5 sorted)));
          ("score_range",
           PyDict [("highest", Dict.get "similarity_score" first);
                   ("lowest", Dict.get "similarity_score"
                                       (List.last jobs first))]);
          ("search_intent", PyDict intent)], (firstn 5 sorted).
  split; [exact (SummaryFacts.summary_ok _ _ _ _ _ Hs Havg)|].
  split; [reflexivity|].
  split; [apply firstn_le_length|].
  split.
  { rewrite <- firstn_map. apply DedupFacts.NoDup_firstn.
    apply (Permutation_NoDup (Permutation_map fst (Permutation_sym Hperm))).
    exact Hnd. }
  split; [now apply SummaryFacts.sorted_firstn|].
  split.
  { intros c n Hin. apply Hcount. eapply DedupFacts.In_firstn. exact Hin. }
  split.
  - intros job Hin. destruct (Hlisted job Hin) as (n0 & Hn0).
    rewrite <- (firstn_skipn 5 sorted) in Hn0.
    apply in_app_or in Hn0 as [Hn0|Hn0].
    + left. change (company_of job) with (fst (company_of job, n0)).
      now apply in_map.
    + right. intros c n Hcn.
      pose proof (SummaryFacts.sorted_firstn_skipn _ 5 sorted _ _
                    Hsorted Hcn Hn0) as Hle. simpl in Hle.
      assert (Hin0 : In (company_of job, n0) sorted).
      { rewrite <- (firstn_skipn 5 sorted). apply in_or_app. now right. }
      destruct (Hcount _ _ Hin0) as (<- & _). exact Hle.
  - destruct (Nat.le_gt_cases (List.length sorted) 5) as [Hle|Hgt].
    + left. intros job Hin. destruct (Hlisted job Hin) as (n0 & Hn0).
      rewrite (firstn_all2 sorted Hle).
      change (company_of job) with (fst (company_of job, n0)).
      now apply in_map.
    + right. rewrite length_firstn. lia.
Qed.

Lemma get_retrieval_summary_top_companies_witness :
  three_candidates <> []
  /\ Forall summarisable three_candidates
  /\ average_two (map (Dict.get "similarity_score") three_candidates)
     = Ok (PyFloat two)
  /\ exists summary top,
       RetrievalSummary.get_retrieval_summary average_two three_candidates
                                              [("role", PyStr "engineer")]
       = Ok summary
       /\ Dict.lookup "top_companies" summary
          = Some (PyList (map RetrievalSummary.company_entry top))
       /\ (List.length top <= 5)%nat
       /\ List.NoDup (map fst top)
       /\ StronglySorted (fun a b : pyval * Z => snd b <= snd a) top
       /\ (forall c n, In (c, n) top -> n = jobs_at three_candidates c /\ 1 <= n)
       /\ (forall job, In job three_candidates ->
             In (company_of job) (map fst top)
             \/ forall c n, In (c, n) top ->
                  jobs_at three_candidates (company_of job) <= n)
       /\ ((forall job, In job three_candidates ->
              In (company_of job) (map fst top))
           \/ List.length top = 5%nat).
Proof.
  assert (Hne : three_candidates <> []) by discriminate.
  assert (Hs : Forall summarisable three_candidates).
  { repeat (apply List.Forall_cons;
            [split; [simpl; auto 10|eexists; split; reflexivity]|]).
    apply List.Forall_nil. }
  assert (Havg : average_two (map (Dict.get "similarity_score") three_candidates)
                 = Ok (PyFloat two)) by reflexivity.
  split; [exact Hne|]. split; [exact Hs|]. split; [exact Havg|].
  exact (get_retrieval_summary_top_companies
           average_two three_candidates [("role", PyStr "engineer")]
           (PyFloat two) Hne Hs Havg).
Defined.

(* ===================================================================== *)
(** ** The command-line collection loop *)
(* ===================================================================== *)

Lemma merge_intents_session i chain_invoke user_input :
  Dict.keys i = INTENT_FIELDS ->
  merge_intents i (parsed_intent chain_invoke user_input)
  = merge_intent i (parsed_intent chain_invoke user_input).
Proof.
  intros Hk. apply merge_intents_eq; rewrite ?parsed_intent_keys, ?Hk.
  - apply intent_fields_nodup.
  - apply intent_fields_nodup.
  - apply incl_refl.
Qed.

Lemma with_intent_same s : with_intent (intent s) s = s.
Proof. now destruct s. Qed.

(** The loop run on a store that holds the session of the user. *)
Lemma collect_run user_id n : forall inputs out st s,
  st !! user_id = Some s ->
  CliAssistant.collect user_id n inputs out st
  = match collected n inputs (intent s) out with
    | Some (out', rest, i') =>
        Ok ((out', rest), <[user_id := with_intent i' s]> st)
    | None => Raise
    end.
Proof.
  induction n as [|n IH]; intros inputs out st s Hs.
  - simpl. unfold ret. rewrite with_intent_same, insert_id by exact Hs.
    reflexivity.
  - destruct inputs as [|t rest]; [reflexivity|].
    cbn beta iota delta [CliAssistant.collect collected]. fold CliAssistant.collect. fold collected.
    cbv beta zeta delta [bind lift update_ref deref ret].
    rewrite parse_intent_total, Hs, lookup_insert_eq.
    cbn beta iota zeta delta [intent attempts chat_history fst snd].
    destruct (is_critical_missing _) eqn:Hc; cbn [negb].
    + rewrite get_followup_question_total.
      erewrite IH by apply lookup_insert_eq.
      cbn beta iota zeta delta [intent attempts chat_history fst snd].
      destruct (collected n rest _ _) as [[[out' rest'] i']|]; [|reflexivity].
      now rewrite insert_insert_eq.
    + reflexivity.
Qed.

Lemma responses_cons t ts s :
  responses (t :: ts) s
  = fst (step_session (turn_services t) (utterance t) s)
    :: responses ts (snd (step_session (turn_services t) (utterance t) s)).
Proof. reflexivity. Qed.

(** The three outcomes of one call of the orchestrator. *)
Lemma step_session_cases svc user_input s :
  let merged :=
    merge_intent (intent s) (parsed_intent (intent_chain svc) user_input) in
  let followup := followup_for (followup_chain svc) merged in
  let r := fst (step_session svc user_input s) in
  let s' := snd (step_session svc user_input s) in
  intent s' = merged
  /\ (is_critical_missing merged = false ->
      resp_type r = "intent_complete" /\ resp_intent r = merged)
  /\ (is_critical_missing merged = true -> MAX_ATTEMPTS <= attempts s + 1 ->
      resp_type r = "error" /\ resp_intent r = merged)
  /\ (is_critical_missing merged = true -> attempts s + 1 < MAX_ATTEMPTS ->
      r = RespFollowup followup merged /\ attempts s' = attempts s + 1).
Proof.
  cbv zeta. unfold step_session.
  destruct (is_critical_missing _) eqn:Hc;
    [destruct (Z.geb_spec (attempts s + 1) MAX_ATTEMPTS)|];
    simpl; repeat split; intros; try discriminate; try lia; reflexivity.
Qed.

(** The collection loop against the orchestrator: started on the same
    intent with as many tries as the orchestrator has attempts left, the
    loop reads the turns up to the orchestrator's first answer that is
    not a follow-up, and ends with the intent of that answer. *)
Lemma collected_spec n : forall inputs s out,
  Dict.keys (intent s) = INTENT_FIELDS ->
  attempts s + Z.of_nat n = MAX_ATTEMPTS ->
  (1 <= n)%nat -> (n <= List.length inputs)%nat ->
  exists consumed rest front r asked i',
    collected n inputs (intent s) out = Some ((out ++ asked)%list, rest, i')
    /\ inputs = (consumed ++ rest)%list
    /\ (1 <= List.length consumed <= n)%nat
    /\ responses consumed s = (front ++ [r])%list
    /\ Forall (fun r => resp_type r = "followup_required") front
    /\ resp_intent r = i'
    /\ (forall q i, In (RespFollowup q i) front ->
                    In (CliAssistant.Assistant q) asked)
    /\ Forall (fun l => exists q, l = CliAssistant.Assistant q) asked
    /\ ((resp_type r = "error" /\ is_critical_missing i' = true
         /\ List.length consumed = n)
        \/ (resp_type r = "intent_complete" /\ is_critical_missing i' = false)).
Proof.
  induction n as [|n IH]; intros inputs s out Hk Ha Hn Hlen; [lia|].
  destruct inputs as [|t rest0]; [simpl in Hlen; lia|].
  cbn beta iota delta [collected]. fold collected.
  rewrite (merge_intents_session _ _ _ Hk).
  destruct (step_session_cases (turn_services t) (utterance t) s)
    as (Hi & Hcomplete & Herror & Hfollow).
  set (merged := merge_intent (intent s)
                   (parsed_intent (intent_chain (turn_services t))
                                  (utterance t))) in *.
  assert (Hmk : Dict.keys merged = INTENT_FIELDS).
  { subst merged. rewrite merge_intent_keys; [exact Hk|].
    rewrite parsed_intent_keys, Hk. apply incl_refl. }
  cbv zeta.
  destruct (is_critical_missing merged) eqn:Hc; cbn [negb].
  - destruct n as [|n].
    + destruct Herror as (Ht & Hri); [reflexivity|lia|].
      eexists [t], rest0, [],
              (fst (step_session (turn_services t) (utterance t) s)), _, merged.
      cbn [collected].
      split; [reflexivity|]. split; [reflexivity|]. split; [simpl; lia|].
      split; [reflexivity|]. split; [constructor|]. split; [exact Hri|].
      split; [intros q i []|].
      split; [repeat constructor; now eexists|].
      left. now repeat split.
    + destruct Hfollow as (Hr & Hatt); [reflexivity|lia|].
      destruct (IH rest0 (snd (step_session (turn_services t) (utterance t) s))
                  (out ++ [CliAssistant.Assistant
                             (followup_for (followup_chain (turn_services t))
                                           merged)])%list)
        as (consumed & rest & front & r & asked & i' & Hcol & Hin & Hl & Hrs
            & Hfront & Hri & Hq & Hasked & Hverdict).
      * now rewrite Hi.
      * rewrite Hatt. lia.
      * lia.
      * simpl in Hlen. lia.
      * rewrite Hi in Hcol.
        eexists (t :: consumed), rest,
                (fst (step_session (turn_services t) (utterance t) s) :: front),
                r, _, i'.
        split; [rewrite Hcol, <- app_assoc; reflexivity|].
        split; [simpl; now rewrite Hin|]. split; [simpl; lia|].
        split; [rewrite responses_cons, Hrs; reflexivity|].
        split; [constructor; [now rewrite Hr|exact Hfront]|].
        split; [exact Hri|].
        split.
        { intros q i [Heq|Hqi].
          - rewrite Hr in Heq. injection Heq as <- _. now left.
          - right. now apply (Hq q i). }
        split; [constructor; [now eexists|exact Hasked]|].
        destruct Hverdict as [(Ht & Hcr & Hlc)|Hv]; [left|now right].
        repeat split; [exact Ht|exact Hcr|simpl; now rewrite Hlc].
  - destruct Hcomplete as (Ht & Hri); [reflexivity|].
    exists [t], rest0, [], (fst (step_session (turn_services t) (utterance t) s)),
           [], merged.
    split; [now rewrite app_nil_r|]. split; [reflexivity|].
    split; [simpl; lia|]. split; [reflexivity|]. split; [constructor|].
    split; [exact Hri|]. split; [intros q i []|]. split; [constructor|].
    right. now split.
Qed.

(** X25 ([run_cli_assistant] of [scripts/CLI_job_assistant.py] against
    [handle_user_query]).  With at least three lines on the standard
    input the script returns.  It reads between one and three lines,
    [consumed], and on these lines the orchestrator, started without a
    session for the user, answers with follow-ups up to a last answer
    that is "error" or "intent_complete".  The script leaves in the
    store, for its user, the intent of that last answer, with no attempt
    counted and no chat history; other users' sessions are untouched.
    Every follow-up question of the orchestrator was printed by the
    script.  When the last answer is "error" the script has read three
    lines and its last print is the failure notice; when it is
    "intent_complete" the script has printed the intent and no failure
    notice. *)
Theorem run_cli_assistant_agrees (closing : services) (user_id : string)
    (inputs : list turn) (st : user_sessions) :
  (3 <= List.length inputs)%nat ->
  exists out consumed rest st' front r st'' s',
    CliAssistant.run_cli_assistant closing user_id inputs st
    = Ok ((out, rest), st')
    /\ inputs = (consumed ++ rest)%list
    /\ (1 <= List.length consumed <= 3)%nat
    /\ run_turns user_id consumed (delete user_id st)
       = Ok ((front ++ [r])%list, st'')
    /\ Forall (fun r => resp_type r = "followup_required") front
    /\ st' !! user_id = Some s' /\ intent s' = resp_intent r
    /\ attempts s' = 0 /\ chat_history s' = []
    /\ (forall u, u <> user_id -> st' !! u = st !! u)
    /\ (forall q i, In (RespFollowup q i) front ->
                    In (CliAssistant.Assistant q) out)
    /\ ((resp_type r = "error" /\ List.length consumed = 3%nat
         /\ List.last out CliAssistant.Welcome = CliAssistant.Unclear)
        \/ (resp_type r = "intent_complete"
            /\ In (CliAssistant.Parsed (intent s')) out
            /\ ~ In CliAssistant.Unclear out)).
Proof.
  intros Hlen.
  destruct (collected_spec 3 inputs new_session [CliAssistant.Welcome])
    as (consumed & rest & front & r & asked & i' & Hcol & Hin & Hl & Hrs
        & Hfront & Hri & Hq & Hasked & Hverdict);
    [reflexivity|reflexivity|lia|exact Hlen|].
  destruct (run_turns_run user_id consumed (delete user_id st))
    as (st'' & Hrun & _).
  assert (Hfresh : session_of (delete user_id st) user_id = new_session).
  { unfold session_of. now rewrite lookup_delete_eq. }
  rewrite Hfresh, Hrs in Hrun.
  set (st1 := <[user_id := new_session]> (delete user_id st)).
  assert (Hcollect :
    CliAssistant.collect user_id 3 inputs [CliAssistant.Welcome] st1
    = Ok (([CliAssistant.Welcome] ++ asked, rest)%list,
          <[user_id := with_intent i' new_session]> st1)).
  { rewrite (collect_run user_id 3 inputs _ st1 new_session)
      by apply lookup_insert_eq.
    now rewrite Hcol. }
  assert (Hother : forall u, u <> user_id ->
            (<[user_id := with_intent i' new_session]> st1) !! u = st !! u).
  { intros u Hu. subst st1.
    rewrite !lookup_insert_ne by congruence. now apply lookup_delete_ne. }
  assert (Hstart :
    CliAssistant.run_cli_assistant closing user_id inputs st
    = (session <- deref user_id ;;
       if is_critical_missing (intent session) then
         ret (([CliAssistant.Welcome] ++ asked ++ [CliAssistant.Unclear])%list,
              rest)
       else
         followup_optional <- lift (get_followup_question
                                      (followup_chain closing)
                                      (intent session)) ;;
         ret (([CliAssistant.Welcome] ++ asked
               ++ [CliAssistant.Parsed (intent session);
                   if truthy_opt followup_optional
                   then CliAssistant.Optional followup_optional
                   else CliAssistant.AllSet])%list, rest))
        (<[user_id := with_intent i' new_session]> st1)).
  { unfold CliAssistant.run_cli_assistant.
    unfold bind at 1. unfold reset_session.
    unfold bind at 1. unfold get_session. rewrite lookup_delete_eq.
    fold st1. unfold bind at 1.
    change (Z.to_nat CliAssistant.MAX_ATTEMPTS) with 3%nat.
    rewrite Hcollect. cbn [fst snd]. now rewrite <- !app_assoc. }
  rewrite Hstart. unfold bind at 1. unfold deref. rewrite lookup_insert_eq.
  cbn [intent with_intent].
  destruct Hverdict as [(Ht & Hc & Hn)|(Ht & Hc)]; rewrite Hc.
  - eexists _, consumed, rest, _, front, r, st'', _.
    split; [reflexivity|]. split; [exact Hin|]. split; [exact Hl|].
    split; [exact Hrun|]. split; [exact Hfront|].
    split; [apply lookup_insert_eq|]. split; [now rewrite Hri|].
    split; [reflexivity|]. split; [reflexivity|]. split; [exact Hother|].
    split.
    { intros q i Hqi. cbn [app]. right. apply in_or_app. left.
      now apply (Hq q i). }
    left. split; [exact Ht|]. split; [exact Hn|]. cbn [app].
    change (CliAssistant.Welcome :: (asked ++ [CliAssistant.Unclear])%list)
      with ((CliAssistant.Welcome :: asked) ++ [CliAssistant.Unclear])%list.
    apply last_last.
  - unfold bind at 1. rewrite get_followup_question_total. unfold lift, ret.
    eexists _, consumed, rest, _, front, r, st'', _.
    split; [reflexivity|]. split; [exact Hin|]. split; [exact Hl|].
    split; [exact Hrun|]. split; [exact Hfront|].
    split; [apply lookup_insert_eq|]. split; [now rewrite Hri|].
    split; [reflexivity|]. split; [reflexivity|]. split; [exact Hother|].
    split.
    { intros q i Hqi. cbn [app]. right. apply in_or_app. left.
      now apply (Hq q i). }
    right. split; [exact Ht|]. split.
    + cbn [app]. right. apply in_or_app. right. now left.
    + cbn [app]. intros [Hw|Hu]; [discriminate|].
      apply in_app_or in Hu as [Hu|[Hu|[Hu|[]]]].
      * apply (proj1 (List.Forall_forall _ _) Hasked) in Hu as (q & Hu).
        discriminate.
      * discriminate.
      * destruct (truthy_opt _); discriminate.
Qed.

Lemma run_cli_assistant_agrees_witness :
  (3 <= List.length three_lines)%nat
  /\ exists out consumed rest st' front r st'' s',
       CliAssistant.run_cli_assistant svc_required "cli_user" three_lines ∅
       = Ok ((out, rest), st')
       /\ three_lines = (consumed ++ rest)%list
       /\ (1 <= List.length consumed <= 3)%nat
       /\ run_turns "cli_user" consumed (delete "cli_user" ∅)
          = Ok ((front ++ [r])%list, st'')
       /\ Forall (fun r => resp_type r = "followup_required") front
       /\ st' !! "cli_user" = Some s' /\ intent s' = resp_intent r
       /\ attempts s' = 0 /\ chat_history s' = []
       /\ (forall u, u <> "cli_user" -> st' !! u = (∅ : user_sessions) !! u)
       /\ (forall q i, In (RespFollowup q i) front ->
                       In (CliAssistant.Assistant q) out)
       /\ ((resp_type r = "error" /\ List.length consumed = 3%nat
            /\ List.last out CliAssistant.Welcome = CliAssistant.Unclear)
           \/ (resp_type r = "intent_complete"
               /\ In (CliAssistant.Parsed (intent s')) out
               /\ ~ In CliAssistant.Unclear out)).
Proof.
  split; [simpl; lia|].
  apply (run_cli_assistant_agrees svc_required "cli_user" three_lines ∅).
  simpl; lia.
Defined.

(** The loop runs out of input when the orchestrator would still be
    asking after the last line. *)
Lemma collected_short n : forall inputs s out,
  attempts s + Z.of_nat n = MAX_ATTEMPTS ->
  Dict.keys (intent s) = INTENT_FIELDS ->
  (List.length inputs < n)%nat ->
  Forall (fun r => resp_type r = "followup_required") (responses inputs s) ->
  collected n inputs (intent s) out = None.
Proof.
  induction n as [|n IH]; intros inputs s out Ha Hk Hlen Hall; [lia|].
  destruct inputs as [|t rest]; [reflexivity|].
  cbn beta iota delta [collected]. fold collected.
  rewrite (merge_intents_session _ _ _ Hk).
  rewrite responses_cons in Hall.
  inversion Hall as [|? ? Hr Hrest]; subst.
  destruct (step_session_cases (turn_services t) (utterance t) s)
    as (Hi & Hcomplete & Herror & Hfollow).
  set (merged := merge_intent (intent s)
                   (parsed_intent (intent_chain (turn_services t))
                                  (utterance t))) in *.
  cbv zeta. destruct (is_critical_missing merged) eqn:Hc; cbn [negb].
  - simpl in Hlen.
    destruct Hfollow as (_ & Hatt); [reflexivity|unfold MAX_ATTEMPTS in *; lia|].
    rewrite <- Hi. apply IH.
    + rewrite Hatt. lia.
    + rewrite Hi. subst merged. rewrite merge_intent_keys; [exact Hk|].
      rewrite parsed_intent_keys, Hk. apply incl_refl.
    + lia.
    + exact Hrest.
  - destruct Hcomplete as (Ht & _); [reflexivity|]. rewrite Ht in Hr.
    discriminate.
Qed.

(** X26 ([run_cli_assistant], end of input).  When the standard input
    holds fewer than three lines and the orchestrator, started without a
    session for the user, answers each of them with a follow-up, the
    script does not return: [input()] raises at the end of the input. *)
Theorem run_cli_assistant_end_of_input (closing : services)
    (user_id : string) (inputs : list turn) (st st'' : user_sessions)
    (rs : list response) :
  (List.length inputs < 3)%nat ->
  run_turns user_id inputs (delete user_id st) = Ok (rs, st'') ->
  Forall (fun r => resp_type r = "followup_required") rs ->
  CliAssistant.run_cli_assistant closing user_id inputs st = Raise.
Proof.
  intros Hlen Hrun Hall.
  destruct (run_turns_run user_id inputs (delete user_id st))
    as (st2 & Hrun2 & _).
  rewrite Hrun in Hrun2. injection Hrun2 as -> _.
  assert (Hfresh : session_of (delete user_id st) user_id = new_session).
  { unfold session_of. now rewrite lookup_delete_eq. }
  rewrite Hfresh in Hall.
  unfold CliAssistant.run_cli_assistant.
  unfold bind at 1. unfold reset_session.
  unfold bind at 1. unfold get_session. rewrite lookup_delete_eq.
  unfold bind at 1.
  change (Z.to_nat CliAssistant.MAX_ATTEMPTS) with 3%nat.
  rewrite (collect_run user_id 3 inputs _ _ new_session)
    by apply lookup_insert_eq.
  now rewrite (collected_short 3 inputs new_session _ eq_refl eq_refl Hlen Hall).
Qed.

Lemma run_cli_assistant_end_of_input_witness :
  (List.length [Turn "a data analyst job" svc_role_only] < 3)%nat
  /\ CliAssistant.run_cli_assistant svc_required "cli_user"
       [Turn "a data analyst job" svc_role_only] ∅
     = Raise.
Proof.
  split; [simpl; lia|].
  destruct (run_turns_run "cli_user" [Turn "a data analyst job" svc_role_only]
              (delete "cli_user" ∅)) as (st'' & Hrun & _).
  refine (run_cli_assistant_end_of_input svc_required "cli_user"
            [Turn "a data analyst job" svc_role_only] ∅ st'' _ _ Hrun _).
  - simpl; lia.
  - apply List.Forall_cons; [vm_compute; reflexivity|apply List.Forall_nil].
Defined.
